(** * C64 emulator core: banked memory, 6502 CPU and VIC-II raster counter

    A shallow embedding of [src/emulator/Memory.js], of the [MOS6502]
    class and of [VIC2.cycle], followed by the properties of the
    specification that concern them.

    Conventions.
    - JavaScript numbers that the code keeps integral are [Z]. The bit
      operators [&], [|], [<<], [>>] are [Z.land], [Z.lor], [Z.shiftl],
      [Z.shiftr]; on the 32-bit range they agree with JavaScript,
      negative operands included (two's complement on both sides).
    - A [Uint8Array] is a finite map from index to byte, zero where
      nothing was stored; a store keeps the value modulo 256.
    - Methods that mutate [this] are state transformers. *)

From Stdlib Require Import ZArith Lia Bool List.
From stdpp Require Import base option list gmap strings.

Local Open Scope Z_scope.

(** ** JavaScript helpers *)

(** Truthiness of a number in a condition: [if (x)] . *)
Definition truthy (x : Z) : bool := negb (x =? 0).

(** [lo <= x && x <= hi] *)
Definition between (lo hi x : Z) : bool := (lo <=? x) && (x <=? hi).

(** ** Uint8Array *)

Module U8.
(** [a[i]] for an index inside the array. *)
Definition get (a : gmap Z Z) (i : Z) : Z := default 0 (a !! i).

(** [a[i] = v]: the element type keeps the low eight bits. *)
Definition set (a : gmap Z Z) (i v : Z) : gmap Z Z := <[ i := v mod 256 ]> a.

(** [a.fill(v)] on an array of [n] cells. *)
Definition fill (n : nat) (v : Z) : gmap Z Z :=
  list_to_map (map (fun i => (Z.of_nat i, v mod 256)) (seq 0 n)).
End U8.

(** ** Memory.js *)

Section MemoryModel.

(** State of whatever the I/O callbacks close over (the chips). *)
Context {Dev : Type}.

(** One entry of [ioHandlers]: [{start, end, read, write}]. A read
    callback returns a value and may change the chip (status registers,
    random sources); a write callback changes the chip. *)
Record Handler := mkHandler {
  h_start : Z;
  h_end : Z;
  h_read : Z -> Dev -> Z * Dev;
  h_write : Z -> Z -> Dev -> Dev
}.

Record Memory := mkMemory {
  ram : gmap Z Z;          (* new Uint8Array(65536) *)
  rom : gmap Z Z;          (* new Uint8Array(65536) *)
  charset : gmap Z Z;      (* new Uint8Array(4096) *)
  colorRAM : gmap Z Z;     (* new Uint8Array(1024) *)
  ioHandlers : list Handler; (* Map, in insertion order *)
  bankConfig : Z
}.

(** [new Memory()] *)
Definition Memory_new : Memory :=
  {| ram := ∅; rom := ∅; charset := ∅;
     colorRAM := U8.fill 1024 14;
     ioHandlers := [];
     bankConfig := 0x37 |}.

(** [Map.prototype.set] under the key [`${start}-${end}`]: an entry with
    the same key is replaced where it stands, a new key goes last. *)
Fixpoint map_set (hs : list Handler) (h : Handler) : list Handler :=
  match hs with
  | [] => [h]
  | h' :: rest =>
      if (h_start h' =? h_start h) && (h_end h' =? h_end h)
      then h :: rest
      else h' :: map_set rest h
  end.

Definition setIOHandler (m : Memory) (startAddr endAddr : Z)
    (readHandler : Z -> Dev -> Z * Dev)
    (writeHandler : Z -> Z -> Dev -> Dev) : Memory :=
  {| ram := ram m; rom := rom m; charset := charset m;
     colorRAM := colorRAM m;
     ioHandlers := map_set (ioHandlers m)
                     (mkHandler startAddr endAddr readHandler writeHandler);
     bankConfig := bankConfig m |}.

(** The loop [for (const [range, handler] of this.ioHandlers)] with its
    test: the first entry whose range contains the address. *)
Fixpoint io_dispatch (hs : list Handler) (address : Z) : option Handler :=
  match hs with
  | [] => None
  | handler :: rest =>
      if (h_start handler <=? address) && (address <=? h_end handler)
      then Some handler
      else io_dispatch rest address
  end.

Definition read (m : Memory) (address : Z) (d : Dev) : Z * Dev :=
  let address := Z.land address 0xFFFF in
  if between 0xD800 0xDBFF address then
    (Z.land (U8.get (colorRAM m) (address - 0xD800)) 0x0F, d)
  else
    match io_dispatch (ioHandlers m) address with
    | Some handler => h_read handler address d
    | None =>
        let config := bankConfig m in
        if between 0xA000 0xBFFF address then
          if truthy (Z.land config 0x01)
          then (U8.get (rom m) address, d)
          else (U8.get (ram m) address, d)
        else if between 0xD000 0xDFFF address then
          if negb (truthy (Z.land config 0x04))
          then (U8.get (charset m) (address - 0xD000), d)
          else (U8.get (ram m) address, d)
        else if between 0xE000 0xFFFF address then
          if truthy (Z.land config 0x02)
          then (U8.get (rom m) address, d)
          else (U8.get (ram m) address, d)
        else (U8.get (ram m) address, d)
    end.

Definition set_ram (m : Memory) (r : gmap Z Z) : Memory :=
  {| ram := r; rom := rom m; charset := charset m; colorRAM := colorRAM m;
     ioHandlers := ioHandlers m; bankConfig := bankConfig m |}.

Definition set_colorRAM (m : Memory) (c : gmap Z Z) : Memory :=
  {| ram := ram m; rom := rom m; charset := charset m; colorRAM := c;
     ioHandlers := ioHandlers m; bankConfig := bankConfig m |}.

Definition set_bankConfig (m : Memory) (b : Z) : Memory :=
  {| ram := ram m; rom := rom m; charset := charset m;
     colorRAM := colorRAM m;
     ioHandlers := ioHandlers m; bankConfig := b |}.

Definition write (m : Memory) (address value : Z) (d : Dev) : Memory * Dev :=
  let address := Z.land address 0xFFFF in
  let value := Z.land value 0xFF in
  if address =? 0x0001 then
    (set_ram (set_bankConfig m value) (U8.set (ram m) address value), d)
  else if between 0xD800 0xDBFF address then
    (set_colorRAM m
       (U8.set (colorRAM m) (address - 0xD800) (Z.land value 0x0F)), d)
  else
    match io_dispatch (ioHandlers m) address with
    | Some handler => (m, h_write handler address value d)
    | None => (set_ram m (U8.set (ram m) address value), d)
    end.

Definition read16 (m : Memory) (address : Z) (d : Dev) : Z * Dev :=
  let '(lo, d1) := read m address d in
  let '(hi, d2) := read m (address + 1) d1 in
  (Z.lor lo (Z.shiftl hi 8), d2).

Definition write16 (m : Memory) (address value : Z) (d : Dev) : Memory * Dev :=
  let '(m1, d1) := write m address (Z.land value 0xFF) d in
  write m1 (address + 1) (Z.land (Z.shiftr value 8) 0xFF) d1.

(** [load(address, data)]: the loop over [data], index [i] upwards. *)
Fixpoint load_from (m : Memory) (address i : Z) (data : list Z) (d : Dev)
    : Memory * Dev :=
  match data with
  | [] => (m, d)
  | b :: rest =>
      let '(m1, d1) := write m (address + i) b d in
      load_from m1 address (i + 1) rest d1
  end.

Definition load (m : Memory) (address : Z) (data : list Z) (d : Dev)
    : Memory * Dev :=
  load_from m address 0 data d.

End MemoryModel.

Arguments Handler : clear implicits.
Arguments Memory : clear implicits.

(** ** The chips behind the I/O windows *)

Module CIA.
Record t := mk { registers : gmap Z Z (* new Uint8Array(16) *) }.

Definition new : t := {| registers := ∅ |}.

Definition read (c : t) (addr : Z) : Z :=
  U8.get (registers c) (Z.land addr 0x0F).

Definition write (c : t) (addr value : Z) : t :=
  {| registers := U8.set (registers c) (Z.land addr 0x0F) value |}.
End CIA.

Module SID.
Record voice := mkVoice {
  frequency : Z; pulse : Z; waveform : Z; adsr : Z; gate : bool
}.

Record t := mk {
  registers : gmap Z Z;      (* new Uint8Array(32) *)
  voices : voice * voice * voice;
  filterFreq : Z; filterResonance : Z; filterMode : Z;
  volume : Z;
  (* the values [Math.floor(Math.random() * 256)] will return, in order *)
  random : list Z
}.

Definition silent : voice := mkVoice 0 0 0 0 false.

Definition new (rnd : list Z) : t :=
  {| registers := ∅; voices := (silent, silent, silent);
     filterFreq := 0; filterResonance := 0; filterMode := 0;
     volume := 0; random := rnd |}.

Definition draw (s : t) : Z * t :=
  (hd 0 (random s),
   {| registers := registers s; voices := voices s;
      filterFreq := filterFreq s; filterResonance := filterResonance s;
      filterMode := filterMode s; volume := volume s;
      random := tl (random s) |}).

Definition read (s : t) (address : Z) : Z * t :=
  let reg := Z.land address 0x1F in
  if reg =? 0x1B then draw s
  else if reg =? 0x1C then draw s
  else if reg =? 0x19 then (0xFF, s)
  else if reg =? 0x1A then (0xFF, s)
  else (U8.get (registers s) reg, s).

(** The three voice blocks of [write] differ only in their register
    offsets [lo], [hi], [ctl]. *)
Definition voice_write (lo hi ctl reg value : Z) (v : voice) : voice :=
  let v := if reg =? lo
           then mkVoice (Z.lor (Z.land (frequency v) 0xFF00) value)
                        (pulse v) (waveform v) (adsr v) (gate v)
           else v in
  let v := if reg =? hi
           then mkVoice (Z.lor (Z.land (frequency v) 0x00FF) (Z.shiftl value 8))
                        (pulse v) (waveform v) (adsr v) (gate v)
           else v in
  if reg =? ctl
  then mkVoice (frequency v) (pulse v) (Z.land (Z.shiftr value 4) 0x0F)
               (adsr v) (truthy (Z.land value 0x01))
  else v.

Definition write (s : t) (address value : Z) : t :=
  let reg := Z.land address 0x1F in
  let '(v1, v2, v3) := voices s in
  let v1 := if reg <=? 0x06 then voice_write 0x00 0x01 0x04 reg value v1 else v1 in
  let v2 := if (0x07 <=? reg) && (reg <=? 0x0D)
            then voice_write 0x07 0x08 0x0B reg value v2 else v2 in
  let v3 := if (0x0E <=? reg) && (reg <=? 0x14)
            then voice_write 0x0E 0x0F 0x12 reg value v3 else v3 in
  {| registers := U8.set (registers s) reg value;
     voices := (v1, v2, v3);
     filterFreq := filterFreq s; filterResonance := filterResonance s;
     filterMode := if reg =? 0x18 then Z.land (Z.shiftr value 4) 0x0F
                   else filterMode s;
     volume := if reg =? 0x18 then Z.land value 0x0F else volume s;
     random := random s |}.
End SID.

Module VIC2.
Record t := mk {
  registers : gmap Z Z;      (* new Uint8Array(64) *)
  rasterY : Z;
  cycleCounter : Z;
  frameComplete : bool;
  borderColor : Z;
  backgroundColor : Z
}.

Definition new : t :=
  {| registers := ∅; rasterY := 0; cycleCounter := 0;
     frameComplete := false; borderColor := 14; backgroundColor := 6 |}.

Definition read (v : t) (addr : Z) : Z :=
  let reg := Z.land addr 0x3F in
  if reg =? 0x12 then Z.land (rasterY v) 0xFF
  else if reg =? 0x11 then
    Z.lor (Z.shiftr (Z.land (rasterY v) 0x100) 1)
          (Z.land (U8.get (registers v) reg) 0x7F)
  else U8.get (registers v) reg.

Definition write (v : t) (addr value : Z) : t :=
  let reg := Z.land addr 0x3F in
  {| registers := U8.set (registers v) reg value;
     rasterY := rasterY v; cycleCounter := cycleCounter v;
     frameComplete := frameComplete v;
     borderColor := if reg =? 0x20 then Z.land value 0x0F else borderColor v;
     backgroundColor := if reg =? 0x21 then Z.land value 0x0F
                        else backgroundColor v |}.

Definition cycle (v : t) : t :=
  let cycleCounter := cycleCounter v + 1 in
  if cycleCounter >=? 63 then
    let rasterY := rasterY v + 1 in
    if rasterY >=? 312 then
      {| registers := registers v; rasterY := 0; cycleCounter := 0;
         frameComplete := true;
         borderColor := borderColor v; backgroundColor := backgroundColor v |}
    else
      {| registers := registers v; rasterY := rasterY; cycleCounter := 0;
         frameComplete := frameComplete v;
         borderColor := borderColor v; backgroundColor := backgroundColor v |}
  else
    {| registers := registers v; rasterY := rasterY v;
       cycleCounter := cycleCounter;
       frameComplete := frameComplete v;
       borderColor := borderColor v; backgroundColor := backgroundColor v |}.

(** [n] successive calls of [cycle()]. *)
Definition cycles (n : nat) (v : t) : t := Nat.iter n cycle v.
End VIC2.

(** The chips of [C64Emulator] and the windows [connectComponents]
    registers for them. *)
Record Chips := mkChips {
  vic : VIC2.t; sid : SID.t; cia1 : CIA.t; cia2 : CIA.t
}.

Definition connectComponents (m : Memory Chips) : Memory Chips :=
  let m := setIOHandler m 0xD000 0xD3FF
             (fun addr c => (VIC2.read (vic c) addr, c))
             (fun addr val c =>
                mkChips (VIC2.write (vic c) addr val) (sid c) (cia1 c) (cia2 c)) in
  let m := setIOHandler m 0xD400 0xD7FF
             (fun addr c =>
                let r := SID.read (sid c) addr in
                (fst r, mkChips (vic c) (snd r) (cia1 c) (cia2 c)))
             (fun addr val c =>
                mkChips (vic c) (SID.write (sid c) addr val) (cia1 c) (cia2 c)) in
  let m := setIOHandler m 0xDC00 0xDCFF
             (fun addr c => (CIA.read (cia1 c) addr, c))
             (fun addr val c =>
                mkChips (vic c) (sid c) (CIA.write (cia1 c) addr val) (cia2 c)) in
  setIOHandler m 0xDD00 0xDDFF
    (fun addr c => (CIA.read (cia2 c) addr, c))
    (fun addr val c =>
       mkChips (vic c) (sid c) (cia1 c) (CIA.write (cia2 c) addr val)).


(** ** MOS6502 *)

Module MOS6502.
Section WithDevices.

Context {Dev : Type}.

(** Registers, status flags and the cycle counter of the object. The
    fields [A] ... [PC] and [N] ... [C] carry a prefix here: [Z], [N] and
    [I] are taken. *)
Record CPU := mkCPU {
  reg_A : Z; reg_X : Z; reg_Y : Z; reg_SP : Z; reg_PC : Z;
  flag_N : bool; flag_V : bool; flag_B : bool; flag_D : bool;
  flag_I : bool; flag_Z : bool; flag_C : bool;
  cycles : Z
}.

(** What [console.log] and [console.warn] print: the template and the
    numbers substituted into it. *)
Inductive LogEntry :=
| LogReset (pc : Z)                 (* `CPU Reset - PC set to $pc` *)
| LogUnknown (opcode pc : Z)        (* `Unknown opcode $opcode at $pc` *)
| LogIllegal (opcode pc : Z).       (* `Illegal opcode $opcode at $pc` *)

(** History of the calls to [Memory.read] and [Memory.write], with the
    address as passed by the caller; newest first. Ghost state: no code
    reads it. *)
Inductive Access :=
| Rd (address : Z)
| Wr (address value : Z).

Record Machine := mkMachine {
  cpu : CPU;
  memory : Memory Dev;
  devices : Dev;
  console : list LogEntry;
  bus : list Access
}.

(** State transformers that return a value. *)
Definition M (T : Type) : Type := Machine -> T * Machine.

Definition ret {T} (x : T) : M T := fun s => (x, s).

Definition bind {T U} (c : M T) (k : T -> M U) : M U :=
  fun s => let (x, s') := c s in k x s'.

Notation "x <- c ;; k" := (bind c (fun x => k))
  (at level 100, c at next level, right associativity).
Notation "c ;;; k" := (bind c (fun _ => k))
  (at level 100, right associativity).

Definition gets {T} (f : CPU -> T) : M T := fun s => (f (cpu s), s).

Definition modify (f : CPU -> CPU) : M unit :=
  fun s => (tt, mkMachine (f (cpu s)) (memory s) (devices s) (console s) (bus s)).

Definition log (e : LogEntry) : M unit :=
  fun s => (tt, mkMachine (cpu s) (memory s) (devices s) (e :: console s) (bus s)).

(** [this.memory.read(address)] *)
Definition mem_read (address : Z) : M Z :=
  fun s =>
    let r := read (memory s) address (devices s) in
    (fst r, mkMachine (cpu s) (memory s) (snd r) (console s)
                      (Rd address :: bus s)).

(** [this.memory.write(address, value)] *)
Definition mem_write (address value : Z) : M unit :=
  fun s =>
    let r := write (memory s) address value (devices s) in
    (tt, mkMachine (cpu s) (fst r) (snd r) (console s)
                   (Wr address value :: bus s)).

(** [this.memory.read16(address)] *)
Definition mem_read16 (address : Z) : M Z :=
  lo <- mem_read address ;;
  hi <- mem_read (address + 1) ;;
  ret (Z.lor lo (Z.shiftl hi 8)).

(** Assignments to the fields of [this]. *)
Definition with_A (v : Z) (c : CPU) : CPU :=
  mkCPU v (reg_X c) (reg_Y c) (reg_SP c) (reg_PC c) (flag_N c) (flag_V c)
        (flag_B c) (flag_D c) (flag_I c) (flag_Z c) (flag_C c) (cycles c).
Definition with_X (v : Z) (c : CPU) : CPU :=
  mkCPU (reg_A c) v (reg_Y c) (reg_SP c) (reg_PC c) (flag_N c) (flag_V c)
        (flag_B c) (flag_D c) (flag_I c) (flag_Z c) (flag_C c) (cycles c).
Definition with_Y (v : Z) (c : CPU) : CPU :=
  mkCPU (reg_A c) (reg_X c) v (reg_SP c) (reg_PC c) (flag_N c) (flag_V c)
        (flag_B c) (flag_D c) (flag_I c) (flag_Z c) (flag_C c) (cycles c).
Definition with_SP (v : Z) (c : CPU) : CPU :=
  mkCPU (reg_A c) (reg_X c) (reg_Y c) v (reg_PC c) (flag_N c) (flag_V c)
        (flag_B c) (flag_D c) (flag_I c) (flag_Z c) (flag_C c) (cycles c).
Definition with_PC (v : Z) (c : CPU) : CPU :=
  mkCPU (reg_A c) (reg_X c) (reg_Y c) (reg_SP c) v (flag_N c) (flag_V c)
        (flag_B c) (flag_D c) (flag_I c) (flag_Z c) (flag_C c) (cycles c).
Definition with_N (b : bool) (c : CPU) : CPU :=
  mkCPU (reg_A c) (reg_X c) (reg_Y c) (reg_SP c) (reg_PC c) b (flag_V c)
        (flag_B c) (flag_D c) (flag_I c) (flag_Z c) (flag_C c) (cycles c).
Definition with_V (b : bool) (c : CPU) : CPU :=
  mkCPU (reg_A c) (reg_X c) (reg_Y c) (reg_SP c) (reg_PC c) (flag_N c) b
        (flag_B c) (flag_D c) (flag_I c) (flag_Z c) (flag_C c) (cycles c).
Definition with_B (b : bool) (c : CPU) : CPU :=
  mkCPU (reg_A c) (reg_X c) (reg_Y c) (reg_SP c) (reg_PC c) (flag_N c) (flag_V c)
        b (flag_D c) (flag_I c) (flag_Z c) (flag_C c) (cycles c).
Definition with_D (b : bool) (c : CPU) : CPU :=
  mkCPU (reg_A c) (reg_X c) (reg_Y c) (reg_SP c) (reg_PC c) (flag_N c) (flag_V c)
        (flag_B c) b (flag_I c) (flag_Z c) (flag_C c) (cycles c).
Definition with_I (b : bool) (c : CPU) : CPU :=
  mkCPU (reg_A c) (reg_X c) (reg_Y c) (reg_SP c) (reg_PC c) (flag_N c) (flag_V c)
        (flag_B c) (flag_D c) b (flag_Z c) (flag_C c) (cycles c).
Definition with_Z (b : bool) (c : CPU) : CPU :=
  mkCPU (reg_A c) (reg_X c) (reg_Y c) (reg_SP c) (reg_PC c) (flag_N c) (flag_V c)
        (flag_B c) (flag_D c) (flag_I c) b (flag_C c) (cycles c).
Definition with_C (b : bool) (c : CPU) : CPU :=
  mkCPU (reg_A c) (reg_X c) (reg_Y c) (reg_SP c) (reg_PC c) (flag_N c) (flag_V c)
        (flag_B c) (flag_D c) (flag_I c) (flag_Z c) b (cycles c).
Definition with_cycles (v : Z) (c : CPU) : CPU :=
  mkCPU (reg_A c) (reg_X c) (reg_Y c) (reg_SP c) (reg_PC c) (flag_N c) (flag_V c)
        (flag_B c) (flag_D c) (flag_I c) (flag_Z c) (flag_C c) v.

(** The fields the constructor sets (before any [reset()]). *)
Definition CPU_new : CPU :=
  mkCPU 0 0 0 0xFD 0 false false false false false false false 0.

(** *** Status register helpers *)

Definition getP (c : CPU) : Z :=
  let p := 0x20 in
  let p := if flag_N c then Z.lor p 0x80 else p in
  let p := if flag_V c then Z.lor p 0x40 else p in
  let p := if flag_B c then Z.lor p 0x10 else p in
  let p := if flag_D c then Z.lor p 0x08 else p in
  let p := if flag_I c then Z.lor p 0x04 else p in
  let p := if flag_Z c then Z.lor p 0x02 else p in
  let p := if flag_C c then Z.lor p 0x01 else p in
  p.

Definition setP (value : Z) : M unit :=
  modify (with_N (negb (Z.land value 0x80 =? 0))) ;;;
  modify (with_V (negb (Z.land value 0x40 =? 0))) ;;;
  modify (with_B (negb (Z.land value 0x10 =? 0))) ;;;
  modify (with_D (negb (Z.land value 0x08 =? 0))) ;;;
  modify (with_I (negb (Z.land value 0x04 =? 0))) ;;;
  modify (with_Z (negb (Z.land value 0x02 =? 0))) ;;;
  modify (with_C (negb (Z.land value 0x01 =? 0))).

Definition setNZ (value : Z) : M unit :=
  modify (with_N (negb (Z.land value 0x80 =? 0))) ;;;
  modify (with_Z (value =? 0)).

(** *** Stack operations *)

Definition push (value : Z) : M unit :=
  sp <- gets reg_SP ;;
  mem_write (0x0100 + sp) value ;;;
  modify (with_SP (Z.land (sp - 1) 0xFF)).

Definition pull : M Z :=
  sp <- gets reg_SP ;;
  modify (with_SP (Z.land (sp + 1) 0xFF)) ;;;
  sp <- gets reg_SP ;;
  mem_read (0x0100 + sp).

Definition push16 (value : Z) : M unit :=
  push (Z.land (Z.shiftr value 8) 0xFF) ;;;
  push (Z.land value 0xFF).

Definition pull16 : M Z :=
  lo <- pull ;;
  hi <- pull ;;
  ret (Z.lor (Z.shiftl hi 8) lo).

(** *** Addressing modes *)

Definition advance (n : Z) : M unit :=
  pc <- gets reg_PC ;;
  modify (with_PC (Z.land (pc + n) 0xFFFF)).

Definition immediate : M Z :=
  addr <- gets reg_PC ;;
  advance 1 ;;;
  ret addr.

Definition zeroPage : M Z :=
  pc <- gets reg_PC ;;
  addr <- mem_read pc ;;
  advance 1 ;;;
  ret addr.

Definition zeroPageX : M Z :=
  pc <- gets reg_PC ;;
  b <- mem_read pc ;;
  x <- gets reg_X ;;
  advance 1 ;;;
  ret (Z.land (b + x) 0xFF).

Definition zeroPageY : M Z :=
  pc <- gets reg_PC ;;
  b <- mem_read pc ;;
  y <- gets reg_Y ;;
  advance 1 ;;;
  ret (Z.land (b + y) 0xFF).

Definition absolute : M Z :=
  pc <- gets reg_PC ;;
  addr <- mem_read16 pc ;;
  advance 2 ;;;
  ret addr.

Definition absoluteX : M Z :=
  pc <- gets reg_PC ;;
  w <- mem_read16 pc ;;
  x <- gets reg_X ;;
  advance 2 ;;;
  ret (Z.land (w + x) 0xFFFF).

Definition absoluteY : M Z :=
  pc <- gets reg_PC ;;
  w <- mem_read16 pc ;;
  y <- gets reg_Y ;;
  advance 2 ;;;
  ret (Z.land (w + y) 0xFFFF).

Definition indirect : M Z :=
  pc <- gets reg_PC ;;
  ptr <- mem_read16 pc ;;
  advance 2 ;;;
  if Z.land ptr 0xFF =? 0xFF then
    lo <- mem_read ptr ;;
    hi <- mem_read (Z.land ptr 0xFF00) ;;
    ret (Z.lor (Z.shiftl hi 8) lo)
  else mem_read16 ptr.

Definition indirectX : M Z :=
  pc <- gets reg_PC ;;
  b <- mem_read pc ;;
  x <- gets reg_X ;;
  advance 1 ;;;
  mem_read16 (Z.land (b + x) 0xFF).

Definition indirectY : M Z :=
  pc <- gets reg_PC ;;
  ptr <- mem_read pc ;;
  advance 1 ;;;
  w <- mem_read16 ptr ;;
  y <- gets reg_Y ;;
  ret (Z.land (w + y) 0xFFFF).

Definition relative : M Z :=
  pc <- gets reg_PC ;;
  offset <- mem_read pc ;;
  advance 1 ;;;
  ret (if offset <? 0x80 then offset else offset - 256).

(** *** The handlers of [buildInstructionTable] *)

Definition load_with (mode : M Z) (dst : Z -> CPU -> CPU) (cost : Z) : M Z :=
  addr <- mode ;;
  v <- mem_read addr ;;
  modify (dst v) ;;;
  setNZ v ;;;
  ret cost.

Definition store_with (mode : M Z) (src : CPU -> Z) (cost : Z) : M Z :=
  addr <- mode ;;
  v <- gets src ;;
  mem_write addr v ;;;
  ret cost.

Definition transfer (src : CPU -> Z) (dst : Z -> CPU -> CPU) : M Z :=
  v <- gets src ;;
  modify (dst v) ;;;
  setNZ v ;;;
  ret 2.

Definition step_reg (src : CPU -> Z) (dst : Z -> CPU -> CPU) (delta : Z) : M Z :=
  r <- gets src ;;
  modify (dst (Z.land (r + delta) 0xFF)) ;;;
  setNZ (Z.land (r + delta) 0xFF) ;;;
  ret 2.

Definition branch_if (taken : CPU -> bool) : M Z :=
  offset <- relative ;;
  t <- gets taken ;;
  if t then
    pc <- gets reg_PC ;;
    modify (with_PC (Z.land (pc + offset) 0xFFFF)) ;;;
    ret 3
  else ret 2.

Definition compare_with (src : CPU -> Z) : M Z :=
  addr <- immediate ;;
  value <- mem_read addr ;;
  r <- gets src ;;
  modify (with_C (r >=? value)) ;;;
  setNZ (Z.land (r - value) 0xFF) ;;;
  ret 2.

Definition set_flag (f : bool -> CPU -> CPU) (b : bool) : M Z :=
  modify (f b) ;;; ret 2.

Definition JSR : M Z :=
  addr <- absolute ;;
  pc <- gets reg_PC ;;
  push16 (pc - 1) ;;;
  modify (with_PC addr) ;;;
  ret 6.

Definition RTS : M Z :=
  w <- pull16 ;;
  modify (with_PC (Z.land (w + 1) 0xFFFF)) ;;;
  ret 6.

Definition PHA : M Z :=
  a <- gets reg_A ;;
  push a ;;;
  ret 3.

Definition PLA : M Z :=
  v <- pull ;;
  modify (with_A v) ;;;
  setNZ v ;;;
  ret 4.

Definition RTI : M Z :=
  p <- pull ;;
  setP p ;;;
  w <- pull16 ;;
  modify (with_PC w) ;;;
  ret 6.

(** The assignments [this.instructions[opcode] = function() {...}], in
    the order of the source; no opcode is assigned twice. *)
Definition table : list (Z * M Z) :=
  [
    (0xEA, ret 2); (* NOP *)
    (0xA9, load_with immediate with_A 2); (* LDA # *)
    (0xA5, load_with zeroPage with_A 3); (* LDA zp *)
    (0xAD, load_with absolute with_A 4); (* LDA abs *)
    (0xA2, load_with immediate with_X 2); (* LDX # *)
    (0xA6, load_with zeroPage with_X 3); (* LDX zp *)
    (0xA0, load_with immediate with_Y 2); (* LDY # *)
    (0x85, store_with zeroPage reg_A 3); (* STA zp *)
    (0x8D, store_with absolute reg_A 4); (* STA abs *)
    (0x95, store_with zeroPageX reg_A 4); (* STA zp,X *)
    (0x9D, store_with absoluteX reg_A 5); (* STA abs,X *)
    (0x86, store_with zeroPage reg_X 3); (* STX zp *)
    (0x84, store_with zeroPage reg_Y 3); (* STY zp *)
    (0xAA, transfer reg_A with_X); (* TAX *)
    (0xA8, transfer reg_A with_Y); (* TAY *)
    (0x8A, transfer reg_X with_A); (* TXA *)
    (0x98, transfer reg_Y with_A); (* TYA *)
    (0x9A, x <- gets reg_X ;; modify (with_SP x) ;;; ret 2); (* TXS *)
    (0xBA, transfer reg_SP with_X); (* TSX *)
    (0xE8, step_reg reg_X with_X 1); (* INX *)
    (0xC8, step_reg reg_Y with_Y 1); (* INY *)
    (0xCA, step_reg reg_X with_X (-1)); (* DEX *)
    (0x88, step_reg reg_Y with_Y (-1)); (* DEY *)
    (0xD0, branch_if (fun c => negb (flag_Z c))); (* BNE *)
    (0xF0, branch_if flag_Z); (* BEQ *)
    (0x10, branch_if (fun c => negb (flag_N c))); (* BPL *)
    (0x30, branch_if flag_N); (* BMI *)
    (0x4C, addr <- absolute ;; modify (with_PC addr) ;;; ret 3); (* JMP abs *)
    (0x6C, addr <- indirect ;; modify (with_PC addr) ;;; ret 5); (* JMP (ind) *)
    (0x20, JSR); (* JSR *)
    (0x60, RTS); (* RTS *)
    (0x48, PHA); (* PHA *)
    (0x68, PLA); (* PLA *)
    (0x78, set_flag with_I true); (* SEI *)
    (0x58, set_flag with_I false); (* CLI *)
    (0xD8, set_flag with_D false); (* CLD *)
    (0x38, set_flag with_C true); (* SEC *)
    (0x18, set_flag with_C false); (* CLC *)
    (0xC9, compare_with reg_A); (* CMP # *)
    (0xE0, compare_with reg_X); (* CPX # *)
    (0x40, RTI)  (* RTI *)
  ].

(** The handler assigned to [opcode], if any. *)
Definition assigned (opcode : Z) : option (M Z) :=
  match find (fun entry => fst entry =? opcode) table with
  | Some entry => Some (snd entry)
  | None => None
  end.

(** The closure the final loop of [buildInstructionTable] installs at
    every index [i] still empty. *)
Definition illegal (i : Z) : M Z :=
  pc <- gets reg_PC ;;
  log (LogIllegal i pc) ;;;
  ret 2.

(** [this.instructions[opcode]] once the table is built: an array of 256
    entries, [undefined] outside. *)
Definition instructions (opcode : Z) : option (M Z) :=
  if (0 <=? opcode) && (opcode <? 256) then
    Some (match assigned opcode with
          | Some handler => handler
          | None => illegal opcode
          end)
  else None.

Definition reset : M unit :=
  w <- mem_read16 0xFFFC ;;
  modify (with_PC w) ;;;
  modify (with_SP 0xFD) ;;;
  modify (with_A 0) ;;;
  modify (with_X 0) ;;;
  modify (with_Y 0) ;;;
  modify (with_I true) ;;;
  pc <- gets reg_PC ;;
  log (LogReset pc).

Definition step : M Z :=
  pc <- gets reg_PC ;;
  opcode <- mem_read pc ;;
  match instructions opcode with
  | None =>
      pc <- gets reg_PC ;;
      log (LogUnknown opcode pc) ;;;
      advance 1 ;;;
      ret 2
  | Some instruction =>
      advance 1 ;;;
      n <- instruction ;;
      total <- gets cycles ;;
      modify (with_cycles (total + n)) ;;;
      ret n
  end.

(** The body shared by [irq()] (under its test) and [nmi()]. *)
Definition interrupt (vector : Z) : M unit :=
  pc <- gets reg_PC ;;
  push16 pc ;;;
  p <- gets getP ;;
  push (Z.lor p 0x20) ;;;
  modify (with_I true) ;;;
  w <- mem_read16 vector ;;
  modify (with_PC w).

Definition irq : M unit :=
  i <- gets flag_I ;;
  if negb i then interrupt 0xFFFE else ret tt.

Definition nmi : M unit := interrupt 0xFFFA.

End WithDevices.

Arguments CPU : clear implicits.
Arguments Machine : clear implicits.
Arguments M : clear implicits.

End MOS6502.


(** ** The stack page *)

Section StackDiscipline.

Import MOS6502.

Context {Dev : Type}.

Definition access_address (e : Access) : Z :=
  match e with Rd a => a | Wr a _ => a end.

Definition is_write (e : Access) : bool :=
  match e with Wr _ _ => true | Rd _ => false end.

(** The fixed page 0x0100-0x01FF. *)
Definition in_stack_page (a : Z) : Prop := 0x0100 <= a <= 0x01FF.

(** Run from [s], [c] accesses memory at stack-page addresses only and
    leaves an 8-bit stack pointer. *)
Definition stack_confined {T} (c : M Dev T) (s : Machine Dev) : Prop :=
  exists added,
    bus (snd (c s)) = added ++ bus s
    /\ Forall (fun e => in_stack_page (access_address e)) added
    /\ 0 <= reg_SP (cpu (snd (c s))) <= 255.

(** The same for the writes of [c] alone: [c] may read elsewhere (operand
    bytes, vectors). *)
Definition stack_writes_confined {T} (c : M Dev T) (s : Machine Dev) : Prop :=
  exists added,
    bus (snd (c s)) = added ++ bus s
    /\ Forall (fun e => is_write e = true -> in_stack_page (access_address e))
         added
    /\ 0 <= reg_SP (cpu (snd (c s))) <= 255.

End StackDiscipline.

(** ** Eight-bit registers *)

Section EightBitInvariant.

Import MOS6502.

Context {Dev : Type}.

(** What the chips guarantee of their own state. *)
Variable good : Dev -> Prop.

Definition byte (x : Z) : Prop := 0 <= x <= 255.

(** The cells of a [Uint8Array]. *)
Definition bytes_only (a : gmap Z Z) : Prop := forall i, byte (U8.get a i).

(** A handler whose [read] returns a byte and whose callbacks keep the
    chips in a good state. *)
Definition handler_ok (h : Handler Dev) : Prop :=
  (forall a d, good d -> byte (fst (h_read h a d)) /\ good (snd (h_read h a d)))
  /\ (forall a v d, good d -> good (h_write h a v d)).

Definition memory_ok (m : Memory Dev) : Prop :=
  bytes_only (ram m) /\ bytes_only (rom m) /\ bytes_only (charset m)
  /\ Forall handler_ok (ioHandlers m).

Definition registers_8bit (c : CPU) : Prop :=
  byte (reg_A c) /\ byte (reg_X c) /\ byte (reg_Y c) /\ byte (reg_SP c).

Definition sane (s : Machine Dev) : Prop :=
  registers_8bit (cpu s) /\ memory_ok (memory s) /\ good (devices s).

(** [c] preserves the invariant. *)
Definition keeps {T} (c : M Dev T) : Prop :=
  forall s, sane s -> sane (snd (c s)).

(** What the rest of the emulator does to the CPU: the clock calls
    [step()], the chips call [irq()] and [nmi()], a machine reset calls
    [reset()]. *)
Inductive Event := DoStep | DoIrq | DoNmi | DoReset.

Definition fire (s : Machine Dev) (e : Event) : Machine Dev :=
  match e with
  | DoStep => snd (step s)
  | DoIrq => snd (irq s)
  | DoNmi => snd (nmi s)
  | DoReset => snd (reset s)
  end.

Definition run_events (es : list Event) (s : Machine Dev) : Machine Dev :=
  fold_left fire es s.

End EightBitInvariant.

(** ** The bank-switch decision table of the specification *)

Section DecisionTable.

Context {Dev : Type}.

Inductive Store := StoreROM | StoreRAM | StoreCharROM | StoreIO.

(** The three configuration bits, by position. *)
Definition LORAM (config : Z) : bool := Z.testbit config 0.
Definition HIRAM (config : Z) : bool := Z.testbit config 1.
Definition CHAREN (config : Z) : bool := Z.testbit config 2.

(** Row by row: window, bit tested, what bit = 1 shows, what bit = 0
    shows. [None] outside the three windows. *)
Definition spec_decision_table (config address : Z) : option Store :=
  if between 0xA000 0xBFFF address then
    Some (if LORAM config then StoreROM else StoreRAM)
  else if between 0xE000 0xFFFF address then
    Some (if HIRAM config then StoreROM else StoreRAM)
  else if between 0xD000 0xDFFF address then
    Some (if CHAREN config then StoreIO else StoreCharROM)
  else None.

(** What a read of [address] yields when store [s] is the one visible.
    For the I/O row that is the handler table; an address of the I/O area
    that no chip registered shows the RAM cell. *)
Definition store_value (m : Memory Dev) (d : Dev) (s : Store) (address : Z)
    : Z * Dev :=
  match s with
  | StoreROM => (U8.get (rom m) address, d)
  | StoreRAM => (U8.get (ram m) address, d)
  | StoreCharROM => (U8.get (charset m) (address - 0xD000), d)
  | StoreIO =>
      match io_dispatch (ioHandlers m) address with
      | Some handler => h_read handler address d
      | None => (U8.get (ram m) address, d)
      end
  end.

(** A window that currently shows ROM (BASIC, KERNAL or character ROM). *)
Definition rom_visible (config address : Z) : bool :=
  match spec_decision_table config address with
  | Some StoreROM | Some StoreCharROM => true
  | _ => false
  end.

(** Every registered I/O window lies in the I/O area of the table. *)
Definition io_area_only (hs : list (Handler Dev)) : Prop :=
  Forall (fun h => 0xD000 <= h_start h /\ h_end h <= 0xDFFF) hs.

End DecisionTable.

(** ** A machine wired as [C64Emulator] wires it *)

Definition chips0 : Chips :=
  mkChips (VIC2.write VIC2.new 0x20 14) (SID.new [7; 9]) CIA.new CIA.new.

(** A character ROM with the glyph byte [0x18] at offsets [0x020] and
    [0xE00], a BASIC image starting with [0x60], a KERNAL image starting
    with [0x4C] and holding the vectors NMI = 0xFE43, RESET = 0xFCE2 and
    IRQ = 0xFF48, and the four I/O windows of [connectComponents]. *)
Definition memory0 : Memory Chips :=
  connectComponents
    {| ram := ∅;
       rom := list_to_map
                [(0xA000, 0x60); (0xE000, 0x4C);
                 (0xFFFA, 0x43); (0xFFFB, 0xFE);
                 (0xFFFC, 0xE2); (0xFFFD, 0xFC);
                 (0xFFFE, 0x48); (0xFFFF, 0xFF)];
       charset := list_to_map [(0x020, 0x18); (0xE00, 0x18)];
       colorRAM := U8.fill 1024 14;
       ioHandlers := [];
       bankConfig := 0x37 |}.

(** The same machine after [write(0x0001, 0x33)]: CHAREN = 0, so the
    decision table shows character ROM at 0xD000-0xDFFF. *)
Definition memory_charen_off : Memory Chips :=
  fst (write memory0 0x0001 0x33 chips0).

(** CHAREN = 0 and, on top of that, a fifth I/O window laid over the
    whole I/O area, color memory included; its reads return 0xEE. *)
Definition memory_io_over_color : Memory Chips :=
  setIOHandler memory_charen_off 0xD000 0xDFFF
    (fun addr c => (0xEE, c)) (fun addr val c => c).

(** The chips hold bytes in their register arrays, and the random
    source of the SID yields bytes. *)
Definition chips_good (c : Chips) : Prop :=
  bytes_only (VIC2.registers (vic c))
  /\ bytes_only (SID.registers (sid c))
  /\ Forall byte (SID.random (sid c))
  /\ bytes_only (CIA.registers (cia1 c))
  /\ bytes_only (CIA.registers (cia2 c)).

(** RAM holding [JMP ($02FF)] at 0x1000, the bytes 0x34, 0x12 and 0x56
    at 0x02FF, 0x0200 and 0x0300, [JMP ($0310)] at 0x1800 with 0x78, 0x56
    at 0x0310, 0x0311, and the byte 0x02, which no handler is assigned
    to, at 0x2000. *)
Definition program0 : gmap Z Z :=
  list_to_map
    [(0x1000, 0x6C); (0x1001, 0xFF); (0x1002, 0x02);
     (0x02FF, 0x34); (0x0200, 0x12); (0x0300, 0x56);
     (0x1800, 0x6C); (0x1801, 0x10); (0x1802, 0x03);
     (0x0310, 0x78); (0x0311, 0x56);
     (0x2000, 0x02)].

(** A freshly constructed CPU on that memory, with PC at [pc]. *)
Definition machine0 (pc : Z) : MOS6502.Machine Chips :=
  MOS6502.mkMachine (MOS6502.with_PC pc MOS6502.CPU_new)
                    (set_ram memory0 program0) chips0 [] [].

(** ** The rest of Memory.js, of MOS6502, of VIC2 and the frame loop *)

Section MemoryRest.

Context {Dev : Type}.

(** [clear()]: [this.ram.fill(0); this.colorRAM.fill(14)]. *)
Definition clear (m : Memory Dev) : Memory Dev :=
  {| ram := U8.fill (Z.to_nat 65536) 0;
     rom := rom m; charset := charset m;
     colorRAM := U8.fill (Z.to_nat 1024) 14;
     ioHandlers := ioHandlers m; bankConfig := bankConfig m |}.

(** [getBankConfigString()]: the names pushed on [banks], joined by '+'. *)
Definition getBankConfigString (m : Memory Dev) : string :=
  let config := bankConfig m in
  let banks := [] in
  let banks := if truthy (Z.land config 0x01) then banks ++ ["BASIC"%string]
               else banks in
  let banks := if truthy (Z.land config 0x02) then banks ++ ["KERNAL"%string]
               else banks in
  let banks := if truthy (Z.land config 0x04) then banks ++ ["IO"%string]
               else banks ++ ["CHAR"%string] in
  String.concat "+" banks.

(** The key [`${start}-${end}`] of a handler, as the pair it is made of. *)
Definition same_window (h h' : Handler Dev) : bool :=
  (h_start h =? h_start h') && (h_end h =? h_end h').

Definition in_window (h : Handler Dev) (a : Z) : bool :=
  (h_start h <=? a) && (a <=? h_end h).

End MemoryRest.

(** [getOpcodeName(opcode)]: [names[opcode] || '???']. *)
Definition names : list (Z * string) :=
  [(0xEA, "NOP"); (0xA9, "LDA #"); (0xA5, "LDA zp"); (0xAD, "LDA abs");
   (0xA2, "LDX #"); (0x78, "SEI"); (0xD8, "CLD"); (0x9A, "TXS");
   (0x4C, "JMP abs"); (0x20, "JSR"); (0x60, "RTS"); (0x40, "RTI")]%string.

Definition getOpcodeName (opcode : Z) : string :=
  match find (fun entry => fst entry =? opcode) names with
  | Some entry => snd entry
  | None => "???"
  end.

(** [VIC2.checkRasterIRQ()]: the value returned and the chip afterwards. *)
Definition checkRasterIRQ (v : VIC2.t) : bool * VIC2.t :=
  let rasterLine :=
    Z.lor (U8.get (VIC2.registers v) 0x12)
          (Z.shiftl (Z.land (U8.get (VIC2.registers v) 0x11) 0x80) 1) in
  if VIC2.rasterY v =? rasterLine then
    let v1 := VIC2.mk
                (U8.set (VIC2.registers v) 0x19
                        (Z.lor (U8.get (VIC2.registers v) 0x19) 0x01))
                (VIC2.rasterY v) (VIC2.cycleCounter v) (VIC2.frameComplete v)
                (VIC2.borderColor v) (VIC2.backgroundColor v) in
    if truthy (Z.land (U8.get (VIC2.registers v1) 0x1A) 0x01)
    then (true, v1)
    else (false, v1)
  else (false, v).

(** The raster position of the chip: what [cycle()] reads and moves. *)
Definition raster_position (v : VIC2.t) : Z * Z :=
  (VIC2.rasterY v, VIC2.cycleCounter v).

Section FrameLoop.

Import MOS6502.


(** [this.cyclesPerFrame] in PAL mode. *)
Definition cyclesPerFrame_PAL : Z := 19656.

End FrameLoop.

Section Frames.

Import MOS6502.

Context {Dev : Type}.

(** ROM, character ROM and the handler table of [s'] are those of [s]. *)
Definition rom_kept (s s' : Machine Dev) : Prop :=
  rom (memory s') = rom (memory s)
  /\ charset (memory s') = charset (memory s)
  /\ ioHandlers (memory s') = ioHandlers (memory s).

(** A 16-bit program counter. *)
Definition pc_16bit (s : Machine Dev) : Prop := 0 <= reg_PC (cpu s) <= 0xFFFF.

End Frames.

(** The opcodes whose handler ends in [setNZ] of the register it has
    just set, with that register: loads, transfers, increments,
    decrements and PLA. *)
Definition nz_opcodes : list (Z * (MOS6502.CPU -> Z)) :=
  [(0xA9, MOS6502.reg_A); (0xA5, MOS6502.reg_A); (0xAD, MOS6502.reg_A);
   (0xA2, MOS6502.reg_X); (0xA6, MOS6502.reg_X); (0xA0, MOS6502.reg_Y);
   (0xAA, MOS6502.reg_X); (0xA8, MOS6502.reg_Y); (0x8A, MOS6502.reg_A);
   (0x98, MOS6502.reg_A); (0xBA, MOS6502.reg_X);
   (0xE8, MOS6502.reg_X); (0xC8, MOS6502.reg_Y); (0xCA, MOS6502.reg_X);
   (0x88, MOS6502.reg_Y); (0x68, MOS6502.reg_A)].

(** The number of [cycle()] calls since the top of the frame, for a chip
    on line [rasterY] with [cycleCounter] calls into it. *)
Definition raster_clock (v : VIC2.t) : Z :=
  63 * VIC2.rasterY v + VIC2.cycleCounter v.

(** The positions [cycle()] leaves the chip in: 312 lines of 63 cycles. *)
Definition raster_in_range (v : VIC2.t) : Prop :=
  0 <= VIC2.rasterY v <= 311 /\ 0 <= VIC2.cycleCounter v <= 62.



(** The conditional branches with the test each one makes. *)
Definition branch_opcodes : list (Z * (MOS6502.CPU -> bool)) :=
  [(0xD0, fun c => negb (MOS6502.flag_Z c)); (0xF0, MOS6502.flag_Z);
   (0x10, fun c => negb (MOS6502.flag_N c)); (0x30, MOS6502.flag_N)].

(** RAM holding [CMP #$05] at 0x3000, [LDA #$80] at 0x3010 and
    [BNE] with the operand 0xFC at 0x3020. *)
Definition program1 : gmap Z Z :=
  list_to_map
    [(0x3000, 0xC9); (0x3001, 0x05);
     (0x3010, 0xA9); (0x3011, 0x80);
     (0x3020, 0xD0); (0x3021, 0xFC)].

(** A freshly constructed CPU on that memory, with PC at [pc]. *)
Definition machine1 (pc : Z) : MOS6502.Machine Chips :=
  MOS6502.mkMachine (MOS6502.with_PC pc MOS6502.CPU_new)
                    (set_ram memory0 program1) chips0 [] [].

(** A VIC-II on raster line 300. *)
Definition vic_line_300 : VIC2.t := VIC2.mk ∅ 300 0 false 14 6.

(** A VIC-II with the raster interrupt enabled and the compare line 0. *)
Definition vic_irq_enabled : VIC2.t :=
  VIC2.write (VIC2.write VIC2.new 0xD01A 0x01) 0xD012 0x00.

(** * Properties *)

(** ** Bit masks *)

Lemma land_ffff_mod (x : Z) : Z.land x 0xFFFF = x mod 65536.
Proof. change 0xFFFF with (Z.ones 16). by rewrite Z.land_ones. Qed.

Lemma land_ff_mod (x : Z) : Z.land x 0xFF = x mod 256.
Proof. change 0xFF with (Z.ones 8). by rewrite Z.land_ones. Qed.

Lemma land_0f_mod (x : Z) : Z.land x 0x0F = x mod 16.
Proof. change 0x0F with (Z.ones 4). by rewrite Z.land_ones. Qed.

Lemma land_ffff_id (a : Z) : 0 <= a <= 0xFFFF -> Z.land a 0xFFFF = a.
Proof. intros H. rewrite land_ffff_mod. apply Z.mod_small. lia. Qed.

Lemma land_ff_id (v : Z) : 0 <= v <= 255 -> Z.land v 0xFF = v.
Proof. intros H. rewrite land_ff_mod. apply Z.mod_small. lia. Qed.

Lemma land_ff_range (x : Z) : 0 <= Z.land x 0xFF <= 255.
Proof. rewrite land_ff_mod. pose proof (Z.mod_pos_bound x 256). lia. Qed.

Lemma land_0f_range (x : Z) : 0 <= Z.land x 0x0F <= 15.
Proof. rewrite land_0f_mod. pose proof (Z.mod_pos_bound x 16). lia. Qed.

Lemma nibble_of_byte (v : Z) : Z.land (Z.land v 0xFF) 0x0F = Z.land v 0x0F.
Proof. rewrite <- Z.land_assoc. reflexivity. Qed.

(** [config & 2^k] is non-zero exactly when bit [k] of [config] is set. *)
Lemma truthy_land_pow2 (config k : Z) :
  0 <= k -> truthy (Z.land config (2 ^ k)) = Z.testbit config k.
Proof.
  intros Hk. unfold truthy.
  destruct (Z.testbit config k) eqn:Hb.
  - apply negb_true_iff, Z.eqb_neq. intros H0.
    assert (Ht : Z.testbit (Z.land config (2 ^ k)) k = true).
    { rewrite Z.land_spec, Hb, Z.pow2_bits_true; [done | lia]. }
    rewrite H0, Z.bits_0 in Ht. discriminate.
  - apply negb_false_iff, Z.eqb_eq. apply Z.bits_inj'. intros n Hn.
    rewrite Z.land_spec, Z.bits_0.
    destruct (Z.eq_dec k n) as [-> | Hne].
    + by rewrite Hb.
    + rewrite (Z.pow2_bits_false k n) by lia. apply andb_false_r.
Qed.

Lemma truthy_loram config : truthy (Z.land config 0x01) = LORAM config.
Proof. apply (truthy_land_pow2 config 0). lia. Qed.

Lemma truthy_hiram config : truthy (Z.land config 0x02) = HIRAM config.
Proof. apply (truthy_land_pow2 config 1). lia. Qed.

Lemma truthy_charen config : truthy (Z.land config 0x04) = CHAREN config.
Proof. apply (truthy_land_pow2 config 2). lia. Qed.

Lemma testbit_land_ff (x k : Z) :
  0 <= k < 8 -> Z.testbit (Z.land x 0xFF) k = Z.testbit x k.
Proof.
  intros Hk. change 0xFF with (Z.ones 8).
  rewrite Z.land_spec, Z.ones_spec_low by lia. apply andb_true_r.
Qed.

(** ** Uint8Array cells *)

Lemma U8_get_set_eq (a : gmap Z Z) (i v : Z) :
  U8.get (U8.set a i v) i = v mod 256.
Proof. unfold U8.get, U8.set. by rewrite lookup_insert_eq. Qed.

Lemma U8_get_set_ne (a : gmap Z Z) (i j v : Z) :
  i <> j -> U8.get (U8.set a i v) j = U8.get a j.
Proof. intros Hne. unfold U8.get, U8.set. by rewrite lookup_insert_ne. Qed.

Lemma U8_get_set_byte (a : gmap Z Z) (i v : Z) :
  0 <= v <= 255 -> U8.get (U8.set a i v) i = v.
Proof. intros Hv. rewrite U8_get_set_eq. apply Z.mod_small. lia. Qed.

(** ** Memory: color memory *)

Section MemoryProperties.

Context {Dev : Type}.
Implicit Types (m : Memory Dev) (d : Dev) (a v : Z).

Lemma between_true lo hi x : between lo hi x = true <-> lo <= x <= hi.
Proof. unfold between. rewrite andb_true_iff, !Z.leb_le. tauto. Qed.

Lemma between_false lo hi x : between lo hi x = false <-> (x < lo \/ hi < x).
Proof.
  unfold between. rewrite andb_false_iff, !Z.leb_gt. tauto.
Qed.

Lemma read_color m d a :
  0xD800 <= a <= 0xDBFF ->
  read m a d = (Z.land (U8.get (colorRAM m) (a - 0xD800)) 0x0F, d).
Proof.
  intros Ha. unfold read.
  rewrite (land_ffff_id a) by lia.
  by rewrite (proj2 (between_true 0xD800 0xDBFF a) Ha).
Qed.

Lemma write_color m d a v :
  0xD800 <= a <= 0xDBFF ->
  write m a v d
    = (set_colorRAM m (<[ a - 0xD800 := Z.land v 0x0F ]> (colorRAM m)), d).
Proof.
  intros Ha. unfold write.
  rewrite (land_ffff_id a) by lia.
  rewrite (proj2 (between_true 0xD800 0xDBFF a) Ha).
  destruct (a =? 0x0001) eqn:E; [apply Z.eqb_eq in E; lia |].
  unfold U8.set. rewrite nibble_of_byte.
  rewrite (Z.mod_small (Z.land v 0x0F) 256)
    by (pose proof (land_0f_range v); lia).
  reflexivity.
Qed.

Lemma color_read_back m d a v :
  0xD800 <= a <= 0xDBFF ->
  read (fst (write m a v d)) a (snd (write m a v d)) = (Z.land v 0x0F, d).
Proof.
  intros Ha. rewrite write_color by done. simpl.
  rewrite read_color by done. simpl. unfold U8.get.
  rewrite lookup_insert_eq. simpl.
  rewrite <- Z.land_assoc. reflexivity.
Qed.

(** C8: in 0xD800-0xDBFF a write keeps only the low nibble, in color
    memory and nowhere else, and a read returns the stored cell masked to
    four bits; no I/O handler is consulted and the bank configuration
    plays no part, whatever handlers are registered and whatever the
    configuration byte holds. *)
Theorem color_memory_window m d a v :
  0xD800 <= a <= 0xDBFF ->
  write m a v d
    = (set_colorRAM m (<[ a - 0xD800 := Z.land v 0x0F ]> (colorRAM m)), d)
  /\ read m a d = (Z.land (U8.get (colorRAM m) (a - 0xD800)) 0x0F, d)
  /\ 0 <= fst (read m a d) <= 15
  /\ read (fst (write m a v d)) a (snd (write m a v d)) = (Z.land v 0x0F, d).
Proof.
  intros Ha.
  split; [by apply write_color |].
  split; [by apply read_color |].
  split; [| by apply color_read_back].
  rewrite read_color by done. simpl. apply land_0f_range.
Qed.

(** ** Memory: the bank-switched windows *)

Lemma io_area_only_dispatch (hs : list (Handler Dev)) a :
  io_area_only hs -> a < 0xD000 \/ 0xDFFF < a -> io_dispatch hs a = None.
Proof.
  intros Hall Ha. induction Hall as [| h hs [Hs He] _ IH]; [done |].
  simpl. destruct (h_start h <=? a) eqn:E1; simpl; [| exact IH].
  destruct (a <=? h_end h) eqn:E2; [| exact IH].
  apply Z.leb_le in E1, E2. lia.
Qed.

Lemma read_covered m d a (h : Handler Dev) :
  0 <= a <= 0xFFFF ->
  between 0xD800 0xDBFF a = false ->
  io_dispatch (ioHandlers m) a = Some h ->
  read m a d = h_read h a d.
Proof.
  intros Ha Hc Hio. unfold read. by rewrite (land_ffff_id a Ha), Hc, Hio.
Qed.

Lemma read_uncovered m d a (s : Store) :
  0 <= a <= 0xFFFF ->
  between 0xD800 0xDBFF a = false ->
  io_dispatch (ioHandlers m) a = None ->
  spec_decision_table (bankConfig m) a = Some s ->
  read m a d = store_value m d s a.
Proof.
  intros Ha Hc Hio Ht. unfold read. rewrite (land_ffff_id a Ha), Hc, Hio.
  unfold spec_decision_table in Ht.
  rewrite truthy_loram, truthy_hiram, truthy_charen.
  destruct (between 0xA000 0xBFFF a) eqn:E1.
  - injection Ht as <-. by destruct (LORAM (bankConfig m)).
  - destruct (between 0xE000 0xFFFF a) eqn:E2.
    + assert (E3 : between 0xD000 0xDFFF a = false).
      { apply between_true in E2. apply between_false. lia. }
      rewrite E3. injection Ht as <-. by destruct (HIRAM (bankConfig m)).
    + destruct (between 0xD000 0xDFFF a) eqn:E3; [| discriminate].
      injection Ht as <-. destruct (CHAREN (bankConfig m)); simpl; [| done].
      by rewrite Hio.
Qed.

(** C1, as the code has it: an address of one of the three windows that
    is outside color memory is served by the first registered I/O window
    containing it, whatever the configuration bits say; only an address
    no I/O window contains is served by the store the decision table
    names (the RAM cell when the table says I/O). *)
Theorem read_decision_table m d a (s : Store) :
  0 <= a <= 0xFFFF ->
  between 0xD800 0xDBFF a = false ->
  spec_decision_table (bankConfig m) a = Some s ->
  read m a d = match io_dispatch (ioHandlers m) a with
               | Some handler => h_read handler a d
               | None => store_value m d s a
               end.
Proof.
  intros Ha Hc Ht.
  destruct (io_dispatch (ioHandlers m) a) as [h |] eqn:Hio.
  - by apply read_covered.
  - by apply read_uncovered.
Qed.

Lemma decision_table_land_ff (cfg a : Z) :
  spec_decision_table (Z.land cfg 0xFF) a = spec_decision_table cfg a.
Proof.
  unfold spec_decision_table, LORAM, HIRAM, CHAREN.
  by rewrite !testbit_land_ff by lia.
Qed.

(** C2: with the I/O windows inside the I/O area, a write to an address
    of 0xA000-0xBFFF or 0xE000-0xFFFF stores the byte in the RAM cell of
    that address and touches neither the ROM array nor a chip; while ROM
    is banked in a read still returns the ROM byte, and once address
    0x0001 is written with a configuration that shows RAM in the window,
    a read of the address returns the byte written. *)
Theorem rom_window_write_through m d a v :
  io_area_only (ioHandlers m) ->
  0xA000 <= a <= 0xBFFF \/ 0xE000 <= a <= 0xFFFF ->
  0 <= v <= 255 ->
  let m1 := fst (write m a v d) in
  U8.get (ram m1) a = v
  /\ rom m1 = rom m
  /\ snd (write m a v d) = d
  /\ (spec_decision_table (bankConfig m) a = Some StoreROM ->
      read m1 a d = (U8.get (rom m) a, d))
  /\ (forall cfg, spec_decision_table cfg a = Some StoreRAM ->
      read (fst (write m1 0x0001 cfg d)) a d = (v, d)).
Proof.
  intros Hio Ha Hv.
  assert (Hr : 0 <= a <= 0xFFFF) by lia.
  assert (Hnone : io_dispatch (ioHandlers m) a = None).
  { apply io_area_only_dispatch; [done | lia]. }
  assert (Hc : between 0xD800 0xDBFF a = false) by (apply between_false; lia).
  assert (Hw : write m a v d = (set_ram m (U8.set (ram m) a v), d)).
  { unfold write. rewrite (land_ffff_id a Hr), (land_ff_id v Hv), Hc, Hnone.
    destruct (a =? 0x0001) eqn:E; [apply Z.eqb_eq in E; lia | done]. }
  rewrite Hw. simpl. repeat split.
  - by apply U8_get_set_byte.
  - intros Ht.
    by rewrite (read_uncovered (set_ram m (U8.set (ram m) a v)) d a StoreROM
                  Hr Hc Hnone Ht).
  - intros cfg Ht. change (Z.land 1 0xFFFF) with 1.
    rewrite (read_uncovered _ d a StoreRAM Hr Hc); simpl.
    + f_equal. rewrite U8_get_set_ne by lia. by apply U8_get_set_byte.
    + exact Hnone.
    + by rewrite decision_table_land_ff.
Qed.

(** C3, as the code has it: write then read returns the byte written at
    every address outside the windows that show ROM and outside the
    registered I/O windows, except in color memory, where it returns the
    low nibble of the byte. *)
Theorem write_then_read m d a v :
  0 <= a <= 0xFFFF ->
  0 <= v <= 255 ->
  io_dispatch (ioHandlers m) a = None ->
  rom_visible (bankConfig m) a = false ->
  read (fst (write m a v d)) a (snd (write m a v d))
    = (if between 0xD800 0xDBFF a then Z.land v 0x0F else v, d).
Proof.
  intros Ha Hv Hnone Hrom.
  destruct (between 0xD800 0xDBFF a) eqn:Hc.
  { apply between_true in Hc. by apply color_read_back. }
  destruct (Z.eq_dec a 1) as [-> | Hne].
  { change (write m 1 v d) with
      (set_ram (set_bankConfig m (Z.land v 0xFF))
         (U8.set (ram m) 1 (Z.land v 0xFF)), d).
    unfold read. simpl fst. simpl snd. simpl ioHandlers.
    change (Z.land 1 0xFFFF) with 1. rewrite Hnone. simpl.
    rewrite U8_get_set_eq, <- land_ff_mod, <- Z.land_assoc. simpl.
    by rewrite land_ff_id. }
  assert (Hw : write m a v d = (set_ram m (U8.set (ram m) a v), d)).
  { unfold write. rewrite (land_ffff_id a Ha), (land_ff_id v Hv), Hc, Hnone.
    destruct (a =? 0x0001) eqn:E; [apply Z.eqb_eq in E; lia | done]. }
  rewrite Hw. simpl fst. simpl snd.
  assert (Hget : U8.get (ram (set_ram m (U8.set (ram m) a v))) a = v).
  { simpl. by apply U8_get_set_byte. }
  destruct (spec_decision_table (bankConfig m) a) as [s |] eqn:Ht.
  - rewrite (read_uncovered (set_ram m (U8.set (ram m) a v)) d a s
               Ha Hc Hnone Ht).
    unfold rom_visible in Hrom. rewrite Ht in Hrom.
    destruct s; try discriminate; simpl.
    + by rewrite U8_get_set_byte.
    + rewrite Hnone. by rewrite U8_get_set_byte.
  - unfold read. rewrite (land_ffff_id a Ha), Hc. simpl ioHandlers.
    rewrite Hnone. unfold spec_decision_table in Ht.
    destruct (between 0xA000 0xBFFF a); [discriminate |].
    destruct (between 0xE000 0xFFFF a); [discriminate |].
    destruct (between 0xD000 0xDFFF a); [discriminate |].
    simpl. by rewrite U8_get_set_byte.
Qed.

End MemoryProperties.

(** ** Memory: the properties on the wired machine *)

Lemma connected_io_area_only : io_area_only (ioHandlers memory0).
Proof. repeat constructor; simpl; lia. Qed.

Lemma color_memory_window_witness :
  0xD800 <= 0xDBFF <= 0xDBFF
  /\ read memory_io_over_color 0xDBFF chips0 = (14, chips0)
  /\ read (fst (write memory_io_over_color 0xDBFF 0xFF chips0)) 0xDBFF
          (snd (write memory_io_over_color 0xDBFF 0xFF chips0))
     = (0x0F, chips0).
Proof.
  assert (H0 : 0xD800 <= 0xDBFF <= 0xDBFF) by lia.
  split; [exact H0 |].
  destruct (color_memory_window memory_io_over_color chips0 0xDBFF 0xFF H0)
    as (_ & Hread & _ & Hback).
  split; [| exact Hback].
  rewrite Hread. vm_compute. reflexivity.
Defined.

(** C1 as stated fails on the wired machine: with CHAREN = 0 the table
    shows character ROM at 0xD020, yet the read is answered by the VIC-II
    window 0xD000-0xD3FF (border color 14, not the glyph byte 0x18). *)
Lemma io_window_hides_character_rom :
  between 0xD800 0xDBFF 0xD020 = false
  /\ spec_decision_table (bankConfig memory_charen_off) 0xD020
       = Some StoreCharROM
  /\ fst (read memory_charen_off 0xD020 chips0) = 14
  /\ fst (store_value memory_charen_off chips0 StoreCharROM 0xD020) = 0x18
  /\ read memory_charen_off 0xD020 chips0
       <> store_value memory_charen_off chips0 StoreCharROM 0xD020.
Proof.
  split; [vm_compute; reflexivity |].
  split; [vm_compute; reflexivity |].
  split; [vm_compute; reflexivity |].
  split; [vm_compute; reflexivity |].
  intros H. apply (f_equal fst) in H. vm_compute in H. discriminate.
Qed.

Lemma read_decision_table_witness :
  0 <= 0xDE00 <= 0xFFFF
  /\ between 0xD800 0xDBFF 0xDE00 = false
  /\ spec_decision_table (bankConfig memory_charen_off) 0xDE00
       = Some StoreCharROM
  /\ read memory_charen_off 0xDE00 chips0 = (0x18, chips0).
Proof.
  assert (H1 : 0 <= 0xDE00 <= 0xFFFF) by lia.
  assert (H2 : between 0xD800 0xDBFF 0xDE00 = false) by reflexivity.
  assert (H3 : spec_decision_table (bankConfig memory_charen_off) 0xDE00
               = Some StoreCharROM) by (vm_compute; reflexivity).
  refine (conj H1 (conj H2 (conj H3 _))).
  rewrite (read_decision_table memory_charen_off chips0 0xDE00 StoreCharROM
             H1 H2 H3).
  vm_compute. reflexivity.
Defined.

Lemma rom_window_write_through_witness :
  io_area_only (ioHandlers memory0)
  /\ read (fst (write memory0 0xA000 0x42 chips0)) 0xA000 chips0
       = (0x60, chips0)
  /\ read (fst (write (fst (write memory0 0xA000 0x42 chips0)) 0x0001 0x36
                      chips0)) 0xA000 chips0
       = (0x42, chips0).
Proof.
  assert (Hio : io_area_only (ioHandlers memory0))
    by (repeat constructor; simpl; lia).
  split; [exact Hio |].
  destruct (rom_window_write_through memory0 chips0 0xA000 0x42 Hio
              ltac:(lia) ltac:(lia)) as (_ & _ & _ & Hrom & Hram).
  split.
  - rewrite Hrom; vm_compute; reflexivity.
  - apply Hram. vm_compute. reflexivity.
Defined.

(** C3 as stated fails in color memory: 0xD800 is outside the registered
    I/O windows and, under the default configuration 0x37, outside every
    window that shows ROM, yet the byte 0xFF reads back as 0x0F. *)
Lemma color_memory_breaks_read_back :
  io_dispatch (ioHandlers memory0) 0xD800 = None
  /\ rom_visible (bankConfig memory0) 0xD800 = false
  /\ bankConfig (fst (write memory0 0xD800 0xFF chips0)) = bankConfig memory0
  /\ fst (read (fst (write memory0 0xD800 0xFF chips0)) 0xD800
              (snd (write memory0 0xD800 0xFF chips0))) = 0x0F
  /\ fst (read (fst (write memory0 0xD800 0xFF chips0)) 0xD800
              (snd (write memory0 0xD800 0xFF chips0))) <> 0xFF.
Proof.
  split; [vm_compute; reflexivity |].
  split; [vm_compute; reflexivity |].
  split; [vm_compute; reflexivity |].
  split; [vm_compute; reflexivity |].
  vm_compute. discriminate.
Qed.

Lemma write_then_read_witness :
  0 <= 0x0400 <= 0xFFFF /\ 0 <= 0xFF <= 255
  /\ io_dispatch (ioHandlers memory0) 0x0400 = None
  /\ rom_visible (bankConfig memory0) 0x0400 = false
  /\ read (fst (write memory0 0x0400 0xFF chips0)) 0x0400
          (snd (write memory0 0x0400 0xFF chips0)) = (0xFF, chips0).
Proof.
  assert (H1 : 0 <= 0x0400 <= 0xFFFF) by lia.
  assert (H2 : 0 <= 0xFF <= 255) by lia.
  assert (H3 : io_dispatch (ioHandlers memory0) 0x0400 = None)
    by (vm_compute; reflexivity).
  assert (H4 : rom_visible (bankConfig memory0) 0x0400 = false)
    by (vm_compute; reflexivity).
  refine (conj H1 (conj H2 (conj H3 (conj H4 _)))).
  exact (write_then_read memory0 chips0 0x0400 0xFF H1 H2 H3 H4).
Defined.

(** ** VIC-II: the raster counter *)

Section RasterCounter.

Import VIC2.

Lemma cycle_raster_range (v : VIC2.t) :
  0 <= rasterY v <= 311 -> 0 <= rasterY (cycle v) <= 311.
Proof.
  intros H. unfold cycle.
  destruct (cycleCounter v + 1 >=? 63); [| simpl; lia].
  destruct (rasterY v + 1 >=? 312) eqn:E; simpl; [lia |].
  rewrite Z.geb_leb in E. apply Z.leb_gt in E. lia.
Qed.

Lemma cycles_S (n : nat) (v : VIC2.t) : cycles (S n) v = cycle (cycles n v).
Proof. reflexivity. Qed.

Lemma cycles_raster_range (n : nat) (v : VIC2.t) :
  0 <= rasterY v <= 311 -> 0 <= rasterY (cycles n v) <= 311.
Proof.
  intros H. induction n as [| n IH]; [exact H |].
  rewrite cycles_S. by apply cycle_raster_range.
Qed.

(** Inside a line only the cycle counter moves. *)
Lemma cycles_within_line (k : nat) (v : VIC2.t) :
  cycleCounter v = 0 -> (k < 63)%nat ->
  cycles k v = mk (registers v) (rasterY v) (Z.of_nat k) (frameComplete v)
                  (borderColor v) (backgroundColor v).
Proof.
  intros H0 Hk. induction k as [| k IH].
  - destruct v; simpl in *. by subst.
  - rewrite cycles_S, IH by lia.
    unfold cycle. simpl.
    destruct (Z.of_nat k + 1 >=? 63) eqn:E.
    + rewrite Z.geb_leb in E. apply Z.leb_le in E. lia.
    + f_equal. lia.
Qed.

(** C9: from a cycle counter of zero, the first 62 calls of [cycle()]
    leave the raster line alone and the 63rd advances it by one, back to
    a cycle counter of zero; the line stays in 0..311 after any number of
    calls; from line 311 the advance wraps to 0 and raises
    [frameComplete], from any other line the flag is left as it was. *)
Theorem raster_line_advance (v : VIC2.t) :
  cycleCounter v = 0 ->
  0 <= rasterY v <= 311 ->
  (forall k, (k < 63)%nat -> rasterY (cycles k v) = rasterY v)
  /\ cycleCounter (cycles 63 v) = 0
  /\ rasterY (cycles 63 v) = (rasterY v + 1) mod 312
  /\ (forall n, 0 <= rasterY (cycles n v) <= 311)
  /\ (rasterY v < 311 ->
      rasterY (cycles 63 v) = rasterY v + 1
      /\ frameComplete (cycles 63 v) = frameComplete v)
  /\ (rasterY v = 311 ->
      rasterY (cycles 63 v) = 0 /\ frameComplete (cycles 63 v) = true).
Proof.
  intros H0 Hr.
  rewrite (cycles_S 62 v), (cycles_within_line 62 v H0) by lia.
  split.
  { intros k Hk. by rewrite (cycles_within_line k v H0 Hk). }
  unfold cycle. simpl.
  destruct (rasterY v + 1 >=? 312) eqn:E; simpl.
  - rewrite Z.geb_leb in E. apply Z.leb_le in E.
    assert (Hy : rasterY v = 311) by lia. rewrite Hy.
    repeat split; try lia.
    all: apply cycles_raster_range; lia.
  - rewrite Z.geb_leb in E. apply Z.leb_gt in E.
    rewrite Z.mod_small by lia.
    repeat split; try lia.
    all: apply cycles_raster_range; lia.
Qed.

Lemma raster_line_advance_witness :
  cycleCounter VIC2.new = 0 /\ 0 <= rasterY VIC2.new <= 311
  /\ rasterY (cycles 63 VIC2.new) = 1.
Proof.
  assert (H0 : cycleCounter VIC2.new = 0) by reflexivity.
  assert (Hr : 0 <= rasterY VIC2.new <= 311) by (simpl; lia).
  refine (conj H0 (conj Hr _)).
  destruct (raster_line_advance VIC2.new H0 Hr) as (_ & _ & H & _).
  rewrite H. reflexivity.
Defined.

End RasterCounter.

(** ** MOS6502 *)

Section ProcessorProperties.

Import MOS6502.

Context {Dev : Type}.
Implicit Types (s : Machine Dev).

(** Unfolds the state-transformer plumbing, down to [read] and [write]. *)
Ltac run :=
  cbv [indirect absolute interrupt irq nmi reset step push16 pull16 push pull
       JSR RTS PHA PLA RTI setP setNZ advance illegal
       mem_read16 mem_read mem_write gets modify log bind ret
       cpu memory devices console bus
       reg_A reg_X reg_Y reg_SP reg_PC flag_N flag_V flag_B flag_D flag_I
       flag_Z flag_C cycles
       with_A with_X with_Y with_SP with_PC with_N with_V with_B with_D
       with_I with_Z with_C with_cycles];
  cbn [fst snd].

(** The first address of the page of [ptr]. *)
Lemma page_start (ptr : Z) :
  0 <= ptr <= 0xFFFF -> Z.land ptr 0xFF00 = 256 * (ptr / 256).
Proof.
  intros H.
  assert (E : Z.land ptr 0xFF00 = Z.shiftl (Z.shiftr ptr 8) 8).
  { apply Z.bits_inj'. intros n Hn.
    rewrite Z.land_spec.
    change 0xFF00 with (Z.shiftl (Z.ones 8) 8).
    destruct (Z.lt_ge_cases n 8) as [Hlt | Hge].
    - rewrite !Z.shiftl_spec_low by lia. apply andb_false_r.
    - rewrite !Z.shiftl_spec by lia. rewrite Z.shiftr_spec by lia.
      replace (n - 8 + 8) with n by lia.
      destruct (Z.lt_ge_cases n 16) as [Hlt | Hge'].
      + rewrite Z.ones_spec_low by lia. apply andb_true_r.
      + rewrite Z.ones_spec_high by lia. rewrite andb_false_r.
        symmetry. destruct (Z.eq_dec ptr 0) as [-> | Hnz].
        * apply Z.bits_0.
        * apply Z.bits_above_log2; [lia |].
          assert (Z.log2 ptr < 16); [| lia].
          apply Z.log2_lt_pow2; lia. }
  rewrite E, Z.shiftl_mul_pow2, Z.shiftr_div_pow2 by lia.
  change (2 ^ 8) with 256. lia.
Qed.

(** C4: [indirect()] fetches the pointer from PC and PC+1; when the low
    byte of the pointer is 0xFF it reads the low byte of the result at
    the pointer and the high byte at [ptr & 0xFF00], the first address of
    the pointer's own page, and when it is not it reads the two bytes at
    the pointer and the pointer plus one, low byte first. Either way PC
    moves on by two and memory is not written. *)
Theorem indirect_page_wrap s :
  let pc := reg_PC (cpu s) in
  let fetch := read16 (memory s) pc (devices s) in
  let ptr := fst fetch in
  let lo := read (memory s) ptr (snd fetch) in
  (Z.land ptr 0xFF = 0xFF ->
     let hi := read (memory s) (Z.land ptr 0xFF00) (snd lo) in
     fst (indirect s) = Z.lor (Z.shiftl (fst hi) 8) (fst lo)
     /\ bus (snd (indirect s))
        = Rd (Z.land ptr 0xFF00) :: Rd ptr :: Rd (pc + 1) :: Rd pc :: bus s
     /\ devices (snd (indirect s)) = snd hi
     /\ (0 <= ptr <= 0xFFFF ->
         Z.land ptr 0xFF00 = 256 * (ptr / 256)
         /\ Z.land ptr 0xFF00 = ptr - 0xFF))
  /\ (Z.land ptr 0xFF <> 0xFF ->
     let hi := read (memory s) (ptr + 1) (snd lo) in
     fst (indirect s) = Z.lor (fst lo) (Z.shiftl (fst hi) 8)
     /\ bus (snd (indirect s))
        = Rd (ptr + 1) :: Rd ptr :: Rd (pc + 1) :: Rd pc :: bus s
     /\ devices (snd (indirect s)) = snd hi)
  /\ reg_PC (cpu (snd (indirect s))) = Z.land (pc + 2) 0xFFFF
  /\ memory (snd (indirect s)) = memory s.
Proof.
  intros pc fetch ptr lo.
  assert (Hfetch : fetch
    = (Z.lor (fst (read (memory s) pc (devices s)))
         (Z.shiftl (fst (read (memory s) (pc + 1)
                           (snd (read (memory s) pc (devices s))))) 8),
       snd (read (memory s) (pc + 1) (snd (read (memory s) pc (devices s)))))).
  { subst fetch. unfold read16.
    destruct (read (memory s) pc (devices s)) as [v0 d0]. simpl.
    by destruct (read (memory s) (pc + 1) d0). }
  subst lo ptr. rewrite Hfetch. clear Hfetch fetch. simpl fst. simpl snd.
  run.
  set (ptr := Z.lor _ _).
  destruct (Z.land ptr 0xFF =? 0xFF) eqn:E.
  - apply Z.eqb_eq in E. cbn [fst snd cpu memory devices bus reg_PC].
    split; [| split; [intros Hne; contradiction | done]].
    intros _. repeat split; try done.
    + by apply page_start.
    + rewrite page_start by done.
      rewrite land_ff_mod in E. pose proof (Z.div_mod ptr 256). lia.
  - apply Z.eqb_neq in E. cbn [fst snd cpu memory devices bus reg_PC].
    split; [intros He; contradiction |]. done.
Qed.

Lemma read16_pair (m : Memory Dev) (a : Z) (d : Dev) :
  read16 m a d
  = (Z.lor (fst (read m a d)) (Z.shiftl (fst (read m (a + 1) (snd (read m a d)))) 8),
     snd (read m (a + 1) (snd (read m a d)))).
Proof.
  unfold read16. destruct (read m a d) as [v0 d0]. simpl.
  by destruct (read m (a + 1) d0).
Qed.


Lemma irq_masked s : flag_I (cpu s) = true -> irq s = (tt, s).
Proof. intros Hi. unfold irq, bind, gets. by rewrite Hi. Qed.

Lemma irq_clear s : flag_I (cpu s) = false -> irq s = interrupt 0xFFFE s.
Proof. intros Hi. unfold irq, bind, gets. by rewrite Hi. Qed.


Lemma read_outside_io_area (m : Memory Dev) (a : Z) (d : Dev) :
  io_area_only (ioHandlers m) ->
  Z.land a 0xFFFF < 0xD000 \/ 0xDFFF < Z.land a 0xFFFF ->
  snd (read m a d) = d.
Proof.
  intros Hio Ha. unfold read.
  rewrite (io_area_only_dispatch _ _ Hio Ha).
  repeat match goal with |- context [if ?b then _ else _] => destruct b end;
    reflexivity.
Qed.

(** C6: [reset()] loads PC from 0xFFFC/0xFFFD, sets SP to 0xFD, clears
    A, X and Y, sets the interrupt-disable flag, leaves the other flags
    and memory as they were; with the I/O windows inside the I/O area it
    changes no chip either, and a second [reset()] yields the registers
    and flags of the first. *)
Theorem reset_idempotent s :
  let vec := read16 (memory s) 0xFFFC (devices s) in
  let s1 := snd (reset s) in
  let s2 := snd (reset s1) in
  reg_PC (cpu s1) = fst vec
  /\ reg_SP (cpu s1) = 0xFD
  /\ reg_A (cpu s1) = 0 /\ reg_X (cpu s1) = 0 /\ reg_Y (cpu s1) = 0
  /\ flag_I (cpu s1) = true
  /\ cpu s1
     = mkCPU 0 0 0 0xFD (fst vec) (flag_N (cpu s)) (flag_V (cpu s))
             (flag_B (cpu s)) (flag_D (cpu s)) true (flag_Z (cpu s))
             (flag_C (cpu s)) (cycles (cpu s))
  /\ memory s1 = memory s
  /\ (io_area_only (ioHandlers (memory s)) ->
      devices s1 = devices s /\ cpu s2 = cpu s1 /\ memory s2 = memory s).
Proof.
  intros vec s1 s2.
  assert (H1 : forall t : Machine Dev,
    snd (reset t)
    = mkMachine
        (mkCPU 0 0 0 0xFD (fst (read16 (memory t) 0xFFFC (devices t)))
           (flag_N (cpu t)) (flag_V (cpu t)) (flag_B (cpu t))
           (flag_D (cpu t)) true (flag_Z (cpu t)) (flag_C (cpu t))
           (cycles (cpu t)))
        (memory t) (snd (read16 (memory t) 0xFFFC (devices t)))
        (LogReset (fst (read16 (memory t) 0xFFFC (devices t))) :: console t)
        (Rd (0xFFFC + 1) :: Rd 0xFFFC :: bus t)).
  { intros t. rewrite read16_pair. run. reflexivity. }
  subst s2 s1 vec. rewrite (H1 (snd (reset s))), (H1 s). cbn [cpu memory devices flag_N
    flag_V flag_B flag_D flag_Z flag_C cycles reg_PC reg_SP reg_A reg_X reg_Y
    flag_I].
  repeat (split; [reflexivity |]).
  intros Hio.
  assert (Hd : snd (read16 (memory s) 0xFFFC (devices s)) = devices s).
  { rewrite read16_pair. cbn [snd].
    rewrite !read_outside_io_area; try done;
      right; vm_compute; reflexivity. }
  rewrite Hd. done.
Qed.

(** C7: when the byte fetched at PC has no handler of its own, [step()]
    returns 2, writes one line to the console, moves PC on by one modulo
    65536 and leaves A, X, Y, SP, the seven flags and memory as they
    were; the opcode fetch is its only memory access. The cycle counter
    grows by the 2 cycles returned when the table has an entry for the
    byte. *)
Theorem unassigned_opcode_inert s :
  let pc := reg_PC (cpu s) in
  let fetch := read (memory s) pc (devices s) in
  let opcode := fst fetch in
  assigned (Dev := Dev) opcode = None ->
  let s' := snd (step s) in
  fst (step s) = 2
  /\ cpu s'
     = with_cycles (if (0 <=? opcode) && (opcode <? 256)
                    then cycles (cpu s) + 2 else cycles (cpu s))
         (with_PC (Z.land (pc + 1) 0xFFFF) (cpu s))
  /\ memory s' = memory s
  /\ devices s' = snd fetch
  /\ bus s' = Rd pc :: bus s
  /\ console s'
     = (if (0 <=? opcode) && (opcode <? 256)
        then LogIllegal opcode (Z.land (pc + 1) 0xFFFF)
        else LogUnknown opcode pc) :: console s.
Proof.
  intros pc fetch opcode Hnone s'. subst s'.
  unfold step, bind, gets, mem_read. cbn [fst snd cpu].
  fold pc fetch opcode. unfold instructions. rewrite Hnone.
  destruct ((0 <=? opcode) && (opcode <? 256));
    cbv [illegal advance gets modify log bind ret];
    cbn [fst snd cpu memory devices console bus reg_PC cycles
         with_PC with_cycles];
    repeat split; reflexivity.
Qed.

(** *** The stack *)

Ltac byte_facts :=
  repeat match goal with
  | |- context [Z.land ?x 0xFF] =>
      lazymatch goal with
      | _ : 0 <= Z.land x 0xFF <= 255 |- _ => fail
      | _ => pose proof (land_ff_range x)
      end
  end.

Ltac in_page :=
  unfold in_stack_page; cbn [access_address]; byte_facts; lia.

Ltac confined added :=
  exists added; run;
  split; [reflexivity |];
  split;
  [ repeat (apply List.Forall_cons;
            [ first [ intros Hw; cbn in Hw; discriminate Hw
                    | intros _; in_page
                    | in_page ] |]);
    apply List.Forall_nil
  | byte_facts; lia ].

(** C10: from a state whose stack pointer is an 8-bit value, [push],
    [pull], [push16], [pull16] and the instructions PHA, PLA, RTS and RTI
    access memory only at 0x0100+SP inside 0x0100-0x01FF, and JSR,
    [irq()] and [nmi()] write only there; each leaves an 8-bit stack
    pointer, one less modulo 256 after a push and one more modulo 256
    after a pull. *)
Theorem stack_page_discipline s :
  0 <= reg_SP (cpu s) <= 255 ->
  (forall v, stack_confined (push v) s
             /\ bus (snd (push v s)) = Wr (0x0100 + reg_SP (cpu s)) v :: bus s
             /\ reg_SP (cpu (snd (push v s))) = (reg_SP (cpu s) - 1) mod 256)
  /\ (stack_confined pull s
      /\ bus (snd (pull s))
         = Rd (0x0100 + (reg_SP (cpu s) + 1) mod 256) :: bus s
      /\ reg_SP (cpu (snd (pull s))) = (reg_SP (cpu s) + 1) mod 256)
  /\ (forall v, stack_confined (push16 v) s)
  /\ stack_confined pull16 s
  /\ stack_confined PHA s
  /\ stack_confined PLA s
  /\ stack_confined RTS s
  /\ stack_confined RTI s
  /\ stack_writes_confined JSR s
  /\ stack_writes_confined irq s
  /\ stack_writes_confined nmi s.
Proof.
  destruct s as [[a x y sp pc n v b d i z c cyc] m dv lg bs].
  cbn [cpu reg_SP bus]. intros Hsp.
  set (s := mkMachine (mkCPU a x y sp pc n v b d i z c cyc) m dv lg bs).
  assert (Hint : forall vector, stack_writes_confined (interrupt vector) s).
  { intros vector. unfold stack_writes_confined. subst s.
    confined [Rd (vector + 1); Rd vector;
              Wr (0x0100 + Z.land (Z.land (sp - 1) 0xFF - 1) 0xFF)
                 (Z.lor (getP (mkCPU a x y sp pc n v b d i z c cyc)) 0x20);
              Wr (0x0100 + Z.land (sp - 1) 0xFF) (Z.land pc 0xFF);
              Wr (0x0100 + sp) (Z.land (Z.shiftr pc 8) 0xFF)]. }
  split; [| split; [| split; [| split; [| split; [| split; [| split;
    [| split; [| split; [| split]]]]]]]]].
  - intros w. split; [| split].
    + unfold stack_confined. subst s. confined [Wr (0x0100 + sp) w].
    + subst s. run. reflexivity.
    + subst s. run. apply land_ff_mod.
  - split; [| split].
    + unfold stack_confined. subst s.
      confined [Rd (0x0100 + Z.land (sp + 1) 0xFF)].
    + subst s. run. by rewrite land_ff_mod.
    + subst s. run. apply land_ff_mod.
  - intros w. unfold stack_confined. subst s.
    confined [Wr (0x0100 + Z.land (sp - 1) 0xFF) (Z.land w 0xFF);
              Wr (0x0100 + sp) (Z.land (Z.shiftr w 8) 0xFF)].
  - unfold stack_confined. subst s.
    confined [Rd (0x0100 + Z.land (Z.land (sp + 1) 0xFF + 1) 0xFF);
              Rd (0x0100 + Z.land (sp + 1) 0xFF)].
  - unfold stack_confined. subst s. confined [Wr (0x0100 + sp) a].
  - unfold stack_confined. subst s.
    confined [Rd (0x0100 + Z.land (sp + 1) 0xFF)].
  - unfold stack_confined. subst s.
    confined [Rd (0x0100 + Z.land (Z.land (sp + 1) 0xFF + 1) 0xFF);
              Rd (0x0100 + Z.land (sp + 1) 0xFF)].
  - unfold stack_confined. subst s.
    confined [Rd (0x0100 + Z.land (Z.land (Z.land (sp + 1) 0xFF + 1) 0xFF
                                   + 1) 0xFF);
              Rd (0x0100 + Z.land (Z.land (sp + 1) 0xFF + 1) 0xFF);
              Rd (0x0100 + Z.land (sp + 1) 0xFF)].
  - unfold stack_writes_confined. subst s.
    confined [Wr (0x0100 + Z.land (sp - 1) 0xFF)
                 (Z.land (Z.land (pc + 2) 0xFFFF - 1) 0xFF);
              Wr (0x0100 + sp)
                 (Z.land (Z.shiftr (Z.land (pc + 2) 0xFFFF - 1) 8) 0xFF);
              Rd (pc + 1); Rd pc].
  - destruct i.
    + exists []. subst s. run.
      split; [reflexivity |]. split; [apply List.Forall_nil | exact Hsp].
    + unfold stack_writes_confined.
      rewrite (irq_clear s eq_refl). apply Hint.
  - unfold nmi. apply Hint.
Qed.

(** *** Registers stay eight bits wide *)

Section Invariant.

Variable good : Dev -> Prop.

Lemma io_dispatch_In (hs : list (Handler Dev)) (a : Z) (h : Handler Dev) :
  io_dispatch hs a = Some h -> In h hs.
Proof.
  induction hs as [| h' hs IH]; simpl; [discriminate |].
  destruct ((h_start h' <=? a) && (a <=? h_end h')).
  - intros [= ->]. by left.
  - intros H. right. by apply IH.
Qed.

Lemma io_dispatch_ok (m : Memory Dev) (a : Z) (h : Handler Dev) :
  memory_ok good m -> io_dispatch (ioHandlers m) a = Some h ->
  handler_ok good h.
Proof.
  intros (_ & _ & _ & Hall) Hd.
  apply io_dispatch_In in Hd.
  rewrite List.Forall_forall in Hall. by apply Hall.
Qed.

Lemma read_ok (m : Memory Dev) (a : Z) (d : Dev) :
  memory_ok good m -> good d ->
  byte (fst (read m a d)) /\ good (snd (read m a d)).
Proof.
  intros Hm Hd. pose proof Hm as (Hram & Hrom & Hchr & _).
  unfold read.
  destruct (between 0xD800 0xDBFF (Z.land a 0xFFFF)).
  { split; [| exact Hd]. simpl. unfold byte.
    pose proof (land_0f_range
      (U8.get (colorRAM m) (Z.land a 0xFFFF - 0xD800))). lia. }
  destruct (io_dispatch (ioHandlers m) (Z.land a 0xFFFF)) as [h |] eqn:Hio.
  { destruct (io_dispatch_ok m _ h Hm Hio) as [Hread _]. by apply Hread. }
  repeat match goal with |- context [if ?b then _ else _] => destruct b end;
    (split; [simpl; auto | exact Hd]).
Qed.

Lemma read_byte (m : Memory Dev) (a : Z) (d : Dev) :
  memory_ok good m -> good d -> byte (fst (read m a d)).
Proof. intros Hm Hd. by apply read_ok. Qed.

Lemma read_good (m : Memory Dev) (a : Z) (d : Dev) :
  memory_ok good m -> good d -> good (snd (read m a d)).
Proof. intros Hm Hd. by apply read_ok. Qed.

Lemma bytes_only_set (arr : gmap Z Z) (i v : Z) :
  bytes_only arr -> bytes_only (U8.set arr i v).
Proof.
  intros H j. destruct (Z.eq_dec i j) as [-> | Hne].
  - rewrite U8_get_set_eq. unfold byte.
    pose proof (Z.mod_pos_bound v 256). lia.
  - by rewrite U8_get_set_ne.
Qed.

Lemma write_ok (m : Memory Dev) (a v : Z) (d : Dev) :
  memory_ok good m -> good d ->
  memory_ok good (fst (write m a v d)) /\ good (snd (write m a v d)).
Proof.
  intros Hm Hd. pose proof Hm as (Hram & Hrom & Hchr & Hio).
  unfold write.
  destruct (Z.land a 0xFFFF =? 0x0001).
  { split; [| exact Hd]. simpl.
    split; [by apply bytes_only_set | done]. }
  destruct (between 0xD800 0xDBFF (Z.land a 0xFFFF)).
  { split; [| exact Hd]. simpl. done. }
  destruct (io_dispatch (ioHandlers m) (Z.land a 0xFFFF)) as [h |] eqn:E.
  - destruct (io_dispatch_ok m _ h Hm E) as [_ Hwrite].
    split; [exact Hm | by apply Hwrite].
  - split; [| exact Hd]. simpl.
    split; [by apply bytes_only_set | done].
Qed.

Lemma write_memory_ok (m : Memory Dev) (a v : Z) (d : Dev) :
  memory_ok good m -> good d -> memory_ok good (fst (write m a v d)).
Proof. intros Hm Hd. by apply write_ok. Qed.

Lemma write_good (m : Memory Dev) (a v : Z) (d : Dev) :
  memory_ok good m -> good d -> good (snd (write m a v d)).
Proof. intros Hm Hd. by apply write_ok. Qed.

(** Runs a handler on a machine given by its fields and splits on the
    tests it meets. *)
Ltac exec :=
  cbv [table load_with store_with transfer step_reg branch_if compare_with
       set_flag immediate zeroPage zeroPageX zeroPageY absolute absoluteX
       absoluteY indirect indirectX indirectY relative
       interrupt irq nmi reset step push16 pull16 push pull
       JSR RTS PHA PLA RTI setP setNZ advance illegal
       mem_read16 mem_read mem_write gets modify log bind ret
       cpu memory devices console bus
       reg_A reg_X reg_Y reg_SP reg_PC flag_N flag_V flag_B flag_D flag_I
       flag_Z flag_C cycles
       with_A with_X with_Y with_SP with_PC with_N with_V with_B with_D
       with_I with_Z with_C with_cycles];
  cbn [fst snd].

Ltac exec_all :=
  exec;
  repeat (match goal with
          | |- context [if ?b then _ else _] => destruct b
          end; exec).

Ltac solve_ok :=
  unfold sane, registers_8bit; cbn [cpu memory devices reg_A reg_X reg_Y reg_SP];
  repeat first
    [ assumption
    | apply land_ff_range
    | apply read_byte
    | apply read_good
    | apply write_memory_ok
    | apply write_good
    | split ].

Ltac keeps_tac :=
  intros [[a x y sp pc n v b d i z c cyc] m dv lg bs] ((HA & HX & HY & HSP) & Hm & Hd);
  cbn [cpu memory devices reg_A reg_X reg_Y reg_SP] in *;
  exec_all; solve_ok.

Lemma table_keeps :
  Forall (fun entry => keeps good (snd entry)) (table (Dev := Dev)).
Proof.
  unfold table.
  repeat (apply List.Forall_cons; [cbn [snd]; keeps_tac |]).
  apply List.Forall_nil.
Qed.

Lemma assigned_keeps (opcode : Z) (handler : M Dev Z) :
  assigned opcode = Some handler -> keeps good handler.
Proof.
  unfold assigned.
  destruct (find (fun entry => fst entry =? opcode) table) as [e |] eqn:E;
    [| discriminate].
  intros [= <-]. apply find_some in E as [Hin _].
  pose proof table_keeps as Hall.
  rewrite List.Forall_forall in Hall. by apply Hall.
Qed.

Lemma illegal_keeps (opcode : Z) : keeps good (illegal (Dev := Dev) opcode).
Proof. keeps_tac. Qed.

Lemma step_keeps : keeps good (step (Dev := Dev)).
Proof.
  intros s Hs.
  set (fetch := read (memory s) (reg_PC (cpu s)) (devices s)).
  assert (Hfetched : sane good
            (mkMachine (with_PC (Z.land (reg_PC (cpu s) + 1) 0xFFFF) (cpu s))
               (memory s) (snd fetch) (console s)
               (Rd (reg_PC (cpu s)) :: bus s))).
  { destruct Hs as ((HA & HX & HY & HSP) & Hm & Hd).
    subst fetch. destruct (cpu s). solve_ok. }
  cbv [step bind gets mem_read]. cbn [fst snd cpu memory devices console bus].
  fold fetch.
  destruct (instructions (Dev := Dev) (fst fetch)) as [instruction |] eqn:Hi.
  - assert (Hk : keeps good instruction).
    { unfold instructions in Hi.
      destruct ((0 <=? fst fetch) && (fst fetch <? 256)); [| discriminate].
      injection Hi as <-.
      destruct (assigned (fst fetch)) as [h |] eqn:Ha.
      - by apply (assigned_keeps (fst fetch)).
      - apply illegal_keeps. }
    specialize (Hk _ Hfetched).
    cbv [advance bind gets modify ret]. cbn [fst snd cpu memory devices
      console bus reg_PC].
    destruct (instruction _) as [cost s1]. cbn [fst snd] in *.
    destruct Hk as ((HA & HX & HY & HSP) & Hm & Hd).
    destruct s1 as [[? ? ? ? ? ? ? ? ? ? ? ? ?] ? ? ? ?].
    cbn in *. solve_ok.
  - cbv [advance bind gets modify ret log]. cbn [fst snd cpu memory devices
      console bus reg_PC].
    destruct Hfetched as ((HA & HX & HY & HSP) & Hm & Hd).
    cbn [fst snd cpu memory devices console bus reg_PC] in *.
    destruct (cpu s). cbn in *. solve_ok.
Qed.

Lemma interrupt_keeps (vector : Z) :
  keeps good (interrupt (Dev := Dev) vector).
Proof. keeps_tac. Qed.

Lemma irq_keeps : keeps good (irq (Dev := Dev)).
Proof. keeps_tac. Qed.

Lemma nmi_keeps : keeps good (nmi (Dev := Dev)).
Proof. apply interrupt_keeps. Qed.

Lemma reset_keeps : keeps good (reset (Dev := Dev)).
Proof.
  intros [[a x y sp pc n v b d i z c cyc] m dv lg bs]
         ((HA & HX & HY & HSP) & Hm & Hd).
  cbn [cpu memory devices reg_A reg_X reg_Y reg_SP] in *.
  exec_all. solve_ok; unfold byte; lia.
Qed.

(** Whatever the clock and the chips do to the CPU, the accumulator, the
    index registers and the stack pointer stay eight bits wide, so every
    later stack operation starts from an 8-bit stack pointer. *)
Lemma registers_stay_8bit (es : list Event) (s : Machine Dev) :
  sane good s -> sane good (run_events es s).
Proof.
  revert s. induction es as [| e es IH]; intros s Hs; [exact Hs |].
  change (sane good (run_events es (fire s e))).
  apply IH. destruct e; unfold fire.
  - by apply step_keeps.
  - by apply irq_keeps.
  - by apply nmi_keeps.
  - by apply reset_keeps.
Qed.

End Invariant.

End ProcessorProperties.

(** ** MOS6502: the properties on the wired machine *)

Section ProcessorWitnesses.

Import MOS6502.

Lemma indirect_page_wrap_witness :
  Z.land (fst (read16 (memory (machine0 0x1001)) 0x1001 chips0)) 0xFF = 0xFF
  /\ fst (read16 (memory (machine0 0x1801)) 0x1801 chips0) = 0x0310
  /\ fst (indirect (machine0 0x1001)) = 0x1234
  /\ fst (indirect (machine0 0x1801)) = 0x5678.
Proof.
  assert (H1 : Z.land (fst (read16 (memory (machine0 0x1001)) 0x1001 chips0))
                 0xFF = 0xFF) by (vm_compute; reflexivity).
  assert (H2 : fst (read16 (memory (machine0 0x1801)) 0x1801 chips0) = 0x0310)
    by (vm_compute; reflexivity).
  refine (conj H1 (conj H2 _)).
  destruct (indirect_page_wrap (machine0 0x1001)) as (Hwrap & _).
  destruct (indirect_page_wrap (machine0 0x1801)) as (_ & Hplain & _).
  split.
  - destruct (Hwrap H1) as (-> & _). vm_compute. reflexivity.
  - destruct Hplain as (-> & _); [| vm_compute; reflexivity].
    change (reg_PC (cpu (machine0 0x1801))) with 0x1801.
    change (devices (machine0 0x1801)) with chips0.
    rewrite H2. discriminate.
Defined.


Lemma reset_idempotent_witness :
  io_area_only (ioHandlers (memory (machine0 0x1000)))
  /\ reg_PC (cpu (snd (reset (machine0 0x1000)))) = 0xFCE2
  /\ cpu (snd (reset (snd (reset (machine0 0x1000)))))
     = cpu (snd (reset (machine0 0x1000))).
Proof.
  assert (Hio : io_area_only (ioHandlers (memory (machine0 0x1000))))
    by (repeat constructor; simpl; lia).
  split; [exact Hio |].
  destruct (reset_idempotent (machine0 0x1000))
    as (Hpc & _ & _ & _ & _ & _ & _ & _ & Hagain).
  split.
  - rewrite Hpc. vm_compute. reflexivity.
  - exact (proj1 (proj2 (Hagain Hio))).
Defined.

Lemma unassigned_opcode_inert_witness :
  assigned (Dev := Chips)
    (fst (read (memory (machine0 0x2000)) 0x2000 chips0)) = None
  /\ fst (step (machine0 0x2000)) = 2
  /\ memory (snd (step (machine0 0x2000))) = memory (machine0 0x2000)
  /\ console (snd (step (machine0 0x2000))) = [LogIllegal 0x02 0x2001].
Proof.
  assert (H0 : assigned (Dev := Chips)
                 (fst (read (memory (machine0 0x2000)) 0x2000 chips0)) = None)
    by (vm_compute; reflexivity).
  split; [exact H0 |].
  destruct (unassigned_opcode_inert (machine0 0x2000) H0)
    as (Hret & _ & Hmem & _ & _ & Hlog).
  split; [exact Hret |]. split; [exact Hmem |].
  rewrite Hlog. vm_compute. reflexivity.
Defined.

Lemma stack_page_discipline_witness :
  0 <= reg_SP (cpu (machine0 0x1000)) <= 255
  /\ bus (snd (push 0xAB (machine0 0x1000))) = [Wr 0x01FD 0xAB]
  /\ reg_SP (cpu (snd (push 0xAB (machine0 0x1000)))) = 0xFC.
Proof.
  assert (H0 : 0 <= reg_SP (cpu (machine0 0x1000)) <= 255) by (simpl; lia).
  split; [exact H0 |].
  destruct (stack_page_discipline (machine0 0x1000) H0) as (Hpush & _).
  destruct (Hpush 0xAB) as (_ & Hbus & Hsp).
  split.
  - rewrite Hbus. reflexivity.
  - rewrite Hsp. reflexivity.
Defined.

End ProcessorWitnesses.

(** ** The wired machine keeps its registers eight bits wide *)

Section WiredMachine.

Import MOS6502.

Lemma lor_byte (a b : Z) : byte a -> byte b -> byte (Z.lor a b).
Proof.
  unfold byte. intros Ha Hb.
  rewrite <- (land_ff_id a Ha), <- (land_ff_id b Hb), <- Z.land_lor_distr_l.
  apply land_ff_range.
Qed.

Lemma vic_read_byte (v : VIC2.t) (addr : Z) :
  bytes_only (VIC2.registers v) -> byte (VIC2.read v addr).
Proof.
  intros Hv. unfold VIC2.read.
  destruct (Z.land addr 0x3F =? 0x12); [apply land_ff_range |].
  destruct (Z.land addr 0x3F =? 0x11); [| apply Hv].
  apply lor_byte.
  - rewrite Z.shiftr_land. change (Z.shiftr 0x100 1) with (Z.land 0x80 0xFF).
    rewrite Z.land_assoc. apply land_ff_range.
  - change 0x7F with (Z.land 0x7F 0xFF).
    rewrite Z.land_assoc. apply land_ff_range.
Qed.

Lemma bytes_only_empty : bytes_only ∅.
Proof. intros i. unfold U8.get. rewrite lookup_empty. unfold byte. simpl. lia. Qed.

Lemma bytes_only_list (l : list (Z * Z)) :
  Forall (fun e => byte (snd e)) l -> bytes_only (list_to_map l).
Proof.
  induction 1 as [| [k x] l Hx _ IH]; [apply bytes_only_empty |].
  intros i. simpl. unfold U8.get.
  destruct (Z.eq_dec k i) as [-> | Hne].
  - by rewrite lookup_insert_eq.
  - rewrite lookup_insert_ne by done. apply IH.
Qed.

Lemma chips_good_mk (v : VIC2.t) (s : SID.t) (c1 c2 : CIA.t) :
  bytes_only (VIC2.registers v) -> bytes_only (SID.registers s) ->
  Forall byte (SID.random s) ->
  bytes_only (CIA.registers c1) -> bytes_only (CIA.registers c2) ->
  chips_good (mkChips v s c1 c2).
Proof. intros. by repeat (split; [assumption |]). Qed.

Lemma sid_read_ok (s : SID.t) (addr : Z) :
  bytes_only (SID.registers s) -> Forall byte (SID.random s) ->
  byte (fst (SID.read s addr))
  /\ bytes_only (SID.registers (snd (SID.read s addr)))
  /\ Forall byte (SID.random (snd (SID.read s addr))).
Proof.
  intros Hs Hr.
  assert (Hdraw : byte (fst (SID.draw s))
                  /\ bytes_only (SID.registers (snd (SID.draw s)))
                  /\ Forall byte (SID.random (snd (SID.draw s)))).
  { unfold SID.draw. simpl. destruct Hr as [| x l Hx Hl]; simpl.
    - split; [unfold byte; lia | split; [exact Hs | constructor]].
    - split; [exact Hx | split; [exact Hs | exact Hl]]. }
  unfold SID.read.
  destruct (Z.land addr 0x1F =? 0x1B); [exact Hdraw |].
  destruct (Z.land addr 0x1F =? 0x1C); [exact Hdraw |].
  destruct (Z.land addr 0x1F =? 0x19);
    [simpl; split; [unfold byte; lia | done] |].
  destruct (Z.land addr 0x1F =? 0x1A);
    [simpl; split; [unfold byte; lia | done] |].
  simpl. split; [apply Hs | done].
Qed.

Lemma connected_handlers_ok (m : Memory Chips) :
  Forall (handler_ok chips_good) (ioHandlers m) ->
  Forall (handler_ok chips_good) (ioHandlers (connectComponents m)).
Proof.
  assert (Hset : forall (hs : list (Handler Chips)) h,
            Forall (handler_ok chips_good) hs -> handler_ok chips_good h ->
            Forall (handler_ok chips_good) (map_set hs h)).
  { intros hs h Hall Hh. induction Hall as [| h' hs Hh' Hall IH]; simpl.
    - constructor; [exact Hh | constructor].
    - destruct ((h_start h' =? h_start h) && (h_end h' =? h_end h));
        by constructor. }
  intros Hall. unfold connectComponents, setIOHandler. cbn [ioHandlers].
  repeat apply Hset; [exact Hall | | | |].
  - split.
    + intros a c Hc. pose proof Hc as (Hv & _). simpl.
      split; [by apply vic_read_byte | done].
    + intros a v c (Hv & Hs & Hr & H1 & H2). simpl.
      apply chips_good_mk; try done. by apply bytes_only_set.
  - split.
    + intros a c (Hv & Hs & Hr & H1 & H2). simpl.
      destruct (sid_read_ok (sid c) a Hs Hr) as (Hb & Hs' & Hr').
      split; [exact Hb | by apply chips_good_mk].
    + intros a v c (Hv & Hs & Hr & H1 & H2). simpl.
      apply chips_good_mk; try done.
      * unfold SID.write. destruct (SID.voices (sid c)) as [[v1 v2] v3].
        simpl. by apply bytes_only_set.
      * unfold SID.write. by destruct (SID.voices (sid c)) as [[v1 v2] v3].
  - split.
    + intros a c Hc. pose proof Hc as (_ & _ & _ & H1 & _). simpl.
      split; [apply H1 | done].
    + intros a v c (Hv & Hs & Hr & H1 & H2). simpl.
      apply chips_good_mk; try done. by apply bytes_only_set.
  - split.
    + intros a c Hc. pose proof Hc as (_ & _ & _ & _ & H2). simpl.
      split; [apply H2 | done].
    + intros a v c (Hv & Hs & Hr & H1 & H2). simpl.
      apply chips_good_mk; try done. by apply bytes_only_set.
Qed.

Lemma chips0_good : chips_good chips0.
Proof.
  unfold chips0. apply chips_good_mk; simpl; try apply bytes_only_empty.
  - apply bytes_only_set, bytes_only_empty.
  - repeat constructor; unfold byte; lia.
Qed.

Lemma machine0_sane (pc : Z) : sane chips_good (machine0 pc).
Proof.
  split; [| split].
  - unfold registers_8bit, byte. simpl. lia.
  - unfold machine0, memory0. cbn [memory].
    split; [| split; [| split]].
    + apply bytes_only_list. repeat constructor; unfold byte; simpl; lia.
    + apply bytes_only_list. repeat constructor; unfold byte; simpl; lia.
    + apply bytes_only_list. repeat constructor; unfold byte; simpl; lia.
    + cbn [set_ram ioHandlers]. apply connected_handlers_ok. constructor.
  - apply chips0_good.
Qed.

(** On the wired machine the stack pointer is an 8-bit value after any
    sequence of steps, interrupts and resets. *)
Lemma wired_stack_pointer_8bit (es : list Event) (pc : Z) :
  0 <= reg_SP (cpu (run_events es (machine0 pc))) <= 255.
Proof.
  destruct (registers_stay_8bit chips_good es (machine0 pc) (machine0_sane pc))
    as ((_ & _ & _ & Hsp) & _).
  exact Hsp.
Qed.

End WiredMachine.

(** * Further properties *)

(** ** Bytes and words *)

Lemma byte_forall (P : Z -> bool) :
  forallb P (map Z.of_nat (seq 0 256)) = true ->
  forall v, 0 <= v <= 255 -> P v = true.
Proof.
  intros Hall v Hv. rewrite forallb_forall in Hall. apply Hall.
  apply in_map_iff. exists (Z.to_nat v). split; [lia |].
  apply in_seq. lia.
Qed.

Lemma word_of_bytes (w : Z) :
  Z.lor (Z.shiftl (Z.land (Z.shiftr w 8) 0xFF) 8) (Z.land w 0xFF)
  = Z.land w 0xFFFF.
Proof.
  apply Z.bits_inj'. intros n Hn.
  rewrite Z.lor_spec, !Z.land_spec.
  change 0xFF with (Z.ones 8). change 0xFFFF with (Z.ones 16).
  destruct (Z.lt_ge_cases n 8) as [Hlt | Hge].
  - rewrite Z.shiftl_spec_low, !Z.ones_spec_low by lia. simpl.
    by rewrite andb_true_r.
  - rewrite Z.shiftl_spec, Z.land_spec, Z.shiftr_spec by lia.
    replace (n - 8 + 8) with n by lia.
    rewrite (Z.ones_spec_high 8 n) by lia. rewrite andb_false_r, orb_false_r.
    destruct (Z.lt_ge_cases n 16) as [Hlt | Hge'].
    + by rewrite !Z.ones_spec_low by lia.
    + by rewrite !Z.ones_spec_high by lia.
Qed.

Lemma word_of_bytes_swapped (w : Z) :
  Z.lor (Z.land w 0xFF) (Z.shiftl (Z.land (Z.shiftr w 8) 0xFF) 8)
  = Z.land w 0xFFFF.
Proof. rewrite Z.lor_comm. apply word_of_bytes. Qed.

Lemma byte_high_bits (x n : Z) :
  0 <= x <= 255 -> 8 <= n -> Z.testbit x n = false.
Proof.
  intros Hx Hn. rewrite <- (land_ff_id x Hx). change 0xFF with (Z.ones 8).
  rewrite Z.land_spec, Z.ones_spec_high by lia. apply andb_false_r.
Qed.

Lemma word_range (lo hi : Z) :
  0 <= lo <= 255 -> 0 <= hi <= 255 ->
  0 <= Z.lor lo (Z.shiftl hi 8) <= 0xFFFF.
Proof.
  intros Hlo Hhi.
  assert (E : Z.lor lo (Z.shiftl hi 8)
              = Z.land (Z.lor lo (Z.shiftl hi 8)) 0xFFFF).
  { apply Z.bits_inj'. intros n Hn.
    rewrite Z.land_spec. change 0xFFFF with (Z.ones 16).
    destruct (Z.lt_ge_cases n 16) as [Hlt | Hge].
    - rewrite Z.ones_spec_low by lia. by rewrite andb_true_r.
    - rewrite Z.ones_spec_high by lia. rewrite andb_false_r.
      rewrite Z.lor_spec, Z.shiftl_spec by lia.
      by rewrite !byte_high_bits by lia. }
  rewrite E, land_ffff_mod. pose proof (Z.mod_pos_bound
    (Z.lor lo (Z.shiftl hi 8)) 65536). lia.
Qed.

(** ** The status byte *)

Section StatusByte.

Import MOS6502.

Context {Dev : Type}.
Implicit Types (s : Machine Dev).

(** X1: unpacking the byte that [getP()] packs restores the seven flags
    and leaves all else untouched. *)
Theorem setP_getP s : snd (setP (getP (cpu s)) s) = s.
Proof.
  destruct s as [[a x y sp pc n v b d i z c cyc] m dv lg bs].
  by destruct n, v, b, d, i, z, c.
Qed.

Lemma getP_setP_flags s (v : Z) :
  getP (cpu (snd (setP v s)))
  = getP (mkCPU 0 0 0 0 0
            (negb (Z.land v 0x80 =? 0)) (negb (Z.land v 0x40 =? 0))
            (negb (Z.land v 0x10 =? 0)) (negb (Z.land v 0x08 =? 0))
            (negb (Z.land v 0x04 =? 0)) (negb (Z.land v 0x02 =? 0))
            (negb (Z.land v 0x01 =? 0)) 0).
Proof. by destruct s as [[a x y sp pc n vv b d i z c cyc] m dv lg bs]. Qed.

(** X2: packing after [setP(v)] returns [v] with the reserved bit 5 set:
    the seven flags hold every other bit of a byte. *)
Theorem getP_setP s (v : Z) :
  0 <= v <= 255 -> getP (cpu (snd (setP v s))) = Z.lor v 0x20.
Proof.
  intros Hv. rewrite getP_setP_flags. apply Z.eqb_eq.
  revert v Hv. apply byte_forall. vm_compute. reflexivity.
Qed.

End StatusByte.

(** ** Memory: plain RAM, words and bulk loads *)

Section MemoryRestProperties.

Context {Dev : Type}.
Implicit Types (m : Memory Dev) (d : Dev) (a v : Z).

Lemma write_ram m d a v :
  0 <= a <= 0xFFFF -> a <> 1 ->
  between 0xD800 0xDBFF a = false ->
  io_dispatch (ioHandlers m) a = None ->
  write m a v d = (set_ram m (U8.set (ram m) a (Z.land v 0xFF)), d).
Proof.
  intros Ha Hne Hc Hio. unfold write.
  rewrite (land_ffff_id a Ha), Hc, Hio.
  destruct (a =? 0x0001) eqn:E; [apply Z.eqb_eq in E; lia | done].
Qed.

Lemma read_low m d a :
  0 <= a < 0xA000 ->
  io_dispatch (ioHandlers m) a = None ->
  read m a d = (U8.get (ram m) a, d).
Proof.
  intros Ha Hio. unfold read. rewrite (land_ffff_id a) by lia.
  rewrite (proj2 (between_false 0xD800 0xDBFF a)) by lia. rewrite Hio.
  rewrite (proj2 (between_false 0xA000 0xBFFF a)) by lia.
  rewrite (proj2 (between_false 0xD000 0xDFFF a)) by lia.
  by rewrite (proj2 (between_false 0xE000 0xFFFF a)) by lia.
Qed.

Lemma write_low m d a v :
  2 <= a < 0xA000 ->
  io_dispatch (ioHandlers m) a = None ->
  write m a v d = (set_ram m (U8.set (ram m) a (Z.land v 0xFF)), d).
Proof.
  intros Ha Hio. apply write_ram; try done; try lia.
  apply between_false. lia.
Qed.

Lemma get_set_masked (arr : gmap Z Z) (i v : Z) :
  U8.get (U8.set arr i (Z.land v 0xFF)) i = Z.land v 0xFF.
Proof.
  rewrite U8_get_set_eq. apply Z.mod_small.
  pose proof (land_ff_range v). lia.
Qed.

Lemma write_frame m d a v :
  rom (fst (write m a v d)) = rom m
  /\ charset (fst (write m a v d)) = charset m
  /\ ioHandlers (fst (write m a v d)) = ioHandlers m.
Proof.
  unfold write.
  destruct (Z.land a 0xFFFF =? 0x0001); [done |].
  destruct (between 0xD800 0xDBFF (Z.land a 0xFFFF)); [done |].
  by destruct (io_dispatch (ioHandlers m) (Z.land a 0xFFFF)).
Qed.

Lemma load_from_frame m d a (i : Z) (data : list Z) :
  rom (fst (load_from m a i data d)) = rom m
  /\ charset (fst (load_from m a i data d)) = charset m
  /\ ioHandlers (fst (load_from m a i data d)) = ioHandlers m.
Proof.
  revert m d i. induction data as [| b rest IH]; intros m d i; [done |].
  simpl. destruct (write m (a + i) b d) as [m1 d1] eqn:E1.
  destruct (write_frame m d (a + i) b) as (H1 & H2 & H3).
  rewrite E1 in H1, H2, H3. simpl in H1, H2, H3.
  destruct (IH m1 d1 (i + 1)) as (K1 & K2 & K3).
  by rewrite K1, K2, K3.
Qed.

(** X3: [write] changes neither the ROM array, nor character ROM, nor
    the handler table, whatever the address and the value; the same
    holds for [write16] and [load]. *)
Theorem write_keeps_rom m d a v (data : list Z) :
  (rom (fst (write m a v d)) = rom m
   /\ charset (fst (write m a v d)) = charset m
   /\ ioHandlers (fst (write m a v d)) = ioHandlers m)
  /\ (rom (fst (write16 m a v d)) = rom m
      /\ charset (fst (write16 m a v d)) = charset m
      /\ ioHandlers (fst (write16 m a v d)) = ioHandlers m)
  /\ (rom (fst (load m a data d)) = rom m
      /\ charset (fst (load m a data d)) = charset m
      /\ ioHandlers (fst (load m a data d)) = ioHandlers m).
Proof.
  split; [apply write_frame |]. split; [| apply load_from_frame].
  unfold write16.
  destruct (write m a (Z.land v 0xFF) d) as [m1 d1] eqn:E1.
  destruct (write_frame m d a (Z.land v 0xFF)) as (H1 & H2 & H3).
  rewrite E1 in H1, H2, H3. simpl in H1, H2, H3.
  destruct (write_frame m1 d1 (a + 1) (Z.land (Z.shiftr v 8) 0xFF))
    as (K1 & K2 & K3).
  by rewrite K1, K2, K3.
Qed.

(** X4: a 16-bit word written with [write16] at two RAM cells below the
    BASIC window that no I/O window claims reads back with [read16], low
    byte first, reduced to 16 bits. *)
Theorem write16_read16 m d a (w : Z) :
  2 <= a < 0x9FFF ->
  io_dispatch (ioHandlers m) a = None ->
  io_dispatch (ioHandlers m) (a + 1) = None ->
  read16 (fst (write16 m a w d)) a (snd (write16 m a w d))
    = (Z.land w 0xFFFF, d).
Proof.
  intros Ha H0 H1. unfold write16.
  rewrite (write_low m d a) by (try done; lia). cbn [fst snd].
  rewrite write_low by (try done; lia). cbn [fst snd].
  unfold read16.
  rewrite read_low by (try done; lia).
  rewrite read_low by (try done; lia). cbn [ram set_ram].
  rewrite get_set_masked, U8_get_set_ne, get_set_masked by lia.
  rewrite <- !Z.land_assoc. change (Z.land 0xFF 0xFF) with 0xFF.
  by rewrite word_of_bytes_swapped.
Qed.

Lemma load_from_cells m d a (i : Z) (data : list Z) :
  0 <= i -> 2 <= a -> a + i + Z.of_nat (length data) <= 0xA000 ->
  (forall k, a + i <= k < a + i + Z.of_nat (length data) ->
             io_dispatch (ioHandlers m) k = None) ->
  snd (load_from m a i data d) = d
  /\ forall k, 0 <= k < 0xA000 ->
       U8.get (ram (fst (load_from m a i data d))) k
       = if (a + i <=? k) && (k <? a + i + Z.of_nat (length data))
         then Z.land (nth (Z.to_nat (k - (a + i))) data 0) 0xFF
         else U8.get (ram m) k.
Proof.
  revert m i. induction data as [| b rest IH]; intros m i Hi Ha Hlen Hio.
  - simpl. split; [done |]. intros k Hk.
    change (Z.of_nat 0) with 0. rewrite Z.add_0_r.
    destruct (a + i <=? k) eqn:E1; destruct (k <? a + i) eqn:E2; try done.
    apply Z.leb_le in E1. apply Z.ltb_lt in E2. lia.
  - simpl length in *. simpl load_from.
    rewrite (write_low m d (a + i)) by (first [lia | apply Hio; lia]).
    destruct (IH (set_ram m (U8.set (ram m) (a + i) (Z.land b 0xFF))) (i + 1))
      as (Hd & Hcells); try lia.
    { intros k Hk. apply Hio. lia. }
    split; [exact Hd |]. intros k Hk. rewrite Hcells by done.
    cbn [ram set_ram].
    destruct (Z.lt_trichotomy k (a + i)) as [Hlt | [-> | Hgt]].
    + rewrite (proj2 (Z.leb_gt (a + (i + 1)) k)) by lia.
      rewrite (proj2 (Z.leb_gt (a + i) k)) by lia. cbn [andb].
      by rewrite U8_get_set_ne by lia.
    + rewrite (proj2 (Z.leb_gt (a + (i + 1)) (a + i))) by lia.
      rewrite (proj2 (Z.leb_le (a + i) (a + i))) by lia.
      rewrite (proj2 (Z.ltb_lt (a + i) (a + i + Z.of_nat (S (length rest)))))
        by lia.
      cbn [andb]. rewrite get_set_masked.
      by replace (a + i - (a + i)) with 0 by lia.
    + rewrite (proj2 (Z.leb_le (a + (i + 1)) k)) by lia.
      rewrite (proj2 (Z.leb_le (a + i) k)) by lia. cbn [andb].
      replace (a + i + Z.of_nat (S (length rest)))
        with (a + (i + 1) + Z.of_nat (length rest)) by lia.
      destruct (k <? a + (i + 1) + Z.of_nat (length rest)) eqn:E.
      * replace (Z.to_nat (k - (a + i)))
          with (S (Z.to_nat (k - (a + (i + 1))))) by lia.
        reflexivity.
      * by rewrite U8_get_set_ne by lia.
Qed.

(** X5: after [load(address, data)] into RAM below the BASIC window,
    away from every I/O window, byte [i] of the data (reduced to 8 bits)
    is read at [address + i], the cells outside the block are as before
    and no chip was touched. *)
Theorem load_read_back m d a (data : list Z) :
  2 <= a -> a + Z.of_nat (length data) <= 0xA000 ->
  (forall k, a <= k < a + Z.of_nat (length data) ->
             io_dispatch (ioHandlers m) k = None) ->
  let r := load m a data d in
  snd r = d
  /\ (forall i, (i < length data)%nat ->
        read (fst r) (a + Z.of_nat i) d = (Z.land (nth i data 0) 0xFF, d))
  /\ (forall k, 0 <= k < 0xA000 ->
        k < a \/ a + Z.of_nat (length data) <= k ->
        U8.get (ram (fst r)) k = U8.get (ram m) k).
Proof.
  intros Ha Hlen Hio r. subst r. unfold load.
  destruct (load_from_cells m d a 0 data) as (Hd & Hcells); try lia.
  { intros k Hk. apply Hio. lia. }
  split; [exact Hd |]. split.
  - intros i Hi.
    rewrite read_low; [| lia |].
    + rewrite Hcells by lia.
      replace (a + 0 <=? a + Z.of_nat i) with true by (symmetry; apply Z.leb_le; lia).
      replace (a + Z.of_nat i <? a + 0 + Z.of_nat (length data)) with true
        by (symmetry; apply Z.ltb_lt; lia).
      cbn [andb]. by replace (Z.to_nat (a + Z.of_nat i - (a + 0))) with i by lia.
    + destruct (load_from_frame m d a 0 data) as (_ & _ & ->).
      apply Hio. lia.
  - intros k Hk Hout. rewrite Hcells by done.
    destruct (a + 0 <=? k) eqn:E1;
      destruct (k <? a + 0 + Z.of_nat (length data)) eqn:E2;
      rewrite ?Z.leb_le, ?Z.leb_gt, ?Z.ltb_lt, ?Z.ltb_ge in *;
      cbn [andb]; try done; lia.
Qed.

End MemoryRestProperties.

(** ** Memory: the handler table, [clear] and the configuration string *)

Section MemoryTable.

Context {Dev : Type}.
Implicit Types (m : Memory Dev) (d : Dev) (a v : Z).

Lemma map_set_dispatch (hs : list (Handler Dev)) (h : Handler Dev) a :
  io_dispatch (map_set hs h) a
  = match io_dispatch hs a with
    | Some h' => if same_window h' h then Some h else Some h'
    | None => if in_window h a then Some h else None
    end.
Proof.
  induction hs as [| h' hs IH]; [done |].
  simpl. fold (same_window h' h). fold (in_window h' a).
  destruct (same_window h' h) eqn:Hk.
  - simpl. fold (in_window h a).
    assert (Hin : in_window h' a = in_window h a).
    { unfold same_window in Hk. apply andb_true_iff in Hk as [H1 H2].
      apply Z.eqb_eq in H1, H2. unfold in_window. by rewrite H1, H2. }
    rewrite Hin. destruct (in_window h a) eqn:E; [by rewrite Hk |].
    (* the entry replaced did not contain [a]: look further *)
    clear IH.
    destruct (io_dispatch hs a) as [h2 |] eqn:E2; [| done].
    destruct (same_window h2 h) eqn:Hk2; [| done].
    (* a later entry with the key of [h] would contain [a] too *)
    exfalso. assert (Hin2 : in_window h2 a = true).
    { clear - E2. induction hs as [| x hs IH]; [discriminate |].
      simpl in E2. fold (in_window x a) in E2.
      destruct (in_window x a) eqn:Ex; [by injection E2 as <- | by apply IH]. }
    unfold same_window in Hk2. apply andb_true_iff in Hk2 as [H1 H2].
    apply Z.eqb_eq in H1, H2. unfold in_window in *.
    rewrite H1, H2 in Hin2. congruence.
  - simpl. fold (in_window h' a).
    destruct (in_window h' a); [by rewrite Hk | exact IH].
Qed.

(** X6: after [setIOHandler(start, end, ...)] an address outside the
    range dispatches as before; inside the range it reaches the new
    handler when no window contained it before or when the window that
    did had the same start and end (which the new one replaces), and it
    stays with a window of another range registered earlier. *)
Theorem setIOHandler_dispatch m (startAddr endAddr : Z)
    (rd : Z -> Dev -> Z * Dev) (wr : Z -> Z -> Dev -> Dev) a :
  let h := mkHandler startAddr endAddr rd wr in
  let m' := setIOHandler m startAddr endAddr rd wr in
  (between startAddr endAddr a = false ->
     io_dispatch (ioHandlers m') a = io_dispatch (ioHandlers m) a)
  /\ (between startAddr endAddr a = true ->
      io_dispatch (ioHandlers m) a = None ->
      io_dispatch (ioHandlers m') a = Some h)
  /\ (forall h', io_dispatch (ioHandlers m) a = Some h' ->
      same_window h' h = true ->
      io_dispatch (ioHandlers m') a = Some h)
  /\ (forall h', io_dispatch (ioHandlers m) a = Some h' ->
      same_window h' h = false ->
      io_dispatch (ioHandlers m') a = Some h').
Proof.
  intros h m'. subst m'. unfold setIOHandler. cbn [ioHandlers]. fold h.
  rewrite map_set_dispatch.
  assert (Hb : in_window h a = between startAddr endAddr a) by done.
  rewrite Hb. repeat split.
  - intros Hout. rewrite Hout.
    destruct (io_dispatch (ioHandlers m) a) as [h' |] eqn:E; [| done].
    destruct (same_window h' h) eqn:Hk; [| done].
    (* [h'] has the range of [h], so it cannot contain [a] *)
    exfalso. assert (Hin : in_window h' a = true).
    { clear - E. induction (ioHandlers m) as [| x hs IH]; [discriminate |].
      simpl in E. fold (in_window x a) in E.
      destruct (in_window x a) eqn:Ex; [by injection E as <- | by apply IH]. }
    unfold same_window in Hk. apply andb_true_iff in Hk as [H1 H2].
    apply Z.eqb_eq in H1, H2. unfold in_window in Hin.
    rewrite H1, H2 in Hin. simpl in Hin. unfold between in Hout. congruence.
  - intros Hin Hnone. by rewrite Hnone, Hin.
  - intros h' Hsome Hk. by rewrite Hsome, Hk.
  - intros h' Hsome Hk. by rewrite Hsome, Hk.
Qed.

Lemma fill_get_from (start n : nat) (v i : Z) :
  default 0 ((list_to_map (map (fun k => (Z.of_nat k, v mod 256))
                               (seq start n)) : gmap Z Z) !! i)
  = if (Z.of_nat start <=? i) && (i <? Z.of_nat (start + n))
    then v mod 256 else 0.
Proof.
  revert start. induction n as [| n IH]; intros start.
  - simpl. rewrite lookup_empty. simpl.
    destruct (Z.of_nat start <=? i) eqn:E1;
      destruct (i <? Z.of_nat (start + 0)) eqn:E2; try done.
    apply Z.leb_le in E1. apply Z.ltb_lt in E2. lia.
  - simpl. destruct (Z.eq_dec (Z.of_nat start) i) as [<- | Hne].
    + rewrite lookup_insert_eq. simpl.
      rewrite (proj2 (Z.leb_le _ _)) by lia.
      by rewrite (proj2 (Z.ltb_lt _ _)) by lia.
    + rewrite lookup_insert_ne by done. rewrite IH.
      destruct (Z.of_nat (S start) <=? i) eqn:E1;
        destruct (Z.of_nat start <=? i) eqn:E2;
        destruct (i <? Z.of_nat (S start + n)) eqn:E3;
        destruct (i <? Z.of_nat (start + S n)) eqn:E4;
        rewrite ?Z.leb_le, ?Z.leb_gt, ?Z.ltb_lt, ?Z.ltb_ge in *;
        cbn [andb]; try done; lia.
Qed.

Lemma fill_get (n : nat) (v i : Z) :
  U8.get (U8.fill n v) i
  = if (0 <=? i) && (i <? Z.of_nat n) then v mod 256 else 0.
Proof. unfold U8.get, U8.fill. by rewrite fill_get_from. Qed.

(** X7: after [clear()] every RAM cell reads 0 and every color cell 14,
    at each address that shows RAM or color memory; ROM, character ROM
    and the handler table are as before, and so is the bank
    configuration, although the cell at 0x0001 now holds 0. *)
Theorem clear_reads m d a :
  0 <= a <= 0xFFFF ->
  io_dispatch (ioHandlers m) a = None ->
  rom_visible (bankConfig m) a = false ->
  read (clear m) a d = (if between 0xD800 0xDBFF a then 14 else 0, d)
  /\ rom (clear m) = rom m /\ charset (clear m) = charset m
  /\ ioHandlers (clear m) = ioHandlers m
  /\ bankConfig (clear m) = bankConfig m
  /\ U8.get (ram (clear m)) 0x0001 = 0.
Proof.
  intros Ha Hio Hrom.
  assert (Hram : forall k, U8.get (ram (clear m)) k = 0).
  { intros k. cbn [clear ram]. rewrite fill_get. by destruct (_ && _). }
  split; [| by rewrite Hram].
  destruct (between 0xD800 0xDBFF a) eqn:Hc.
  - apply between_true in Hc. rewrite read_color by done.
    cbn [clear colorRAM]. rewrite fill_get.
    rewrite (proj2 (Z.leb_le 0 (a - 0xD800))) by lia.
    rewrite (proj2 (Z.ltb_lt (a - 0xD800) (Z.of_nat (Z.to_nat 1024)))) by lia.
    reflexivity.
  - destruct (spec_decision_table (bankConfig m) a) as [st |] eqn:Ht.
    + rewrite (read_uncovered (clear m) d a st Ha Hc Hio Ht).
      unfold rom_visible in Hrom. rewrite Ht in Hrom.
      destruct st; try discriminate; cbn [store_value].
      * by rewrite Hram.
      * cbn [clear ioHandlers]. by rewrite Hio, Hram.
    + unfold read. rewrite (land_ffff_id a Ha), Hc. cbn [clear ioHandlers].
      rewrite Hio. unfold spec_decision_table in Ht.
      destruct (between 0xA000 0xBFFF a); [discriminate |].
      destruct (between 0xE000 0xFFFF a); [discriminate |].
      destruct (between 0xD000 0xDFFF a); [discriminate |].
      by rewrite Hram.
Qed.

Lemma land_7_bits (c1 c2 : Z) :
  Z.land c1 7 = Z.land c2 7
  <-> (LORAM c1 = LORAM c2 /\ HIRAM c1 = HIRAM c2 /\ CHAREN c1 = CHAREN c2).
Proof.
  unfold LORAM, HIRAM, CHAREN. change 7 with (Z.ones 3). split.
  - intros E.
    assert (T : forall k, 0 <= k < 3 -> Z.testbit c1 k = Z.testbit c2 k).
    { intros k Hk.
      rewrite <- (andb_true_r (Z.testbit c1 k)), <- (andb_true_r (Z.testbit c2 k)).
      rewrite <- (Z.ones_spec_low 3 k) by lia.
      rewrite <- !Z.land_spec. by rewrite E. }
    repeat split; apply T; lia.
  - intros (H0 & H1 & H2). apply Z.bits_inj'. intros n Hn.
    rewrite !Z.land_spec.
    destruct (Z.lt_ge_cases n 3) as [Hlt | Hge].
    + assert (n = 0 \/ n = 1 \/ n = 2) as [-> | [-> | ->]] by lia;
        by rewrite ?H0, ?H1, ?H2.
    + rewrite Z.ones_spec_high by lia. by rewrite !andb_false_r.
Qed.

(** X8: [getBankConfigString()] names the three low bits of the bank
    configuration and nothing else: two configurations get the same
    string exactly when they agree on LORAM, HIRAM and CHAREN. *)
Theorem getBankConfigString_bits (m1 m2 : Memory Dev) :
  getBankConfigString m1 = getBankConfigString m2
  <-> Z.land (bankConfig m1) 7 = Z.land (bankConfig m2) 7.
Proof.
  rewrite land_7_bits. unfold getBankConfigString.
  rewrite !truthy_loram, !truthy_hiram, !truthy_charen.
  destruct (LORAM (bankConfig m1)), (HIRAM (bankConfig m1)),
           (CHAREN (bankConfig m1)), (LORAM (bankConfig m2)),
           (HIRAM (bankConfig m2)), (CHAREN (bankConfig m2));
    simpl; split; try done; try (intros (? & ? & ?); done).
Qed.

End MemoryTable.

(** ** MOS6502: the stack, subroutines and interrupts *)

Section StackRoundTrips.

Import MOS6502.

Context {Dev : Type}.
Implicit Types (s : Machine Dev) (m : Memory Dev) (d : Dev).

Ltac execute :=
  cbv [table load_with store_with transfer step_reg branch_if compare_with
       set_flag immediate zeroPage zeroPageX zeroPageY absolute absoluteX
       absoluteY indirect indirectX indirectY relative
       interrupt irq nmi reset step push16 pull16 push pull
       JSR RTS PHA PLA RTI setP setNZ advance illegal
       mem_read16 mem_read mem_write gets modify log bind ret
       cpu memory devices console bus
       reg_A reg_X reg_Y reg_SP reg_PC flag_N flag_V flag_B flag_D flag_I
       flag_Z flag_C cycles
       with_A with_X with_Y with_SP with_PC with_N with_V with_B with_D
       with_I with_Z with_C with_cycles];
  cbn [fst snd].

Lemma write_stack m d (x v : Z) :
  io_area_only (ioHandlers m) -> 0 <= x <= 255 ->
  write m (0x0100 + x) v d
  = (set_ram m (U8.set (ram m) (0x0100 + x) (Z.land v 0xFF)), d).
Proof.
  intros Hio Hx. apply write_low; [lia |].
  apply io_area_only_dispatch; [done | lia].
Qed.

Lemma read_stack m d (x : Z) :
  io_area_only (ioHandlers m) -> 0 <= x <= 255 ->
  read m (0x0100 + x) d = (U8.get (ram m) (0x0100 + x), d).
Proof.
  intros Hio Hx. apply read_low; [lia |].
  apply io_area_only_dispatch; [done | lia].
Qed.

Lemma sp_dec_inc (sp : Z) :
  0 <= sp <= 255 -> Z.land (Z.land (sp - 1) 0xFF + 1) 0xFF = sp.
Proof.
  intros H. rewrite !land_ff_mod.
  destruct (Z.eq_dec sp 0) as [-> | Hnz]; [reflexivity |].
  rewrite (Z.mod_small (sp - 1)) by lia.
  replace (sp - 1 + 1) with sp by lia. apply Z.mod_small. lia.
Qed.

Lemma sp_neighbour (sp : Z) :
  0 <= sp <= 255 -> 0x0100 + Z.land (sp - 1) 0xFF <> 0x0100 + sp.
Proof.
  intros H. rewrite land_ff_mod.
  destruct (Z.eq_dec sp 0) as [-> | Hnz]; [discriminate |].
  rewrite (Z.mod_small (sp - 1)) by lia. lia.
Qed.

Lemma write_handlers m d (a v : Z) :
  ioHandlers (fst (write m a v d)) = ioHandlers m.
Proof. apply write_frame. Qed.

Ltac stack_side :=
  first [ assumption
        | apply land_ff_range
        | cbn [ioHandlers set_ram]; rewrite ?write_handlers; assumption ].

Ltac stack_mem :=
  repeat first
    [ rewrite sp_dec_inc by stack_side
    | rewrite write_stack by stack_side
    | rewrite read_stack by stack_side
    | progress cbn [fst snd ram set_ram] ].

(** X9: with the I/O windows inside the I/O area and an 8-bit stack
    pointer, [pull()] after [push(v)] returns [v] reduced to 8 bits and
    leaves the registers, flags and chips as they were before the push. *)
Theorem push_pull s (v : Z) :
  io_area_only (ioHandlers (memory s)) ->
  0 <= reg_SP (cpu s) <= 255 ->
  let s' := snd (pull (snd (push v s))) in
  fst (pull (snd (push v s))) = Z.land v 0xFF
  /\ cpu s' = cpu s
  /\ devices s' = devices s.
Proof.
  destruct s as [[a x y sp pc n vv b dd i z c cyc] m dv lg bs].
  cbn [cpu memory reg_SP]. intros Hio Hsp.
  execute. stack_mem.
  split; [apply get_set_masked | done].
Qed.

(** X10: [pull16()] after [push16(w)] returns [w] reduced to 16 bits: the
    high byte went on the stack first and comes off last, also when the
    stack pointer wraps from 0x00 to 0xFF in between. *)
Theorem push16_pull16 s (w : Z) :
  io_area_only (ioHandlers (memory s)) ->
  0 <= reg_SP (cpu s) <= 255 ->
  let s' := snd (pull16 (snd (push16 w s))) in
  fst (pull16 (snd (push16 w s))) = Z.land w 0xFFFF
  /\ cpu s' = cpu s
  /\ devices s' = devices s.
Proof.
  destruct s as [[a x y sp pc n vv b dd i z c cyc] m dv lg bs].
  cbn [cpu memory reg_SP]. intros Hio Hsp.
  execute. stack_mem.
  rewrite get_set_masked.
  rewrite U8_get_set_ne by (by apply sp_neighbour).
  rewrite get_set_masked.
  rewrite <- !Z.land_assoc. change (Z.land 0xFF 0xFF) with 0xFF.
  split; [apply word_of_bytes | done].
Qed.

Lemma pc_dec_inc (p : Z) :
  0 <= p <= 0xFFFF -> Z.land (Z.land (p - 1) 0xFFFF + 1) 0xFFFF = p.
Proof.
  intros H. rewrite !land_ffff_mod.
  destruct (Z.eq_dec p 0) as [-> | Hnz]; [reflexivity |].
  rewrite (Z.mod_small (p - 1)) by lia.
  replace (p - 1 + 1) with p by lia. apply Z.mod_small. lia.
Qed.

Lemma land_ffff_range (x : Z) : 0 <= Z.land x 0xFFFF <= 0xFFFF.
Proof. rewrite land_ffff_mod. pose proof (Z.mod_pos_bound x 65536). lia. Qed.

Lemma sp_neighbour2 (sp : Z) :
  0 <= sp <= 255 ->
  0x0100 + Z.land (Z.land (sp - 1) 0xFF - 1) 0xFF <> 0x0100 + sp.
Proof.
  intros H. rewrite !land_ff_mod.
  destruct (Z.eq_dec sp 0) as [-> | Hnz]; [discriminate |].
  rewrite (Z.mod_small (sp - 1)) by lia.
  destruct (Z.eq_dec sp 1) as [-> | Hn1]; [discriminate |].
  rewrite (Z.mod_small (sp - 1 - 1)) by lia. lia.
Qed.

(** X11: RTS after JSR continues behind the three bytes of the JSR: the
    program counter is the address of the operand plus two, modulo
    65536, also when the operand lies across 0xFFFF, and the stack
    pointer and the other registers and flags are those before the call. *)
Theorem JSR_RTS s :
  io_area_only (ioHandlers (memory s)) ->
  0 <= reg_SP (cpu s) <= 255 ->
  reg_PC (cpu (snd (JSR s)))
    = fst (read16 (memory s) (reg_PC (cpu s)) (devices s))
  /\ cpu (snd (RTS (snd (JSR s))))
     = with_PC (Z.land (reg_PC (cpu s) + 2) 0xFFFF) (cpu s).
Proof.
  destruct s as [[a x y sp pc n vv b dd i z c cyc] m dv lg bs].
  cbn [cpu memory devices reg_SP reg_PC]. intros Hio Hsp.
  rewrite read16_pair. execute. split; [reflexivity |].
  stack_mem.
  rewrite get_set_masked.
  rewrite U8_get_set_ne by (by apply sp_neighbour).
  rewrite get_set_masked.
  rewrite <- !Z.land_assoc. change (Z.land 0xFF 0xFF) with 0xFF.
  rewrite word_of_bytes, pc_dec_inc by apply land_ffff_range.
  reflexivity.
Qed.

(** X12: RTI after an [irq()] that fired resumes the interrupted program:
    the program counter, the stack pointer, the registers and all seven
    flags, the interrupt-disable flag included, are those before the
    interrupt. *)
Theorem irq_RTI s :
  io_area_only (ioHandlers (memory s)) ->
  0 <= reg_SP (cpu s) <= 255 ->
  0 <= reg_PC (cpu s) <= 0xFFFF ->
  flag_I (cpu s) = false ->
  reg_PC (cpu (snd (irq s)))
    = fst (read16 (memory (snd (irq s))) 0xFFFE (devices s))
  /\ flag_I (cpu (snd (irq s))) = true
  /\ cpu (snd (RTI (snd (irq s)))) = cpu s.
Proof.
  destruct s as [[a x y sp pc n vv b dd i z c cyc] m dv lg bs].
  cbn [cpu memory devices reg_SP reg_PC flag_I]. intros Hio Hsp Hpc ->.
  rewrite irq_clear by reflexivity.
  rewrite read16_pair. execute. stack_mem.
  split; [reflexivity |]. split; [reflexivity |].
  rewrite get_set_masked.
  rewrite (U8_get_set_ne _ _ (0x0100 + Z.land (sp - 1) 0xFF))
    by (apply sp_neighbour, land_ff_range).
  rewrite get_set_masked.
  rewrite (U8_get_set_ne _ _ (0x0100 + sp)) by (by apply sp_neighbour2).
  rewrite (U8_get_set_ne _ _ (0x0100 + sp)) by (by apply sp_neighbour).
  rewrite get_set_masked.
  rewrite <- !Z.land_assoc. change (Z.land 0xFF 0xFF) with 0xFF.
  rewrite word_of_bytes, (land_ffff_id pc Hpc).
  by destruct n, vv, b, dd, z, c.
Qed.

End StackRoundTrips.

(** ** MOS6502: what every instruction keeps *)

Section EveryInstruction.

Import MOS6502.

Context {Dev : Type}.
Implicit Types (s : Machine Dev) (m : Memory Dev) (d : Dev).

Ltac execute :=
  cbv [table load_with store_with transfer step_reg branch_if compare_with
       set_flag immediate zeroPage zeroPageX zeroPageY absolute absoluteX
       absoluteY indirect indirectX indirectY relative
       interrupt irq nmi reset step push16 pull16 push pull
       JSR RTS PHA PLA RTI setP setNZ advance illegal
       mem_read16 mem_read mem_write gets modify log bind ret
       cpu memory devices console bus
       reg_A reg_X reg_Y reg_SP reg_PC flag_N flag_V flag_B flag_D flag_I
       flag_Z flag_C cycles
       with_A with_X with_Y with_SP with_PC with_N with_V with_B with_D
       with_I with_Z with_C with_cycles];
  cbn [fst snd].

Ltac execute_all :=
  execute;
  repeat (match goal with
          | |- context [if ?b then _ else _] => destruct b
          end; execute).

(** The state in which the handler of the opcode starts: the opcode has
    been fetched and PC moved past it. *)
Lemma step_unfold s :
  let pc := reg_PC (cpu s) in
  let fetch := read (memory s) pc (devices s) in
  let s0 := mkMachine (with_PC (Z.land (pc + 1) 0xFFFF) (cpu s)) (memory s)
                      (snd fetch) (console s) (Rd pc :: bus s) in
  step s
  = match instructions (fst fetch) with
    | Some instruction =>
        let r := instruction s0 in
        (fst r,
         mkMachine (with_cycles (cycles (cpu (snd r)) + fst r) (cpu (snd r)))
                   (memory (snd r)) (devices (snd r)) (console (snd r))
                   (bus (snd r)))
    | None =>
        (2, mkMachine (with_PC (Z.land (pc + 1) 0xFFFF) (cpu s)) (memory s)
                      (snd fetch) (LogUnknown (fst fetch) pc :: console s)
                      (Rd pc :: bus s))
    end.
Proof.
  intros pc fetch s0. cbv [step bind gets mem_read].
  cbn [fst snd cpu memory devices console bus]. fold pc. fold fetch.
  destruct (instructions (fst fetch)) as [instruction |].
  - cbv [advance bind gets modify ret].
    cbn [fst snd cpu memory devices console bus reg_PC]. fold pc. fold s0.
    by destruct (instruction s0) as [cost [c1 m1 d1 l1 b1]].
  - cbv [advance bind gets modify ret log].
    by cbn [fst snd cpu memory devices console bus reg_PC].
Qed.

Lemma instructions_cases (opcode : Z) (instruction : M Dev Z) :
  instructions opcode = Some instruction ->
  (exists entry, In entry table /\ instruction = snd entry)
  \/ instruction = illegal opcode.
Proof.
  unfold instructions.
  destruct ((0 <=? opcode) && (opcode <? 256)); [| discriminate].
  intros [= <-]. unfold assigned.
  destruct (find (fun entry => fst entry =? opcode) table) as [e |] eqn:E.
  - left. exists e. apply find_some in E as [Hin _]. by split.
  - by right.
Qed.

Lemma write_rom m d (a v : Z) : rom (fst (write m a v d)) = rom m.
Proof. apply write_frame. Qed.

Lemma write_charset m d (a v : Z) : charset (fst (write m a v d)) = charset m.
Proof. apply write_frame. Qed.

Lemma write_io m d (a v : Z) : ioHandlers (fst (write m a v d)) = ioHandlers m.
Proof. apply write_frame. Qed.

Ltac rom_tac :=
  intros [[a x y sp pc n v b d i z c cyc] m dv lg bs];
  execute_all; unfold rom_kept; cbn [memory];
  rewrite ?write_rom, ?write_charset, ?write_io; done.

Lemma table_rom_kept :
  Forall (fun entry => forall s, rom_kept s (snd (snd entry s)))
         (table (Dev := Dev)).
Proof.
  unfold table.
  repeat (apply List.Forall_cons; [cbn [snd]; rom_tac |]).
  apply List.Forall_nil.
Qed.

Lemma step_rom_kept s : rom_kept s (snd (step s)).
Proof.
  rewrite step_unfold. cbv zeta.
  set (s0 := mkMachine _ _ _ _ _).
  destruct (instructions _) as [instruction |] eqn:Hi; [| done].
  cbn [snd]. unfold rom_kept. cbn [memory].
  assert (H0 : rom_kept s0 (snd (instruction s0))).
  { apply instructions_cases in Hi as [(e & Hin & ->) | ->].
    - pose proof table_rom_kept as Hall. rewrite List.Forall_forall in Hall.
      apply (Hall e Hin).
    - done. }
  exact H0.
Qed.

Lemma interrupt_rom_kept (vector : Z) s :
  rom_kept s (snd (interrupt vector s)).
Proof. revert s. rom_tac. Qed.

Lemma reset_rom_kept s : rom_kept s (snd (reset s)).
Proof. revert s. rom_tac. Qed.

(** X13: no sequence of instructions, interrupts and resets changes the
    ROM array, character ROM or the handler table: whatever the program
    stores, it stores in RAM, color memory or a chip. *)
Theorem rom_is_read_only (es : list Event) s :
  rom_kept s (run_events es s).
Proof.
  revert s. induction es as [| e es IH]; intros s; [done |].
  change (rom_kept s (run_events es (fire s e))).
  assert (H1 : rom_kept s (fire s e)).
  { destruct e; unfold fire.
    - apply step_rom_kept.
    - destruct (flag_I (cpu s)) eqn:Hi.
      + by rewrite irq_masked.
      + rewrite irq_clear by done. apply interrupt_rom_kept.
    - apply interrupt_rom_kept.
    - apply reset_rom_kept. }
  destruct H1 as (A1 & A2 & A3).
  destruct (IH (fire s e)) as (B1 & B2 & B3).
  unfold rom_kept. by rewrite B1, B2, B3.
Qed.

Ltac cost_tac :=
  intros [[a x y sp pc n v b d i z c cyc] m dv lg bs];
  execute_all; (split; [lia | reflexivity]).

Lemma table_cost :
  Forall (fun entry => forall s,
            2 <= fst (snd entry s) <= 6
            /\ cycles (cpu (snd (snd entry s))) = cycles (cpu s))
         (table (Dev := Dev)).
Proof.
  unfold table.
  repeat (apply List.Forall_cons; [cbn [snd]; cost_tac |]).
  apply List.Forall_nil.
Qed.

Lemma step_cycles s :
  2 <= fst (step s) <= 6
  /\ (0 <= fst (read (memory s) (reg_PC (cpu s)) (devices s)) <= 255 ->
      cycles (cpu (snd (step s))) = cycles (cpu s) + fst (step s)).
Proof.
  rewrite step_unfold. cbv zeta.
  set (fetch := read (memory s) (reg_PC (cpu s)) (devices s)).
  set (s0 := mkMachine _ _ _ _ _).
  destruct (instructions (fst fetch)) as [instruction |] eqn:Hi.
  - assert (Hc : 2 <= fst (instruction s0) <= 6
                 /\ cycles (cpu (snd (instruction s0))) = cycles (cpu s0)).
    { apply instructions_cases in Hi as [(e & Hin & ->) | ->].
      - pose proof table_cost as Hall. rewrite List.Forall_forall in Hall.
        apply (Hall e Hin).
      - revert s0. generalize (fst fetch). intros op. cost_tac. }
    destruct Hc as [Hb Hcyc]. cbn [fst snd cpu cycles with_cycles].
    split; [exact Hb |]. intros _. rewrite Hcyc. subst s0.
    by destruct (cpu s).
  - cbn [fst snd]. split; [lia |]. intros Hop.
    unfold instructions in Hi.
    rewrite (proj2 (Z.leb_le 0 (fst fetch))) in Hi by lia.
    rewrite (proj2 (Z.ltb_lt (fst fetch) 256)) in Hi by lia.
    discriminate.
Qed.

(** X14: [step()] returns between 2 and 6 cycles whatever it executes,
    so the frame loop always advances; when the opcode fetched is a byte
    the cycle counter of the CPU grows by exactly the value returned. *)
Theorem step_cost s :
  2 <= fst (step s) <= 6
  /\ (0 <= fst (read (memory s) (reg_PC (cpu s)) (devices s)) <= 255 ->
      cycles (cpu (snd (step s))) = cycles (cpu s) + fst (step s)).
Proof. exact (step_cycles s). Qed.

Section ProgramCounter.

Variable good : Dev -> Prop.

Ltac ok_side :=
  repeat first
    [ assumption
    | apply (read_byte good)
    | apply (read_good good)
    | apply (write_memory_ok good)
    | apply (write_good good) ].

Ltac pc_goal :=
  unfold pc_16bit; cbn [cpu reg_PC];
  first
    [ assumption
    | apply land_ffff_range
    | apply word_range; ok_side
    | rewrite Z.lor_comm; apply word_range; ok_side ].

Ltac pc_tac :=
  intros [[a x y sp pc n v b d i z c cyc] m dv lg bs]
         ((HA & HX & HY & HSP) & Hm & Hd) Hpc;
  unfold pc_16bit in Hpc;
  cbn [cpu memory devices reg_A reg_X reg_Y reg_SP reg_PC] in *;
  execute_all; pc_goal.

Lemma table_pc :
  Forall (fun entry => forall s,
            sane good s -> pc_16bit s -> pc_16bit (snd (snd entry s)))
         (table (Dev := Dev)).
Proof.
  unfold table.
  repeat (apply List.Forall_cons; [cbn [snd]; pc_tac |]).
  apply List.Forall_nil.
Qed.

Lemma step_pc s : sane good s -> pc_16bit (snd (step s)).
Proof.
  intros Hs. rewrite step_unfold. cbv zeta.
  set (fetch := read (memory s) (reg_PC (cpu s)) (devices s)).
  set (s0 := mkMachine _ _ _ _ _).
  assert (Hs0 : sane good s0 /\ pc_16bit s0).
  { destruct Hs as ((HA & HX & HY & HSP) & Hm & Hd). subst s0 fetch.
    split; [| apply land_ffff_range].
    destruct (cpu s). split; [done |]. split; [done |].
    cbn [devices]. by apply (read_good good). }
  destruct Hs0 as [Hs0 Hpc0].
  destruct (instructions (fst fetch)) as [instruction |] eqn:Hi.
  - cbn [snd]. unfold pc_16bit. cbn [cpu].
    assert (H1 : pc_16bit (snd (instruction s0))).
    { apply instructions_cases in Hi as [(e & Hin & ->) | ->].
      - pose proof table_pc as Hall. rewrite List.Forall_forall in Hall.
        by apply (Hall e Hin).
      - exact Hpc0. }
    unfold pc_16bit in H1. by destruct (cpu (snd (instruction s0))).
  - cbn [snd]. unfold pc_16bit. cbn [cpu]. destruct (cpu s).
    apply land_ffff_range.
Qed.

Lemma interrupt_pc (vector : Z) s :
  sane good s -> pc_16bit (snd (interrupt vector s)).
Proof.
  revert s. intros [[a x y sp pc n v b d i z c cyc] m dv lg bs]
    ((HA & HX & HY & HSP) & Hm & Hd).
  cbn [cpu memory devices reg_A reg_X reg_Y reg_SP reg_PC] in *.
  execute_all. pc_goal.
Qed.

Lemma reset_pc s : sane good s -> pc_16bit (snd (reset s)).
Proof.
  revert s. intros [[a x y sp pc n v b d i z c cyc] m dv lg bs]
    ((HA & HX & HY & HSP) & Hm & Hd).
  cbn [cpu memory devices reg_A reg_X reg_Y reg_SP reg_PC] in *.
  execute_all. pc_goal.
Qed.

(** X15: on a machine whose memory cells and handler reads are bytes,
    the program counter stays a 16-bit value under any sequence of
    instructions, interrupts and resets: every jump target, return
    address and vector is assembled from two bytes or masked. *)
Theorem pc_stays_16bit (es : list Event) s :
  sane good s -> pc_16bit s -> pc_16bit (run_events es s).
Proof.
  revert s. induction es as [| e es IH]; intros s Hs Hpc; [exact Hpc |].
  change (pc_16bit (run_events es (fire s e))).
  apply IH.
  - destruct e; unfold fire.
    + by apply step_keeps.
    + by apply irq_keeps.
    + by apply nmi_keeps.
    + by apply reset_keeps.
  - destruct e; unfold fire.
    + by apply step_pc.
    + destruct (flag_I (cpu s)) eqn:Hi.
      * by rewrite irq_masked.
      * rewrite irq_clear by done. by apply interrupt_pc.
    + by apply interrupt_pc.
    + by apply reset_pc.
Qed.

End ProgramCounter.

End EveryInstruction.

(** ** MOS6502: flags *)

Section Flags.

Import MOS6502.

Context {Dev : Type}.
Implicit Types (s : Machine Dev).

Ltac execute :=
  cbv [table load_with store_with transfer step_reg branch_if compare_with
       set_flag immediate zeroPage zeroPageX zeroPageY absolute absoluteX
       absoluteY indirect indirectX indirectY relative
       interrupt irq nmi reset step push16 pull16 push pull
       JSR RTS PHA PLA RTI setP setNZ advance illegal
       mem_read16 mem_read mem_write gets modify log bind ret
       cpu memory devices console bus
       reg_A reg_X reg_Y reg_SP reg_PC flag_N flag_V flag_B flag_D flag_I
       flag_Z flag_C cycles
       with_A with_X with_Y with_SP with_PC with_N with_V with_B with_D
       with_I with_Z with_C with_cycles];
  cbn [fst snd].

Lemma negative_bit (x : Z) :
  0 <= x <= 255 -> negb (Z.land x 0x80 =? 0) = (128 <=? x).
Proof.
  intros Hx. apply Bool.eqb_prop.
  revert x Hx. apply byte_forall. vm_compute. reflexivity.
Qed.

Lemma difference_zero (a v : Z) :
  0 <= a <= 255 -> 0 <= v <= 255 ->
  (Z.land (a - v) 0xFF =? 0) = (a =? v).
Proof.
  intros Ha Hv. rewrite land_ff_mod.
  destruct (Z.eqb_spec a v) as [-> | Hne].
  - by rewrite Z.sub_diag.
  - apply Z.eqb_neq. destruct (Z.lt_ge_cases a v) as [Hlt | Hge].
    + rewrite <- (Z_mod_plus_full (a - v) 1 256).
      rewrite Z.mod_small by lia. lia.
    + rewrite Z.mod_small by lia. lia.
Qed.

Lemma pc_plus_two (pc : Z) :
  Z.land (Z.land (pc + 1) 0xFFFF + 1) 0xFFFF = Z.land (pc + 2) 0xFFFF.
Proof.
  rewrite !land_ffff_mod, Z.add_mod_idemp_l by lia.
  f_equal. lia.
Qed.

(** X16: CMP #operand leaves the accumulator alone and sets carry exactly
    when A >= operand, zero exactly when A = operand, and negative from
    bit 7 of the difference modulo 256; it takes two bytes and two
    cycles and writes no memory. *)
Theorem CMP_immediate s :
  let pc := reg_PC (cpu s) in
  let fetch := read (memory s) pc (devices s) in
  let operand := read (memory s) (Z.land (pc + 1) 0xFFFF) (snd fetch) in
  fst fetch = 0xC9 ->
  0 <= reg_A (cpu s) <= 255 ->
  0 <= fst operand <= 255 ->
  let c' := cpu (snd (step s)) in
  flag_C c' = (fst operand <=? reg_A (cpu s))
  /\ flag_Z c' = (reg_A (cpu s) =? fst operand)
  /\ flag_N c' = (128 <=? (reg_A (cpu s) - fst operand) mod 256)
  /\ reg_A c' = reg_A (cpu s)
  /\ reg_PC c' = Z.land (pc + 2) 0xFFFF
  /\ fst (step s) = 2
  /\ memory (snd (step s)) = memory s.
Proof.
  intros pc fetch operand Hop HA Hv c'. subst c'.
  rewrite step_unfold. cbv zeta. fold pc. fold fetch. rewrite Hop.
  change (instructions (Dev := Dev) 0xC9) with (Some (compare_with (Dev := Dev) reg_A)).
  destruct s as [[a x y sp pc0 n v b d i z c cyc] m dv lg bs].
  cbn [cpu memory devices reg_PC reg_A] in *. subst pc.
  execute. fold fetch. fold operand.
  rewrite Z.geb_leb, (difference_zero a (fst operand) HA Hv), pc_plus_two.
  rewrite negative_bit by apply land_ff_range. rewrite land_ff_mod.
  done.
Qed.

(** X17: each load, transfer, increment, decrement and PLA leaves the
    zero flag set exactly when the register it has set is 0 and the
    negative flag set exactly when that register is 128 or more, on a
    machine whose memory cells and handler reads are bytes. *)
Theorem register_flags (good : Dev -> Prop) s (opcode : Z) (reg : CPU -> Z) :
  In (opcode, reg) nz_opcodes ->
  sane good s ->
  fst (read (memory s) (reg_PC (cpu s)) (devices s)) = opcode ->
  let c' := cpu (snd (step s)) in
  flag_Z c' = (reg c' =? 0) /\ flag_N c' = (128 <=? reg c').
Proof.
  intros Hin ((HA & HX & HY & HSP) & Hm & Hd) Hop c'. subst c'.
  rewrite step_unfold. cbv zeta. rewrite Hop.
  assert (Hg : good (snd (read (memory s) (reg_PC (cpu s)) (devices s))))
    by (by apply (read_good good)).
  destruct s as [[a x y sp pc0 n v b d i z c cyc] m dv lg bs].
  cbn [cpu memory devices reg_PC reg_A reg_X reg_Y reg_SP] in *.
  unfold nz_opcodes in Hin.
  repeat (destruct Hin as [[= <- <-] | Hin];
    [ match goal with
      | |- context [instructions ?op] =>
          let h := eval cbv [assigned find table fst snd Z.eqb Pos.eqb] in
                     (assigned (Dev := Dev) op) in
          match h with
          | Some ?i => change (instructions op) with (Some i)
          end
      end;
      execute; split; [reflexivity |];
      apply negative_bit;
      repeat first [ assumption | apply land_ff_range
                   | apply (read_byte good) | apply (read_good good) ]
    | ]).
  destruct Hin.
Qed.

End Flags.

(** ** VIC-II: the raster clock *)

Section RasterClock.

Import VIC2.

Lemma below_forall (n : nat) (P : Z -> bool) :
  forallb P (map Z.of_nat (seq 0 n)) = true ->
  forall v, 0 <= v < Z.of_nat n -> P v = true.
Proof.
  intros Hall v Hv. rewrite forallb_forall in Hall. apply Hall.
  apply in_map_iff. exists (Z.to_nat v). split; [lia |].
  apply in_seq. lia.
Qed.

Lemma cycle_clock (v : VIC2.t) :
  raster_in_range v ->
  raster_in_range (cycle v)
  /\ raster_clock (cycle v) = (raster_clock v + 1) mod 19656.
Proof.
  intros [Hy Hc]. unfold raster_in_range, raster_clock, cycle.
  destruct (cycleCounter v + 1 >=? 63) eqn:E1; rewrite Z.geb_leb in E1.
  - apply Z.leb_le in E1.
    destruct (rasterY v + 1 >=? 312) eqn:E2; rewrite Z.geb_leb in E2;
      cbn [rasterY cycleCounter].
    + apply Z.leb_le in E2.
      assert (Hy' : rasterY v = 311) by lia.
      assert (Hc' : cycleCounter v = 62) by lia.
      rewrite Hy', Hc'. split; [lia | reflexivity].
    + apply Z.leb_gt in E2. rewrite Z.mod_small by lia. lia.
  - apply Z.leb_gt in E1. cbn [rasterY cycleCounter].
    rewrite Z.mod_small by lia. lia.
Qed.

Lemma cycles_clock (n : nat) (v : VIC2.t) :
  raster_in_range v ->
  raster_in_range (cycles n v)
  /\ raster_clock (cycles n v) = (raster_clock v + Z.of_nat n) mod 19656.
Proof.
  intros Hv. induction n as [| n [IHr IHc]].
  - split; [exact Hv |]. change (cycles 0 v) with v.
    destruct Hv as [Hy Hc]. unfold raster_clock.
    rewrite Z.add_0_r, Z.mod_small; lia.
  - rewrite cycles_S. destruct (cycle_clock _ IHr) as [Hr Hc].
    split; [exact Hr |]. rewrite Hc, IHc, Z.add_mod_idemp_l by lia.
    f_equal. lia.
Qed.

Lemma cycles_add (a b : nat) (v : VIC2.t) :
  cycles (a + b) v = cycles a (cycles b v).
Proof. unfold cycles. apply Nat.iter_add. Qed.

Lemma cycle_registers (v : VIC2.t) :
  registers (cycle v) = registers v
  /\ borderColor (cycle v) = borderColor v
  /\ backgroundColor (cycle v) = backgroundColor v.
Proof.
  unfold cycle.
  destruct (cycleCounter v + 1 >=? 63); [| done].
  by destruct (rasterY v + 1 >=? 312).
Qed.

Lemma cycles_registers (n : nat) (v : VIC2.t) :
  registers (cycles n v) = registers v
  /\ borderColor (cycles n v) = borderColor v
  /\ backgroundColor (cycles n v) = backgroundColor v.
Proof.
  induction n as [| n (IH1 & IH2 & IH3)]; [done |].
  rewrite cycles_S.
  destruct (cycle_registers (cycles n v)) as (H1 & H2 & H3).
  by rewrite H1, H2, H3.
Qed.

Lemma cycles_frameComplete (n : nat) (v : VIC2.t) :
  frameComplete v = true -> frameComplete (cycles n v) = true.
Proof.
  intros H. induction n as [| n IH]; [exact H |].
  rewrite cycles_S. unfold cycle.
  destruct (cycleCounter (cycles n v) + 1 >=? 63); [| exact IH].
  by destruct (rasterY (cycles n v) + 1 >=? 312).
Qed.

Lemma clock_position (v v' : VIC2.t) :
  raster_in_range v -> raster_in_range v' ->
  raster_clock v = raster_clock v' ->
  raster_position v = raster_position v'.
Proof.
  unfold raster_in_range, raster_clock, raster_position.
  intros [Hy Hc] [Hy' Hc'] H.
  assert (rasterY v = rasterY v') as -> by lia.
  assert (cycleCounter v = cycleCounter v') as -> by lia.
  reflexivity.
Qed.



Lemma frame_position (v : VIC2.t) :
  raster_in_range v ->
  raster_position (cycles (Z.to_nat 19656) v) = raster_position v.
Proof.
  intros Hv. destruct (cycles_clock (Z.to_nat 19656) v Hv) as [Hr Hc].
  apply clock_position; [exact Hr | exact Hv |].
  rewrite Hc, Z2Nat.id by lia.
  rewrite <- (Z.mul_1_l 19656) at 1. rewrite Z.mod_add by lia.
  destruct Hv as [Hy Hk]. unfold raster_clock. apply Z.mod_small. lia.
Qed.

Lemma frame_flag (v : VIC2.t) :
  raster_in_range v -> frameComplete (cycles (Z.to_nat 19656) v) = true.
Proof.
  intros Hv. pose proof Hv as [Hy Hk].
  set (k := Z.to_nat (19655 - raster_clock v)).
  set (r := Z.to_nat (raster_clock v)).
  assert (Hsplit : Z.to_nat 19656 = (r + S k)%nat).
  { subst k r. unfold raster_clock. lia. }
  rewrite Hsplit, cycles_add. apply cycles_frameComplete.
  rewrite cycles_S.
  destruct (cycles_clock k v Hv) as [[Hy' Hk'] Hc].
  assert (Hend : raster_clock (cycles k v) = 19655).
  { rewrite Hc. subst k. unfold raster_clock. rewrite Z2Nat.id by lia.
    replace (63 * rasterY v + cycleCounter v
             + (19655 - (63 * rasterY v + cycleCounter v))) with 19655 by lia.
    reflexivity. }
  unfold raster_clock in Hend. unfold cycle.
  assert (Hy1 : rasterY (cycles k v) = 311) by lia.
  assert (Hk1 : cycleCounter (cycles k v) = 62) by lia.
  rewrite Hy1, Hk1. reflexivity.
Qed.

(** X18: on a chip inside the frame, [n] calls of [cycle()] move the
    raster clock 63 * rasterY + cycleCounter forward by [n] modulo
    63 * 312 = 19656: the line is the quotient by 63 and the cycle
    counter the remainder; registers and colors are left alone. *)
Theorem raster_clock_advance (n : nat) (v : VIC2.t) :
  raster_in_range v ->
  let t := (raster_clock v + Z.of_nat n) mod 19656 in
  rasterY (cycles n v) = t / 63
  /\ cycleCounter (cycles n v) = t mod 63
  /\ registers (cycles n v) = registers v.
Proof.
  intros Hv t. destruct (cycles_clock n v Hv) as [[Hy Hk] Hc].
  fold t in Hc. unfold raster_clock in Hc.
  split; [| split].
  - apply Z.div_unique with (cycleCounter (cycles n v)); lia.
  - apply Z.mod_unique with (rasterY (cycles n v)); lia.
  - apply cycles_registers.
Qed.

(** X19: the [cyclesPerFrame] of PAL mode is one full frame of the
    VIC-II: after that many calls of [cycle()] the chip is back on the
    line and cycle it started from, [frameComplete] is raised, and
    registers and colors are untouched. *)
Theorem frame_of_cycles (v : VIC2.t) :
  raster_in_range v ->
  let v' := cycles (Z.to_nat cyclesPerFrame_PAL) v in
  raster_position v' = raster_position v
  /\ frameComplete v' = true
  /\ registers v' = registers v
  /\ borderColor v' = borderColor v
  /\ backgroundColor v' = backgroundColor v.
Proof.
  intros Hv v'. subst v'. unfold cyclesPerFrame_PAL.
  split; [by apply frame_position |].
  split; [by apply frame_flag |].
  apply cycles_registers.
Qed.

End RasterClock.

(** ** VIC-II: registers *)

Section RasterRegisters.

Import VIC2.

Lemma raster_compose (y : Z) :
  0 <= y < 512 ->
  Z.lor (Z.land y 0xFF)
        (Z.shiftl (Z.land (Z.shiftr (Z.land y 0x100) 1) 0x80) 1) = y.
Proof.
  intros Hy. apply Z.eqb_eq.
  apply (below_forall 512
           (fun y => Z.lor (Z.land y 0xFF)
                       (Z.shiftl (Z.land (Z.shiftr (Z.land y 0x100) 1) 0x80) 1)
                     =? y)); [vm_compute; reflexivity | lia].
Qed.

Lemma raster_bit_high (y r : Z) :
  Z.land (Z.lor (Z.shiftr (Z.land y 0x100) 1) (Z.land r 0x7F)) 0x80
  = Z.land (Z.shiftr (Z.land y 0x100) 1) 0x80.
Proof.
  rewrite Z.land_lor_distr_l, <- (Z.land_assoc r).
  change (Z.land 0x7F 0x80) with 0. by rewrite Z.land_0_r, Z.lor_0_r.
Qed.

Lemma raster_bits_low (y r : Z) :
  Z.land (Z.lor (Z.shiftr (Z.land y 0x100) 1) (Z.land r 0x7F)) 0x7F
  = Z.land r 0x7F.
Proof.
  rewrite Z.land_lor_distr_l, Z.shiftr_land, <- !Z.land_assoc.
  change (Z.land (Z.shiftr 0x100 1) 0x7F) with 0.
  change (Z.land 0x7F 0x7F) with 0x7F.
  by rewrite Z.land_0_r, Z.lor_0_l.
Qed.

(** X20: the two raster registers read back the current line: the
    register at 0x12 gives its low eight bits and bit 7 of the register
    at 0x11 its ninth bit, at every mirror of the register file; the low
    seven bits of 0x11 are those last written. *)
Theorem raster_registers_read (v : VIC2.t) (a11 a12 : Z) :
  Z.land a11 0x3F = 0x11 ->
  Z.land a12 0x3F = 0x12 ->
  0 <= rasterY v < 512 ->
  Z.lor (read v a12) (Z.shiftl (Z.land (read v a11) 0x80) 1) = rasterY v
  /\ Z.land (read v a11) 0x7F = Z.land (U8.get (registers v) 0x11) 0x7F.
Proof.
  intros H11 H12 Hy. unfold read. rewrite H11, H12.
  change (0x12 =? 0x12) with true. change (0x11 =? 0x12) with false.
  change (0x11 =? 0x11) with true. cbv iota.
  split.
  - rewrite raster_bit_high. by apply raster_compose.
  - apply raster_bits_low.
Qed.

(** X21: a value written to a VIC-II register other than the two raster
    registers is read back modulo 256 at every mirror of that register;
    a write to the raster register 0x12 is not read back; no write moves
    the raster position or changes what another register reads. *)
Theorem vic_write_read (v : VIC2.t) (a a' value : Z) :
  let reg := Z.land a 0x3F in
  (Z.land a' 0x3F = reg -> reg <> 0x11 -> reg <> 0x12 ->
   read (write v a value) a' = value mod 256)
  /\ (Z.land a' 0x3F = reg -> reg = 0x12 ->
      read (write v a value) a' = read v a')
  /\ (Z.land a' 0x3F <> reg -> read (write v a value) a' = read v a')
  /\ raster_position (write v a value) = raster_position v.
Proof.
  intros reg. subst reg. unfold read, write. cbn [registers rasterY].
  split; [| split; [| split]].
  - intros -> H11 H12.
    apply Z.eqb_neq in H11, H12. rewrite H11, H12.
    apply U8_get_set_eq.
  - intros -> H12. rewrite H12. reflexivity.
  - intros Hne.
    destruct (Z.land a' 0x3F =? 0x12); [reflexivity |].
    rewrite U8_get_set_ne by done.
    reflexivity.
  - reflexivity.
Qed.

Lemma latch_bit (x : Z) :
  Z.lor ((Z.lor x 0x01) mod 256) 0x01 = Z.lor x 0x01 mod 256.
Proof.
  rewrite <- !land_ff_mod, Z.land_lor_distr_l.
  change (Z.land 0x01 0xFF) with 0x01.
  by rewrite <- Z.lor_assoc, Z.lor_diag.
Qed.

Lemma truthy_bit0 (x : Z) : truthy (Z.land x 0x01) = Z.testbit x 0.
Proof. apply (truthy_land_pow2 x 0). lia. Qed.

Lemma checkRasterIRQ_unfold (v : VIC2.t) :
  checkRasterIRQ v
  = if rasterY v =? Z.lor (U8.get (registers v) 0x12)
                      (Z.shiftl (Z.land (U8.get (registers v) 0x11) 0x80) 1)
    then (Z.testbit (U8.get (registers v) 0x1A) 0,
          mk (U8.set (registers v) 0x19
                     (Z.lor (U8.get (registers v) 0x19) 0x01))
             (rasterY v) (cycleCounter v) (frameComplete v)
             (borderColor v) (backgroundColor v))
    else (false, v).
Proof.
  unfold checkRasterIRQ. cbn [registers].
  rewrite U8_get_set_ne by done. rewrite truthy_bit0.
  destruct (rasterY v =? _); [| reflexivity].
  by destruct (Z.testbit (U8.get (registers v) 0x1A) 0).
Qed.

(** X22: [checkRasterIRQ()] returns true exactly when the raster line
    equals the line composed from registers 0x12 and bit 7 of 0x11 and
    bit 0 of register 0x1A is set; on a match it sets bit 0 of register
    0x19 whether or not the interrupt is enabled, and changes nothing
    else; without a match it changes nothing; a second call changes
    nothing more. *)
Theorem checkRasterIRQ_latch (v : VIC2.t) :
  let line := Z.lor (U8.get (registers v) 0x12)
                (Z.shiftl (Z.land (U8.get (registers v) 0x11) 0x80) 1) in
  let v' := snd (checkRasterIRQ v) in
  (fst (checkRasterIRQ v) = true
   <-> rasterY v = line /\ Z.testbit (U8.get (registers v) 0x1A) 0 = true)
  /\ (rasterY v = line ->
      Z.testbit (U8.get (registers v') 0x19) 0 = true
      /\ forall r, r <> 0x19 -> U8.get (registers v') r = U8.get (registers v) r)
  /\ (rasterY v <> line -> v' = v)
  /\ raster_position v' = raster_position v
  /\ frameComplete v' = frameComplete v
  /\ snd (checkRasterIRQ v') = v'.
Proof.
  intros line v'. subst v'. rewrite (checkRasterIRQ_unfold v). fold line.
  destruct (Z.eqb_spec (rasterY v) line) as [Heq | Hne]; cbn [fst snd].
  - split; [| split; [| split; [| split; [| split]]]].
    + intuition.
    + intros _. cbn [registers]. split.
      * rewrite U8_get_set_eq, <- land_ff_mod, Z.land_spec, Z.lor_spec.
        change (Z.testbit 1 0) with true. by rewrite orb_true_r.
      * intros r Hr. by rewrite U8_get_set_ne.
    + intros Hne. by destruct Hne.
    + reflexivity.
    + reflexivity.
    + rewrite checkRasterIRQ_unfold.
      cbn [registers rasterY cycleCounter frameComplete
           borderColor backgroundColor].
      rewrite !(U8_get_set_ne _ 0x19) by done. fold line.
      rewrite (proj2 (Z.eqb_eq (rasterY v) line) Heq). cbn [snd].
      f_equal.
      rewrite U8_get_set_eq, latch_bit. unfold U8.set.
      rewrite Z.mod_mod by lia. apply insert_insert_eq.
  - split; [| split; [| split; [| split; [| split]]]].
    + split; [discriminate | by intros [? _]].
    + by intros ?.
    + done.
    + done.
    + done.
    + rewrite checkRasterIRQ_unfold. fold line.
      by rewrite (proj2 (Z.eqb_neq (rasterY v) line) Hne).
Qed.

End RasterRegisters.

(** ** The wired chips *)

Section WiredChips.

Implicit Types (m : Memory Chips) (c : Chips).

(** The window of the first CIA leads to that chip, whatever else the
    memory holds. *)
Lemma connected_cia1 m (a : Z) :
  ioHandlers m = [] ->
  0xDC00 <= a <= 0xDCFF ->
  exists h,
    io_dispatch (ioHandlers (connectComponents m)) a = Some h
    /\ (forall c, h_read h a c = (CIA.read (cia1 c) a, c))
    /\ (forall v c, h_write h a v c
                    = mkChips (vic c) (sid c) (CIA.write (cia1 c) a v) (cia2 c)).
Proof.
  intros Hm Ha. unfold connectComponents, setIOHandler. cbn [ioHandlers].
  rewrite Hm. cbn [map_set h_start h_end andb Z.eqb Pos.eqb io_dispatch].
rewrite (proj2 (Z.leb_le 0xD000 a)) by lia.
  rewrite (proj2 (Z.leb_gt a 0xD3FF)) by lia.
  rewrite (proj2 (Z.leb_le 0xD400 a)) by lia.
  rewrite (proj2 (Z.leb_gt a 0xD7FF)) by lia.
  rewrite (proj2 (Z.leb_le 0xDC00 a)) by lia.
  rewrite (proj2 (Z.leb_le a 0xDCFF)) by lia.
  cbn [andb]. eexists. split; [reflexivity |]. by split.
Qed.

Lemma land_0f_mirror (a a' v : Z) (regs : gmap Z Z) :
  Z.land a 0x0F = Z.land a' 0x0F ->
  CIA.read (CIA.write (CIA.mk regs) a v) a' = v mod 256.
Proof.
  intros H. unfold CIA.read, CIA.write. cbn [CIA.registers].
  rewrite H. apply U8_get_set_eq.
Qed.

(** X23: on the memory wired by [connectComponents], a write into
    0xDC00-0xDCFF goes to the first CIA and nowhere else, and a read at
    any address of the window with the same low four bits returns the
    value written modulo 256, whatever the bank bits say. *)
Theorem cia1_window m c (a a' v : Z) :
  ioHandlers m = [] ->
  0xDC00 <= a <= 0xDCFF ->
  0xDC00 <= a' <= 0xDCFF ->
  Z.land a 0x0F = Z.land a' 0x0F ->
  let m' := connectComponents m in
  let w := write m' a v c in
  fst w = m'
  /\ fst (read m' a' (snd w)) = v mod 256
  /\ snd (read m' a' (snd w)) = snd w
  /\ vic (snd w) = vic c /\ sid (snd w) = sid c /\ cia2 (snd w) = cia2 c.
Proof.
  intros Hm Ha Ha' Hlow m' w. subst w m'.
  destruct (connected_cia1 m a Hm Ha) as (h & Hh & _ & Hwrite).
  destruct (connected_cia1 m a' Hm Ha') as (h' & Hh' & Hread & _).
  unfold write, read.
  rewrite (land_ffff_id a), (land_ffff_id a') by lia.
  rewrite (proj2 (Z.eqb_neq a 1)) by lia.
  assert (Hc : between 0xD800 0xDBFF a = false)
    by (unfold between; apply andb_false_iff; right; apply Z.leb_gt; lia).
  assert (Hc' : between 0xD800 0xDBFF a' = false)
    by (unfold between; apply andb_false_iff; right; apply Z.leb_gt; lia).
  rewrite Hc, Hc', Hh, Hh'. cbn [fst snd]. rewrite Hwrite, Hread.
  cbn [fst snd cia1 vic sid cia2].
  split; [reflexivity |]. split; [| done].
  destruct (cia1 c) as [regs]. rewrite land_0f_mirror by exact Hlow.
  rewrite land_ff_mod. apply Z.mod_mod. lia.
Qed.

(** ** SID: voice frequency *)

Lemma frequency_low_high (f lo hi : Z) :
  0 <= lo <= 255 -> 0 <= hi <= 255 ->
  Z.lor (Z.land (Z.lor (Z.land f 0xFF00) lo) 0x00FF) (Z.shiftl hi 8)
  = lo + 256 * hi.
Proof.
  intros Hlo Hhi.
  rewrite Z.land_lor_distr_l, <- Z.land_assoc.
  change (Z.land 0xFF00 0x00FF) with 0.
  rewrite Z.land_0_r, Z.lor_0_l, (land_ff_id lo Hlo).
  rewrite Z.shiftl_mul_pow2 by lia. change (2 ^ 8) with 256.
  assert (Hnc : Z.land lo (hi * 256) = 0).
  { apply Z.bits_inj'. intros n Hn. rewrite Z.land_spec, Z.bits_0.
    destruct (Z.lt_ge_cases n 8) as [Hlt | Hge].
    - change 256 with (2 ^ 8).
      rewrite Z.mul_pow2_bits_low by lia. apply andb_false_r.
    - by rewrite (byte_high_bits lo n) by lia. }
  rewrite <- Z.lxor_lor, <- Z.add_nocarry_lxor by exact Hnc. lia.
Qed.

Lemma frequency_high_low (f lo hi : Z) :
  0 <= lo <= 255 -> 0 <= hi <= 255 ->
  Z.lor (Z.land (Z.lor (Z.land f 0x00FF) (Z.shiftl hi 8)) 0xFF00) lo
  = lo + 256 * hi.
Proof.
  intros Hlo Hhi.
  rewrite <- (frequency_low_high 0 lo hi Hlo Hhi).
  change (Z.land 0 0xFF00) with 0. rewrite Z.lor_0_l, (land_ff_id lo Hlo).
  rewrite Z.land_lor_distr_l, <- Z.land_assoc.
  change (Z.land 0x00FF 0xFF00) with 0. rewrite Z.land_0_r, Z.lor_0_l.
  rewrite Z.lor_comm. f_equal.
  apply Z.bits_inj'. intros n Hn. rewrite Z.land_spec.
  destruct (Z.lt_ge_cases n 8) as [Hlt | Hge].
  - by rewrite Z.shiftl_spec_low.
  - rewrite Z.shiftl_spec by lia.
    destruct (Z.lt_ge_cases n 16) as [Hlt' | Hge'].
    + replace (Z.testbit 0xFF00 n) with true; [apply andb_true_r |].
      symmetry. change 0xFF00 with (Z.shiftl (Z.ones 8) 8).
      rewrite Z.shiftl_spec by lia. apply Z.ones_spec_low. lia.
    + rewrite (byte_high_bits hi (n - 8)) by lia. reflexivity.
Qed.

(** X24: the two frequency registers of each SID voice compose a 16-bit
    frequency: after the low byte [lo] and the high byte [hi] have been
    written, in either order and at any mirror of the register file, the
    frequency of the voice is lo + 256 * hi, whatever it was before. *)
Theorem sid_frequency (s : SID.t) (k a_lo a_hi lo hi : Z) :
  0 <= k <= 2 ->
  Z.land a_lo 0x1F = 7 * k ->
  Z.land a_hi 0x1F = 7 * k + 1 ->
  0 <= lo <= 255 -> 0 <= hi <= 255 ->
  let voice_of (t : SID.t) :=
    let '(v1, v2, v3) := SID.voices t in
    if k =? 0 then v1 else if k =? 1 then v2 else v3 in
  SID.frequency (voice_of (SID.write (SID.write s a_lo lo) a_hi hi))
  = lo + 256 * hi
  /\ SID.frequency (voice_of (SID.write (SID.write s a_hi hi) a_lo lo))
     = lo + 256 * hi.
Proof.
  intros Hk Hlo_r Hhi_r Hlo Hhi voice_of. subst voice_of.
  unfold SID.write. rewrite Hlo_r, Hhi_r.
  destruct (SID.voices s) as [[v1 v2] v3]. cbn [SID.voices].
  assert (Hcases : k = 0 \/ k = 1 \/ k = 2) by lia.
  destruct Hcases as [-> | [-> | ->]];
    vm_compute Z.mul; vm_compute Z.add; cbv [Z.leb Z.eqb Z.compare Pos.compare Pos.compare_cont Pos.eqb andb];
    cbv [SID.voice_write Z.eqb Pos.eqb]; cbn [SID.frequency];
    (split; [by apply frequency_low_high | by apply frequency_high_low]).
Qed.

End WiredChips.

(** ** MOS6502: opcode names *)

Section OpcodeNames.

Import MOS6502.

Context {Dev : Type}.

(** X25: every opcode [getOpcodeName] has a name for is one
    [buildInstructionTable] assigns a handler to: the name is '???' for
    every opcode left to the illegal-opcode filler. *)
Theorem named_opcodes_assigned (opcode : Z) :
  assigned (Dev := Dev) opcode = None -> getOpcodeName opcode = "???"%string.
Proof.
  intros Hnone. unfold getOpcodeName.
  destruct (find _ names) as [[op name] |] eqn:Hname; [| reflexivity].
  exfalso. apply find_some in Hname as [Hin Hop]. cbn [fst] in Hop.
  apply Z.eqb_eq in Hop. subst op.
  assert (Hall : Forall (fun entry => assigned (Dev := Dev) (fst entry) <> None)
                   names).
  { unfold names.
    repeat (apply List.Forall_cons;
            [cbv [assigned find table fst snd Z.eqb Pos.eqb]; discriminate |]).
    apply List.Forall_nil. }
  rewrite List.Forall_forall in Hall.
  by apply (Hall _ Hin).
Qed.

End OpcodeNames.

(** ** C64Emulator: the frame loop *)

Section FrameLoopProperties.

Import MOS6502.

Implicit Types (s : Machine Chips).










End FrameLoopProperties.

(** ** MOS6502: branches *)

Section Branches.

Import MOS6502.

Context {Dev : Type}.
Implicit Types (s : Machine Dev).

Ltac execute :=
  cbv [table load_with store_with transfer step_reg branch_if compare_with
       set_flag immediate zeroPage zeroPageX zeroPageY absolute absoluteX
       absoluteY indirect indirectX indirectY relative
       interrupt irq nmi reset step push16 pull16 push pull
       JSR RTS PHA PLA RTI setP setNZ advance illegal
       mem_read16 mem_read mem_write gets modify log bind ret
       cpu memory devices console bus
       reg_A reg_X reg_Y reg_SP reg_PC flag_N flag_V flag_B flag_D flag_I
       flag_Z flag_C cycles
       with_A with_X with_Y with_SP with_PC with_N with_V with_B with_D
       with_I with_Z with_C with_cycles];
  cbn [fst snd].

Lemma pc_after_branch (pc offset : Z) :
  Z.land (Z.land (Z.land (pc + 1) 0xFFFF + 1) 0xFFFF + offset) 0xFFFF
  = (pc + 2 + offset) mod 65536.
Proof.
  rewrite !land_ffff_mod, Z.add_mod_idemp_l by lia.
  rewrite <- Z.add_assoc, Z.add_mod_idemp_l by lia.
  f_equal. lia.
Qed.

Lemma pc_after_operand (pc : Z) :
  Z.land (Z.land (pc + 1) 0xFFFF + 1) 0xFFFF = (pc + 2) mod 65536.
Proof.
  rewrite !land_ffff_mod, Z.add_mod_idemp_l by lia.
  f_equal. lia.
Qed.

(** X28: BNE, BEQ, BPL and BMI read their operand as a two's-complement
    offset between -128 and 127: when the flag tested has the value the
    branch asks for, PC becomes the address after the operand plus that
    offset, modulo 65536, and the instruction costs 3 cycles; otherwise
    PC is the address after the operand and the cost is 2. Neither case
    touches a flag, a register or memory. *)
Theorem branch_target s (opcode : Z) (taken : CPU -> bool) :
  In (opcode, taken) branch_opcodes ->
  let pc := reg_PC (cpu s) in
  let fetch := read (memory s) pc (devices s) in
  let operand := read (memory s) (Z.land (pc + 1) 0xFFFF) (snd fetch) in
  fst fetch = opcode ->
  0 <= fst operand <= 255 ->
  let offset := if fst operand <? 0x80 then fst operand
                else fst operand - 256 in
  let c' := cpu (snd (step s)) in
  -128 <= offset <= 127
  /\ reg_PC c' = (if taken (cpu s) then (pc + 2 + offset) mod 65536
                  else (pc + 2) mod 65536)
  /\ fst (step s) = (if taken (cpu s) then 3 else 2)
  /\ getP c' = getP (cpu s)
  /\ (reg_A c', reg_X c', reg_Y c', reg_SP c')
     = (reg_A (cpu s), reg_X (cpu s), reg_Y (cpu s), reg_SP (cpu s))
  /\ memory (snd (step s)) = memory s.
Proof.
  intros Hin pc fetch operand Hop Ho offset c'. subst c'.
  split.
  { subst offset. destruct (Z.ltb_spec (fst operand) 0x80); lia. }
  rewrite step_unfold. cbv zeta. fold pc. fold fetch. rewrite Hop.
  destruct s as [[a x y sp pc0 n v b d i z c cyc] m dv lg bs].
  cbn [cpu memory devices reg_PC reg_A reg_X reg_Y reg_SP] in *. subst pc.
  unfold branch_opcodes in Hin.
  repeat (destruct Hin as [[= <- <-] | Hin];
    [ match goal with
      | |- context [instructions ?op] =>
          let h := eval cbv [assigned find table fst snd Z.eqb Pos.eqb] in
                     (assigned (Dev := Dev) op) in
          match h with
          | Some ?i => change (instructions op) with (Some i)
          end
      end;
      execute; fold fetch; fold operand; fold offset;
      match goal with
      | |- context [if ?t then _ else _] =>
          match t with
          | context [offset] => fail 1
          | _ => destruct t
          end
      end;
      execute; fold fetch; fold operand; fold offset;
      rewrite ?pc_after_branch, ?pc_after_operand;
      (split; [reflexivity |]); (split; [reflexivity |]);
      unfold getP; cbn [flag_N flag_V flag_B flag_D flag_I flag_Z flag_C];
      by repeat split
    | ]).
  destruct Hin.
Qed.

End Branches.

(** ** SID: registers *)

Section SIDRegisters.

(** X29: a SID register other than 0x19-0x1C reads back the value last
    written modulo 256, at every mirror of the register file, and the
    read changes nothing; the paddle registers 0x19 and 0x1A read 0xFF
    whatever was written. *)
Theorem sid_write_read (s : SID.t) (a a' v : Z) :
  let reg := Z.land a 0x1F in
  Z.land a' 0x1F = reg ->
  (reg < 0x19 \/ 0x1C < reg ->
   SID.read (SID.write s a v) a' = (v mod 256, SID.write s a v))
  /\ (reg = 0x19 \/ reg = 0x1A ->
      SID.read (SID.write s a v) a' = (0xFF, SID.write s a v)).
Proof.
  intros reg Hreg. unfold SID.read. rewrite Hreg.
  split; intros H.
  - rewrite (proj2 (Z.eqb_neq reg 0x1B)), (proj2 (Z.eqb_neq reg 0x1C)),
      (proj2 (Z.eqb_neq reg 0x19)), (proj2 (Z.eqb_neq reg 0x1A)) by lia.
    f_equal. unfold SID.write. fold reg.
    destruct (SID.voices s) as [[v1 v2] v3]. cbn [SID.registers].
    apply U8_get_set_eq.
  - rewrite (proj2 (Z.eqb_neq reg 0x1B)), (proj2 (Z.eqb_neq reg 0x1C)) by lia.
    destruct H as [-> | ->]; reflexivity.
Qed.

End SIDRegisters.

(** * Instances *)

Section FurtherWitnesses.

Import MOS6502.

Lemma machine1_sane (pc : Z) : sane chips_good (machine1 pc).
Proof.
  split; [| split].
  - unfold registers_8bit, byte. simpl. lia.
  - unfold machine1, memory0. cbn [memory].
    split; [| split; [| split]].
    + apply bytes_only_list. repeat constructor; unfold byte; simpl; lia.
    + apply bytes_only_list. repeat constructor; unfold byte; simpl; lia.
    + apply bytes_only_list. repeat constructor; unfold byte; simpl; lia.
    + cbn [set_ram ioHandlers]. apply connected_handlers_ok. constructor.
  - apply chips0_good.
Qed.

Lemma io_area_only_machine0 (pc : Z) :
  io_area_only (ioHandlers (memory (machine0 pc))).
Proof. repeat constructor; simpl; lia. Qed.

Lemma getP_setP_witness :
  0 <= 0x81 <= 255
  /\ getP (cpu (snd (setP 0x81 (machine0 0x1000)))) = 0xA1.
Proof.
  assert (H : 0 <= 0x81 <= 255) by lia.
  split; [exact H |].
  rewrite (getP_setP (machine0 0x1000) 0x81 H). reflexivity.
Defined.

Lemma write16_read16_witness :
  2 <= 0x0400 < 0x9FFF
  /\ io_dispatch (ioHandlers memory0) 0x0400 = None
  /\ io_dispatch (ioHandlers memory0) (0x0400 + 1) = None
  /\ read16 (fst (write16 memory0 0x0400 0xBEEF chips0)) 0x0400
            (snd (write16 memory0 0x0400 0xBEEF chips0))
     = (0xBEEF, chips0).
Proof.
  assert (H1 : 2 <= 0x0400 < 0x9FFF) by lia.
  assert (H2 : io_dispatch (ioHandlers memory0) 0x0400 = None)
    by (vm_compute; reflexivity).
  assert (H3 : io_dispatch (ioHandlers memory0) (0x0400 + 1) = None)
    by (vm_compute; reflexivity).
  refine (conj H1 (conj H2 (conj H3 _))).
  rewrite (write16_read16 memory0 chips0 0x0400 0xBEEF H1 H2 H3).
  reflexivity.
Defined.

Lemma load_read_back_witness :
  2 <= 0x0801
  /\ 0x0801 + Z.of_nat (length [0x0B; 0x108; 0x0A]) <= 0xA000
  /\ read (fst (load memory0 0x0801 [0x0B; 0x108; 0x0A] chips0)) 0x0802 chips0
     = (0x08, chips0).
Proof.
  assert (H1 : 2 <= 0x0801) by lia.
  assert (H2 : 0x0801 + Z.of_nat (length [0x0B; 0x108; 0x0A]) <= 0xA000)
    by (simpl; lia).
  assert (H3 : forall k,
             0x0801 <= k < 0x0801 + Z.of_nat (length [0x0B; 0x108; 0x0A]) ->
             io_dispatch (ioHandlers memory0) k = None).
  { intros k Hk. simpl in Hk.
    assert (Hcases : k = 0x0801 \/ k = 0x0802 \/ k = 0x0803) by lia.
    destruct Hcases as [-> | [-> | ->]]; vm_compute; reflexivity. }
  refine (conj H1 (conj H2 _)).
  destruct (load_read_back memory0 chips0 0x0801 [0x0B; 0x108; 0x0A] H1 H2 H3)
    as (_ & Hread & _).
  assert (Hi : (1 < length [0x0B; 0x108; 0x0A])%nat) by (simpl; lia).
  exact (Hread 1%nat Hi).
Defined.

Lemma setIOHandler_dispatch_witness :
  between 0xDE00 0xDEFF 0xDE10 = true
  /\ io_dispatch (ioHandlers memory0) 0xDE10 = None
  /\ io_dispatch
       (ioHandlers (setIOHandler memory0 0xDE00 0xDEFF
                      (fun _ c => (0xEE, c)) (fun _ _ c => c))) 0xDE10
     = Some (mkHandler 0xDE00 0xDEFF (fun _ c => (0xEE, c)) (fun _ _ c => c)).
Proof.
  assert (H1 : between 0xDE00 0xDEFF 0xDE10 = true) by reflexivity.
  assert (H2 : io_dispatch (ioHandlers memory0) 0xDE10 = None)
    by (vm_compute; reflexivity).
  refine (conj H1 (conj H2 _)).
  destruct (setIOHandler_dispatch memory0 0xDE00 0xDEFF
              (fun _ c => (0xEE, c)) (fun _ _ c => c) 0xDE10)
    as (_ & Hnew & _).
  exact (Hnew H1 H2).
Defined.

Lemma clear_reads_witness :
  0 <= 0x0400 <= 0xFFFF
  /\ io_dispatch (ioHandlers memory0) 0x0400 = None
  /\ rom_visible (bankConfig memory0) 0x0400 = false
  /\ read (clear memory0) 0x0400 chips0 = (0, chips0).
Proof.
  assert (H1 : 0 <= 0x0400 <= 0xFFFF) by lia.
  assert (H2 : io_dispatch (ioHandlers memory0) 0x0400 = None)
    by (vm_compute; reflexivity).
  assert (H3 : rom_visible (bankConfig memory0) 0x0400 = false)
    by (vm_compute; reflexivity).
  refine (conj H1 (conj H2 (conj H3 _))).
  destruct (clear_reads memory0 chips0 0x0400 H1 H2 H3) as (Hread & _).
  rewrite Hread. reflexivity.
Defined.

Lemma push_pull_witness :
  0 <= reg_SP (cpu (machine0 0x1000)) <= 255
  /\ fst (pull (snd (push 0x1AB (machine0 0x1000)))) = 0xAB
  /\ cpu (snd (pull (snd (push 0x1AB (machine0 0x1000)))))
     = cpu (machine0 0x1000).
Proof.
  assert (H0 : 0 <= reg_SP (cpu (machine0 0x1000)) <= 255) by (simpl; lia).
  split; [exact H0 |].
  destruct (push_pull (machine0 0x1000) 0x1AB
              (io_area_only_machine0 0x1000) H0) as (Hv & Hcpu & _).
  split; [rewrite Hv; reflexivity | exact Hcpu].
Defined.

Lemma push16_pull16_witness :
  0 <= reg_SP (cpu (machine0 0x1000)) <= 255
  /\ fst (pull16 (snd (push16 0x1BEEF (machine0 0x1000)))) = 0xBEEF.
Proof.
  assert (H0 : 0 <= reg_SP (cpu (machine0 0x1000)) <= 255) by (simpl; lia).
  split; [exact H0 |].
  destruct (push16_pull16 (machine0 0x1000) 0x1BEEF
              (io_area_only_machine0 0x1000) H0) as (Hv & _).
  rewrite Hv. reflexivity.
Defined.

Lemma JSR_RTS_witness :
  0 <= reg_SP (cpu (machine0 0x1001)) <= 255
  /\ reg_PC (cpu (snd (JSR (machine0 0x1001)))) = 0x02FF
  /\ reg_PC (cpu (snd (RTS (snd (JSR (machine0 0x1001)))))) = 0x1003.
Proof.
  assert (H0 : 0 <= reg_SP (cpu (machine0 0x1001)) <= 255) by (simpl; lia).
  split; [exact H0 |].
  destruct (JSR_RTS (machine0 0x1001) (io_area_only_machine0 0x1001) H0)
    as (Hcall & Hback).
  split.
  - rewrite Hcall. vm_compute. reflexivity.
  - rewrite Hback. reflexivity.
Defined.

Lemma irq_RTI_witness :
  0 <= reg_SP (cpu (machine0 0x1000)) <= 255
  /\ 0 <= reg_PC (cpu (machine0 0x1000)) <= 0xFFFF
  /\ flag_I (cpu (machine0 0x1000)) = false
  /\ flag_I (cpu (snd (irq (machine0 0x1000)))) = true
  /\ cpu (snd (RTI (snd (irq (machine0 0x1000))))) = cpu (machine0 0x1000).
Proof.
  assert (H0 : 0 <= reg_SP (cpu (machine0 0x1000)) <= 255) by (simpl; lia).
  assert (H1 : 0 <= reg_PC (cpu (machine0 0x1000)) <= 0xFFFF) by (simpl; lia).
  assert (H2 : flag_I (cpu (machine0 0x1000)) = false) by reflexivity.
  refine (conj H0 (conj H1 (conj H2 _))).
  destruct (irq_RTI (machine0 0x1000) (io_area_only_machine0 0x1000) H0 H1 H2)
    as (_ & Hi & Hback).
  exact (conj Hi Hback).
Defined.

Lemma step_cost_witness :
  0 <= fst (read (memory (machine0 0x1000)) (reg_PC (cpu (machine0 0x1000)))
                 (devices (machine0 0x1000))) <= 255
  /\ cycles (cpu (snd (step (machine0 0x1000)))) = 5.
Proof.
  assert (H0 : 0 <= fst (read (memory (machine0 0x1000))
                              (reg_PC (cpu (machine0 0x1000)))
                              (devices (machine0 0x1000))) <= 255)
    by (vm_compute; split; discriminate).
  split; [exact H0 |].
  destruct (step_cost (machine0 0x1000)) as (_ & Hcycles).
  rewrite (Hcycles H0). vm_compute. reflexivity.
Defined.

Lemma pc_stays_16bit_witness :
  pc_16bit (machine0 0x1000)
  /\ pc_16bit (run_events [DoStep; DoIrq; DoStep] (machine0 0x1000)).
Proof.
  assert (H0 : pc_16bit (machine0 0x1000)) by (unfold pc_16bit; simpl; lia).
  split; [exact H0 |].
  exact (pc_stays_16bit chips_good [DoStep; DoIrq; DoStep] (machine0 0x1000)
           (machine0_sane 0x1000) H0).
Defined.

Lemma CMP_immediate_witness :
  fst (read (memory (machine1 0x3000)) 0x3000 chips0) = 0xC9
  /\ flag_C (cpu (snd (step (machine1 0x3000)))) = false
  /\ flag_Z (cpu (snd (step (machine1 0x3000)))) = false
  /\ flag_N (cpu (snd (step (machine1 0x3000)))) = true.
Proof.
  assert (Hop : fst (read (memory (machine1 0x3000)) 0x3000 chips0) = 0xC9)
    by (vm_compute; reflexivity).
  split; [exact Hop |].
  assert (HA : 0 <= reg_A (cpu (machine1 0x3000)) <= 255) by (simpl; lia).
  assert (Hv : 0 <= fst (read (memory (machine1 0x3000))
                           (Z.land (reg_PC (cpu (machine1 0x3000)) + 1) 0xFFFF)
                           (snd (read (memory (machine1 0x3000))
                                      (reg_PC (cpu (machine1 0x3000)))
                                      (devices (machine1 0x3000))))) <= 255)
    by (vm_compute; split; discriminate).
  destruct (CMP_immediate (machine1 0x3000) Hop HA Hv)
    as (HC & HZ & HN & _).
  split; [rewrite HC; vm_compute; reflexivity |].
  split; [rewrite HZ; vm_compute; reflexivity |].
  rewrite HN. vm_compute. reflexivity.
Defined.

Lemma register_flags_witness :
  In (0xA9, reg_A) nz_opcodes
  /\ fst (read (memory (machine1 0x3010)) 0x3010 chips0) = 0xA9
  /\ reg_A (cpu (snd (step (machine1 0x3010)))) = 0x80
  /\ flag_N (cpu (snd (step (machine1 0x3010)))) = true
  /\ flag_Z (cpu (snd (step (machine1 0x3010)))) = false.
Proof.
  assert (Hin : In (0xA9, reg_A) nz_opcodes) by (left; reflexivity).
  assert (Hop : fst (read (memory (machine1 0x3010)) 0x3010 chips0) = 0xA9)
    by (vm_compute; reflexivity).
  assert (HA : reg_A (cpu (snd (step (machine1 0x3010)))) = 0x80)
    by (vm_compute; reflexivity).
  refine (conj Hin (conj Hop (conj HA _))).
  destruct (register_flags chips_good (machine1 0x3010) 0xA9 reg_A Hin
              (machine1_sane 0x3010) Hop) as (HZ & HN).
  split; [rewrite HN, HA | rewrite HZ, HA]; reflexivity.
Defined.

Lemma raster_clock_advance_witness :
  raster_in_range VIC2.new
  /\ VIC2.rasterY (VIC2.cycles 100 VIC2.new) = 1
  /\ VIC2.cycleCounter (VIC2.cycles 100 VIC2.new) = 37.
Proof.
  assert (H0 : raster_in_range VIC2.new)
    by (unfold raster_in_range; simpl; lia).
  split; [exact H0 |].
  destruct (raster_clock_advance 100 VIC2.new H0) as (Hy & Hc & _).
  split; [rewrite Hy | rewrite Hc]; vm_compute; reflexivity.
Defined.

Lemma frame_of_cycles_witness :
  raster_in_range VIC2.new
  /\ raster_position (VIC2.cycles (Z.to_nat cyclesPerFrame_PAL) VIC2.new)
     = (0, 0)
  /\ VIC2.frameComplete (VIC2.cycles (Z.to_nat cyclesPerFrame_PAL) VIC2.new)
     = true.
Proof.
  assert (H0 : raster_in_range VIC2.new)
    by (unfold raster_in_range; simpl; lia).
  split; [exact H0 |].
  destruct (frame_of_cycles VIC2.new H0) as (Hpos & Hflag & _).
  split; [rewrite Hpos; reflexivity | exact Hflag].
Defined.

Lemma raster_registers_read_witness :
  Z.land 0xD011 0x3F = 0x11 /\ Z.land 0xD012 0x3F = 0x12
  /\ 0 <= VIC2.rasterY vic_line_300 < 512
  /\ VIC2.read vic_line_300 0xD012 = 44
  /\ Z.lor (VIC2.read vic_line_300 0xD012)
           (Z.shiftl (Z.land (VIC2.read vic_line_300 0xD011) 0x80) 1) = 300.
Proof.
  assert (H11 : Z.land 0xD011 0x3F = 0x11) by reflexivity.
  assert (H12 : Z.land 0xD012 0x3F = 0x12) by reflexivity.
  assert (Hy : 0 <= VIC2.rasterY vic_line_300 < 512) by (simpl; lia).
  refine (conj H11 (conj H12 (conj Hy (conj _ _)))).
  - vm_compute. reflexivity.
  - exact (proj1 (raster_registers_read vic_line_300 0xD011 0xD012
                    H11 H12 Hy)).
Defined.

Lemma vic_write_read_witness :
  Z.land 0xD060 0x3F = Z.land 0xD020 0x3F
  /\ VIC2.read (VIC2.write VIC2.new 0xD020 0x10E) 0xD060 = 0x0E.
Proof.
  assert (Hm : Z.land 0xD060 0x3F = Z.land 0xD020 0x3F) by reflexivity.
  split; [exact Hm |].
  destruct (vic_write_read VIC2.new 0xD020 0xD060 0x10E) as (Hback & _).
  rewrite Hback; [reflexivity | exact Hm | discriminate | discriminate].
Defined.

Lemma checkRasterIRQ_latch_witness :
  VIC2.rasterY vic_irq_enabled = 0
  /\ fst (checkRasterIRQ vic_irq_enabled) = true
  /\ Z.testbit (U8.get (VIC2.registers (snd (checkRasterIRQ vic_irq_enabled)))
                       0x19) 0 = true.
Proof.
  assert (Hy : VIC2.rasterY vic_irq_enabled = 0) by reflexivity.
  split; [exact Hy |].
  destruct (checkRasterIRQ_latch vic_irq_enabled) as (Hiff & Hlatch & _).
  split.
  - apply Hiff. split; vm_compute; reflexivity.
  - apply Hlatch. vm_compute. reflexivity.
Defined.

Lemma cia1_window_witness :
  ioHandlers (Memory_new (Dev := Chips)) = []
  /\ Z.land 0xDC0D 0x0F = Z.land 0xDC1D 0x0F
  /\ fst (read (connectComponents Memory_new) 0xDC1D
               (snd (write (connectComponents Memory_new) 0xDC0D 0x17F chips0)))
     = 0x7F.
Proof.
  assert (H0 : ioHandlers (Memory_new (Dev := Chips)) = []) by reflexivity.
  assert (H1 : 0xDC00 <= 0xDC0D <= 0xDCFF) by lia.
  assert (H2 : 0xDC00 <= 0xDC1D <= 0xDCFF) by lia.
  assert (H3 : Z.land 0xDC0D 0x0F = Z.land 0xDC1D 0x0F) by reflexivity.
  refine (conj H0 (conj H3 _)).
  destruct (cia1_window Memory_new chips0 0xDC0D 0xDC1D 0x17F H0 H1 H2 H3)
    as (_ & Hread & _).
  rewrite Hread. reflexivity.
Defined.

Lemma sid_frequency_witness :
  Z.land 0xD407 0x1F = 7 * 1 /\ Z.land 0xD408 0x1F = 7 * 1 + 1
  /\ SID.frequency
       (snd (fst (SID.voices
                    (SID.write (SID.write (SID.new []) 0xD407 0x34)
                               0xD408 0x12)))) = 0x1234.
Proof.
  assert (Hk : 0 <= 1 <= 2) by lia.
  assert (Hlo_r : Z.land 0xD407 0x1F = 7 * 1) by reflexivity.
  assert (Hhi_r : Z.land 0xD408 0x1F = 7 * 1 + 1) by reflexivity.
  assert (Hlo : 0 <= 0x34 <= 255) by lia.
  assert (Hhi : 0 <= 0x12 <= 255) by lia.
  refine (conj Hlo_r (conj Hhi_r _)).
  exact (proj1 (sid_frequency (SID.new []) 1 0xD407 0xD408 0x34 0x12
                  Hk Hlo_r Hhi_r Hlo Hhi)).
Defined.

Lemma named_opcodes_assigned_witness :
  assigned (Dev := Chips) 0x02 = None
  /\ getOpcodeName 0x02 = "???"%string.
Proof.
  assert (H0 : assigned (Dev := Chips) 0x02 = None) by reflexivity.
  split; [exact H0 |].
  exact (named_opcodes_assigned (Dev := Chips) 0x02 H0).
Defined.




Lemma branch_target_witness :
  In (0xD0, fun c => negb (flag_Z c)) branch_opcodes
  /\ fst (read (memory (machine1 0x3020)) 0x3020 chips0) = 0xD0
  /\ reg_PC (cpu (snd (step (machine1 0x3020)))) = 0x301E
  /\ fst (step (machine1 0x3020)) = 3.
Proof.
  assert (Hin : In (0xD0, fun c => negb (flag_Z c)) branch_opcodes)
    by (left; reflexivity).
  assert (Hop : fst (read (memory (machine1 0x3020)) 0x3020 chips0) = 0xD0)
    by (vm_compute; reflexivity).
  assert (Hv : 0 <= fst (read (memory (machine1 0x3020))
                           (Z.land (reg_PC (cpu (machine1 0x3020)) + 1) 0xFFFF)
                           (snd (read (memory (machine1 0x3020))
                                      (reg_PC (cpu (machine1 0x3020)))
                                      (devices (machine1 0x3020))))) <= 255)
    by (vm_compute; split; discriminate).
  refine (conj Hin (conj Hop _)).
  destruct (branch_target (machine1 0x3020) 0xD0 (fun c => negb (flag_Z c))
              Hin Hop Hv) as (_ & Hpc & Hcost & _).
  split; [rewrite Hpc | rewrite Hcost]; vm_compute; reflexivity.
Defined.

Lemma sid_write_read_witness :
  Z.land 0xD438 0x1F = Z.land 0xD418 0x1F
  /\ fst (SID.read (SID.write (SID.new []) 0xD418 0x10F) 0xD438) = 0x0F.
Proof.
  assert (Hm : Z.land 0xD438 0x1F = Z.land 0xD418 0x1F) by reflexivity.
  split; [exact Hm |].
  destruct (sid_write_read (SID.new []) 0xD418 0xD438 0x10F Hm) as (Hback & _).
  rewrite Hback; [reflexivity | left; vm_compute; reflexivity].
Defined.

End FurtherWitnesses.
